(** * Listing and chat repositories over a remote document store

    A shallow embedding of the two data-access services of the classifieds
    front-end ([listingService], [chatService]) and of the submit handler of
    the edit page, together with the part of the document-store client they
    call.  JavaScript objects are finite maps from field names to values, the
    store is a finite map from collection names to collections, and every
    asynchronous service function is a computation over the state of the
    world that either returns a value or throws. *)

From stdpp Require Import gmap strings list fin_maps sorting.
From Stdlib Require Import ZArith.

Local Open Scope string_scope.
Local Open Scope list_scope.
Local Open Scope Z_scope.

(** ** JavaScript values and objects *)

Module Js.

(** The values that occur in listing and message records.  [VTimestamp] is
    the store's timestamp type, carried by its reading in milliseconds (what
    is below a millisecond is left out); [VServerTimestamp] is the sentinel
    returned by [serverTimestamp()]. *)
Inductive Value : Type :=
| VUndefined
| VBool (b : bool)
| VNum (n : Z)
| VStr (s : string)
| VArr (l : list string)
| VTimestamp (millis : Z)
| VServerTimestamp.

#[global] Instance Value_eq_dec : EqDecision Value.
Proof. solve_decision. Defined.

#[global] Instance Value_inhabited : Inhabited Value := populate VUndefined.

(** An object is a finite map from property names to values.  A property
    may be present and hold [VUndefined]. *)
Abbreviation Obj := (gmap string Value).

(** Property read [o.k]: a missing property reads as [undefined]. *)
Definition get (o : Obj) (k : string) : Value := default VUndefined (o !! k).

(** Truthiness, as tested by [!x]. *)
Definition truthy (v : Value) : bool :=
  match v with
  | VUndefined => false
  | VBool b => b
  | VNum n => negb (n =? 0)%Z
  | VStr s => negb (String.eqb s "")
  | VArr _ | VTimestamp _ | VServerTimestamp => true
  end.

(** [x instanceof Timestamp ? x.toMillis() : x] *)
Definition millisIfTimestamp (v : Value) : Value :=
  match v with
  | VTimestamp t => VNum t
  | _ => v
  end.

(** Strings, numbers, booleans and [undefined] are compared by value; an
    array or a timestamp is an object, equal to itself only. *)
Definition isPrimitive (v : Value) : bool :=
  match v with
  | VUndefined | VBool _ | VNum _ | VStr _ => true
  | VArr _ | VTimestamp _ | VServerTimestamp => false
  end.

(** [s.add(v)] on a JavaScript [Set], kept in insertion order.  The values
    added by the services are read from a document on the spot, so an
    object among them is a new one and not in the set yet. *)
Definition set_add (s : list Value) (v : Value) : list Value :=
  if isPrimitive v && bool_decide (v ∈ s) then s else s ++ [v].

(** A string that may be [undefined], as a value. *)
Definition optional (s : option string) : Value :=
  match s with
  | Some s => VStr s
  | None => VUndefined
  end.

(** [l.sort(cmp)]: the sort is stable, so for a consistent comparison the
    result is the one of inserting the elements one after the other, each
    behind the elements that do not come after it. *)
Fixpoint sort_insert {A} (cmp : A -> A -> Z) (x : A) (sorted : list A) : list A :=
  match sorted with
  | [] => [x]
  | y :: rest => if (cmp y x <=? 0)%Z then y :: sort_insert cmp x rest
                 else x :: y :: rest
  end.

Definition sort {A} (cmp : A -> A -> Z) (l : list A) : list A :=
  foldl (fun sorted x => sort_insert cmp x sorted) [] l.

End Js.
Import Js.

(** ** types.ts *)

Inductive AdStatus : Type := PENDING | ACTIVE | REJECTED.

Definition AdStatus_value (s : AdStatus) : Value :=
  match s with
  | PENDING => VStr "pending"
  | ACTIVE => VStr "active"
  | REJECTED => VStr "rejected"
  end.

Coercion AdStatus_value : AdStatus >-> Value.

Record Subcategory : Type := {
  sub_id : string;
  sub_name : string;
  sub_icon : option string
}.

Record Category : Type := {
  cat_id : string;
  cat_name : string;
  subcategories : list Subcategory;
  cat_icon : string
}.

(** ** The document store client, as far as the services use it *)

Module Firestore.

(** Client settings.  [getFirestore(app)] in firebaseConfig uses the
    defaults, under which an [undefined] field value is refused. *)
Record Settings : Type := { ignoreUndefinedProperties : bool }.

Definition defaultSettings : Settings := {| ignoreUndefinedProperties := false |}.

Inductive Error : Type :=
| RequiredField (message : string)
| InvalidData
| NotFound (collection id : string)
| InvalidPath.

#[global] Instance Error_eq_dec : EqDecision Error.
Proof. solve_decision. Defined.

(** Writes that reached the store, oldest first. *)
Inductive Write : Type :=
| WAdd (collection id : string) (data : Obj)
| WUpdate (collection id : string) (data : Obj)
| WDelete (collection id : string)
| WCommit (updates : list (string * string * Obj)).

#[global] Instance Write_eq_dec : EqDecision Write.
Proof. solve_decision. Defined.

Record World : Type := {
  settings : Settings;
  db : gmap string (gmap string Obj);   (* collection name -> id -> data *)
  serverTime : Z;                        (* the store's clock *)
  localTime : Z;                         (* Date.now() *)
  writes : list Write
}.

Inductive Outcome (A : Type) : Type :=
| Returned (a : A)
| Thrown (e : Error).
Arguments Returned {A} a.
Arguments Thrown {A} e.

(** An asynchronous function: runs on the world, returns or throws. *)
Definition M (A : Type) : Type := World -> Outcome A * World.

Definition ret {A} (a : A) : M A := fun w => (Returned a, w).
Definition throw {A} (e : Error) : M A := fun w => (Thrown e, w).
Definition bind {A B} (m : M A) (k : A -> M B) : M B :=
  fun w => match m w with
           | (Returned a, w') => k a w'
           | (Thrown e, w') => (Thrown e, w')
           end.

#[global] Instance M_ret : MRet M := @ret.
#[global] Instance M_bind : MBind M := fun A B k m => bind m k.

Definition docs (w : World) (c : string) : gmap string Obj :=
  default ∅ (db w !! c).

Definition set_docs (c : string) (ds : gmap string Obj) (wr : Write) (w : World) : World :=
  {| settings := settings w;
     db := <[c := ds]> (db w);
     serverTime := serverTime w;
     localTime := localTime w;
     writes := writes w ++ [wr] |}.

(** Time passing and other clients writing between two awaits. *)
Definition interleave (env : World -> World) : M unit :=
  fun w => (Returned tt, env w).

(** [Date.now()] *)
Definition Date_now : M Z := fun w => (Returned (localTime w), w).

(** *** Parsing of user data

    A field holding [undefined] is refused with "Unsupported field value:
    undefined", or dropped when the client was configured with
    [ignoreUndefinedProperties]; removing a field takes the [deleteField()]
    sentinel, which the services never use.  The [serverTimestamp()]
    sentinel is replaced by the store's time when the write is applied.
    Field names are top-level names: the listing and message schemas have
    no nested maps. *)
Definition defined (v : Value) : Prop := v ≠ VUndefined.

#[global] Instance defined_dec v : Decision (defined v).
Proof. unfold defined. apply _. Defined.

Definition noUndefined (data : Obj) : Prop :=
  map_Forall (fun _ v => defined v) data.

Definition parseData (s : Settings) (data : Obj) : option Obj :=
  if ignoreUndefinedProperties s
  then Some (filter (fun kv => defined kv.2) data)
  else if decide (noUndefined data) then Some data else None.

Definition resolve (t : Z) (v : Value) : Value :=
  match v with
  | VServerTimestamp => VTimestamp t
  | _ => v
  end.

(** Auto-generated document ids are non-empty and not in use. *)
Definition autoId (ds : gmap string Obj) : string :=
  fresh ({[ "" ]} ∪ dom ds).

Definition addDoc (c : string) (data : Obj) : M string :=
  fun w =>
    match parseData (settings w) data with
    | None => (Thrown InvalidData, w)
    | Some fields =>
        let id := autoId (docs w c) in
        (Returned id,
         set_docs c (<[id := resolve (serverTime w) <$> fields]> (docs w c))
                  (WAdd c id data) w)
    end.

(** [updateDoc] merges the given fields into an existing document and
    fails when there is none. *)
Definition updateDoc (c id : string) (data : Obj) : M unit :=
  fun w =>
    match parseData (settings w) data with
    | None => (Thrown InvalidData, w)
    | Some fields =>
        match docs w c !! id with
        | None => (Thrown (NotFound c id), w)
        | Some old =>
            (Returned tt,
             set_docs c (<[id := (resolve (serverTime w) <$> fields) ∪ old]> (docs w c))
                      (WUpdate c id data) w)
        end
    end.

(** [deleteDoc] succeeds whether or not the document exists. *)
Definition deleteDoc (c id : string) : M unit :=
  fun w => (Returned tt, set_docs c (delete id (docs w c)) (WDelete c id) w).

(** A document snapshot: the id and, when the document exists, its data. *)
Definition getDoc (c id : string) : M (string * option Obj) :=
  fun w => (Returned (id, docs w c !! id), w).

(** *** Queries *)

Inductive Direction : Type := Asc | Desc.

Inductive Constraint : Type :=
| where_eq (field : string) (v : Value)          (* where(field, '==', v) *)
| orderBy (field : string) (dir : Direction).

Record Query : Type := query {
  q_collection : string;
  q_constraints : list Constraint
}.

(** Values of different types are ordered by type first; booleans, numbers
    and timestamps are then ordered by their value.  No query of the
    services orders by a string or an array field, and the order inside
    these two types is left out: such values count as equal. *)
Definition orderKey (v : Value) : nat * Z :=
  match v with
  | VUndefined => (0%nat, 0)
  | VBool b => (1%nat, if b then 1 else 0)
  | VNum n => (2%nat, n)
  | VTimestamp t => (3%nat, t)
  | VServerTimestamp => (3%nat, 0)
  | VStr _ => (4%nat, 0)
  | VArr _ => (8%nat, 0)
  end.

Definition key_le (a b : nat * Z) : Prop :=
  (a.1 < b.1)%nat ∨ (a.1 = b.1 ∧ a.2 ≤ b.2).

#[global] Instance key_le_dec a b : Decision (key_le a b).
Proof. unfold key_le. apply _. Defined.

Definition snapshot_le (field : string) (dir : Direction) (a b : string * Obj) : Prop :=
  match dir with
  | Asc => key_le (orderKey (get a.2 field)) (orderKey (get b.2 field))
  | Desc => key_le (orderKey (get b.2 field)) (orderKey (get a.2 field))
  end.

#[global] Instance snapshot_le_dec field dir a b : Decision (snapshot_le field dir a b).
Proof. unfold snapshot_le. destruct dir; apply _. Defined.

(** One constraint applied to the documents selected so far.  Ordering by a
    field leaves out the documents that do not have it. *)
Definition applyConstraint (snaps : list (string * Obj)) (c : Constraint) : list (string * Obj) :=
  match c with
  | where_eq field v => filter (fun s => s.2 !! field = Some v) snaps
  | orderBy field dir =>
      merge_sort (snapshot_le field dir) (filter (fun s => is_Some (s.2 !! field)) snaps)
  end.

Definition runQuery (q : Query) (ds : gmap string Obj) : list (string * Obj) :=
  foldl applyConstraint (map_to_list ds) (q_constraints q).

(** The documents of a query snapshot, [snapshot.docs]. *)
Definition getDocs (q : Query) : M (list (string * Obj)) :=
  fun w => (Returned (runQuery q (docs w (q_collection q))), w).

(** *** Batched writes *)

(** The updates collected so far: collection, id and parsed fields. *)
Abbreviation WriteBatch := (list (string * string * Obj)).

Definition writeBatch : WriteBatch := [].

(** [batch.update(doc(db, c, id), data)] parses the data at once. *)
Definition batch_update (b : WriteBatch) (c id : string) (data : Obj) : M WriteBatch :=
  fun w =>
    match parseData (settings w) data with
    | None => (Thrown InvalidData, w)
    | Some fields => (Returned (b ++ [(c, id, fields)]), w)
    end.

Definition applyUpdate (t : Z) (database : gmap string (gmap string Obj))
    (u : string * string * Obj) : gmap string (gmap string Obj) :=
  let ds := default ∅ (database !! u.1.1) in
  match ds !! u.1.2 with
  | Some old => <[u.1.1 := <[u.1.2 := (resolve t <$> u.2) ∪ old]> ds]> database
  | None => database
  end.

Definition missing (w : World) (b : WriteBatch) : list (string * string * Obj) :=
  filter (fun u => docs w u.1.1 !! u.1.2 = None) b.

(** [batch.commit()]: every update is applied, or none is. *)
Definition batch_commit (b : WriteBatch) : M unit :=
  fun w =>
    match missing w b with
    | u :: _ => (Thrown (NotFound u.1.1 u.1.2), w)
    | [] =>
        (Returned tt,
         {| settings := settings w;
            db := foldl (applyUpdate (serverTime w)) (db w) b;
            serverTime := serverTime w;
            localTime := localTime w;
            writes := writes w ++ [WCommit b] |})
    end.

(** *** Counts and listeners *)

(** [(await getCountFromServer(q)).data().count] *)
Definition getCountFromServer (q : Query) : M nat :=
  fun w => (Returned (length (runQuery q (docs w (q_collection q)))), w).

(** What a listener registered with [onSnapshot(q, ...)] is handed when the
    world is [w]: the whole result of the query. *)
Definition delivered (q : Query) (w : World) : list (string * Obj) :=
  runQuery q (docs w (q_collection q)).

End Firestore.
Import Firestore.

(** ** services/listingService.ts *)

Module listingService.

Definition LISTINGS_COLLECTION : string := "listings".

Definition fromFirestore (snapshot : string * Obj) : Obj :=
  let data := snapshot.2 in
  <["createdAt" := millisIfTimestamp (get data "createdAt")]>
    (<["id" := VStr snapshot.1]> data).

Definition getListingById (id : string) : M (option Obj) :=
  snapshot ← getDoc LISTINGS_COLLECTION id;
  mret (match snapshot.2 with
        | Some data => Some (fromFirestore (snapshot.1, data))
        | None => None
        end).

Definition createListing (productData : Obj) : M Obj :=
  if negb (truthy (get productData "userId"))
  then throw (RequiredField "User ID is required to create a listing.")
  else
    let dataToSave :=
      <["createdAt" := VServerTimestamp]> (<["status" := PENDING : Value]> productData) in
    docRef_id ← addDoc LISTINGS_COLLECTION dataToSave;
    date_now ← Date_now;
    mret (<["createdAt" := VNum date_now]>
            (<["status" := PENDING : Value]>
               (<["id" := VStr docRef_id]> productData))).

(** [updateListing] awaits twice; [env] is what the rest of the world does
    between the write and the re-read. *)
Definition updateListing_interleaved (env : World -> World)
    (id : string) (updates : Obj) : M (option Obj) :=
  let safeUpdates := delete "userId" updates in
  _ ← updateDoc LISTINGS_COLLECTION id safeUpdates;
  _ ← interleave env;
  currentDoc ← getDoc LISTINGS_COLLECTION id;
  mret (match currentDoc.2 with
        | Some data => Some (fromFirestore (currentDoc.1, data))
        | None => None
        end).

Definition updateListing (id : string) (updates : Obj) : M (option Obj) :=
  updateListing_interleaved (fun w => w) id updates.

Definition deleteListing (id : string) : M bool :=
  _ ← deleteDoc LISTINGS_COLLECTION id;
  mret true.

Definition approveListing (id : string) : M (option Obj) :=
  updateListing id
    (<["rejectionReason" := VUndefined]> {["status" := ACTIVE : Value]}).

Definition rejectListing (id : string) (reason : string) : M (option Obj) :=
  updateListing id
    (<["rejectionReason" := VStr reason]> {["status" := REJECTED : Value]}).

Definition getAllListings : M (list Obj) :=
  let q := query LISTINGS_COLLECTION [orderBy "createdAt" Desc] in
  snapshot ← getDocs q;
  mret (fromFirestore <$> snapshot).

Definition getActiveListings : M (list Obj) :=
  let q := query LISTINGS_COLLECTION
             [where_eq "status" (ACTIVE : Value); orderBy "createdAt" Desc] in
  snapshot ← getDocs q;
  mret (fromFirestore <$> snapshot).

Definition getListingsByUserId (userId : string) : M (list Obj) :=
  let q := query LISTINGS_COLLECTION
             [where_eq "userId" (VStr userId); orderBy "createdAt" Desc] in
  snapshot ← getDocs q;
  mret (fromFirestore <$> snapshot).

Definition getPendingListings : M (list Obj) :=
  let q := query LISTINGS_COLLECTION
             [where_eq "status" (PENDING : Value); orderBy "createdAt" Desc] in
  snapshot ← getDocs q;
  mret (fromFirestore <$> snapshot).

(** [x || fallback] on a string that may be [undefined]. *)
Definition orElse (x : option string) (fallback : string) : string :=
  match x with
  | Some s => if String.eqb s "" then fallback else s
  | None => fallback
  end.

(** The table [CATEGORIES] of constants.ts is an argument. *)
Definition getCategoryName (CATEGORIES : list Category) (categoryId : string) : string :=
  orElse (cat_name <$> List.find (fun c => String.eqb (cat_id c) categoryId) CATEGORIES)
         categoryId.

Definition getSubcategoryName (CATEGORIES : list Category)
    (categoryId subcategoryId : string) : string :=
  let category := List.find (fun c => String.eqb (cat_id c) categoryId) CATEGORIES in
  orElse (category ≫= fun c =>
            sub_name <$> List.find (fun sc => String.eqb (sub_id sc) subcategoryId)
                                   (subcategories c))
         subcategoryId.

End listingService.


(** ** services/chatService.ts *)

Module chatService.

Definition MESSAGES_COLLECTION : string := "messages".

Definition messageFromFirestore (snapshot : string * Obj) : Obj :=
  let data := snapshot.2 in
  <["timestamp" := millisIfTimestamp (get data "timestamp")]>
    (<["id" := VStr snapshot.1]> data).

(** [msg.senderId === currentUserId || msg.receiverId === currentUserId] *)
Definition isParticipant (currentUserId : string) (msg : Obj) : Prop :=
  get msg "senderId" = VStr currentUserId ∨ get msg "receiverId" = VStr currentUserId.

#[global] Instance isParticipant_dec u msg : Decision (isParticipant u msg).
Proof. unfold isParticipant. apply _. Defined.

Definition getMessagesForAd (adId currentUserId : string) : M (list Obj) :=
  if negb (truthy (VStr currentUserId)) then mret []
  else
    let q := query MESSAGES_COLLECTION
               [where_eq "adId" (VStr adId); orderBy "timestamp" Asc] in
    snapshot ← getDocs q;
    mret (filter (isParticipant currentUserId) (messageFromFirestore <$> snapshot)).

Definition sendMessage (adId senderId receiverId text : string) : M Obj :=
  if negb (truthy (VStr senderId)) || negb (truthy (VStr receiverId))
  then throw (RequiredField "Sender and Receiver ID are required to send a message.")
  else
    let dataToSave : Obj :=
      <["adId" := VStr adId]>
        (<["senderId" := VStr senderId]>
           (<["receiverId" := VStr receiverId]>
              (<["text" := VStr text]>
                 (<["timestamp" := VServerTimestamp]>
                    {["read" := VBool false]})))) in
    docRef_id ← addDoc MESSAGES_COLLECTION dataToSave;
    date_now ← Date_now;
    mret (<["read" := VBool false]>
            (<["timestamp" := VNum date_now]>
               (<["id" := VStr docRef_id]> dataToSave))).

(** [snapshot.docs.forEach(d => batch.update(doc(db, c, d.id), data))] *)
Fixpoint forEach_update (snaps : list (string * Obj)) (c : string) (data : Obj)
    (batch : WriteBatch) : M WriteBatch :=
  match snaps with
  | [] => mret batch
  | docSnapshot :: rest =>
      batch' ← batch_update batch c docSnapshot.1 data;
      forEach_update rest c data batch'
  end.

Definition unreadQuery (adId readerId : string) : Query :=
  query MESSAGES_COLLECTION
    [where_eq "adId" (VStr adId);
     where_eq "receiverId" (VStr readerId);
     where_eq "read" (VBool false)].

Definition markMessagesAsRead (adId readerId : string) : M unit :=
  if negb (truthy (VStr readerId)) then mret tt
  else
    snapshot ← getDocs (unreadQuery adId readerId);
    match snapshot with
    | [] => mret tt
    | _ :: _ =>
        batch ← forEach_update snapshot MESSAGES_COLLECTION
                  {["read" := VBool true]} writeBatch;
        batch_commit batch
    end.

Definition getChatsForUser (userId : string) : M (list Value) :=
  if negb (truthy (VStr userId)) then mret []
  else
    let sentMessagesQuery :=
      query MESSAGES_COLLECTION [where_eq "senderId" (VStr userId)] in
    let receivedMessagesQuery :=
      query MESSAGES_COLLECTION [where_eq "receiverId" (VStr userId)] in
    sentSnapshot ← getDocs sentMessagesQuery;
    receivedSnapshot ← getDocs receivedMessagesQuery;
    let adIds := foldl (fun s d => set_add s (get d.2 "adId")) [] sentSnapshot in
    let adIds := foldl (fun s d => set_add s (get d.2 "adId")) adIds receivedSnapshot in
    mret adIds.

Definition getUnreadMessagesCountForUser (userId : string) : M nat :=
  if negb (truthy (VStr userId)) then mret 0%nat
  else
    let q := query MESSAGES_COLLECTION
               [where_eq "receiverId" (VStr userId); where_eq "read" (VBool false)] in
    snapshot ← getDocs q;
    mret (length snapshot).

End chatService.

(** ** pages/EditListingPage.tsx *)

Module EditListingPage.

Import listingService.

(** The state of the page that [handleSubmit] reads and writes. *)
Record Page : Type := {
  isAdminEdit : bool;
  initialProduct : option Obj;
  isSubmitting : bool;
  error : option string;
  navigatedTo : option string
}.

Definition setIsSubmitting (b : bool) (p : Page) : Page :=
  {| isAdminEdit := isAdminEdit p; initialProduct := initialProduct p;
     isSubmitting := b; error := error p; navigatedTo := navigatedTo p |}.

Definition setError (e : option string) (p : Page) : Page :=
  {| isAdminEdit := isAdminEdit p; initialProduct := initialProduct p;
     isSubmitting := isSubmitting p; error := e; navigatedTo := navigatedTo p |}.

Definition navigate (to : string) (p : Page) : Page :=
  {| isAdminEdit := isAdminEdit p; initialProduct := initialProduct p;
     isSubmitting := isSubmitting p; error := error p; navigatedTo := Some to |}.

(** [listingService.updateListing(initialProduct.id, updatedProductData)]:
    a document reference needs a string id. *)
Definition updateInitial (initial updatedProductData : Obj) : M (option Obj) :=
  match get initial "id" with
  | VStr id => updateListing id updatedProductData
  | _ => throw InvalidPath
  end.

Definition updateFailed : string :=
  "Не удалось обновить объявление. Пожалуйста, попробуйте еще раз.".

Definition handleSubmit (productData : Obj) (p : Page) (w : World) : Page * World :=
  let p := setError None (setIsSubmitting true p) in
  match initialProduct p with
  | None => (p, w)
  | Some initial =>
      let finalStatus := get productData "status" in
      let finalStatus := if negb (isAdminEdit p) then PENDING : Value else finalStatus in
      let updatedProductData := <["status" := finalStatus]> productData in
      match updateInitial initial updatedProductData w with
      | (Returned _, w') =>
          let p := if isAdminEdit p
                   then navigate "/admin/manage-listings" p
                   else navigate "/my-listings" p in
          (setIsSubmitting false p, w')
      | (Thrown _, w') =>
          (setIsSubmitting false (setError (Some updateFailed) p), w')
      end
  end.

End EditListingPage.

(** The effect of the edit page that loads the listing.  The flag
    [isLoading] of the page goes beside the state [handleSubmit] uses. *)

Module EditListingPage_useEffect.

Import listingService EditListingPage.

Definition setInitialProduct (product : Obj) (p : Page) : Page :=
  {| isAdminEdit := isAdminEdit p; initialProduct := Some product;
     isSubmitting := isSubmitting p; error := error p; navigatedTo := navigatedTo p |}.

(** The page as it is mounted. *)
Definition mounted (admin : bool) : Page * bool :=
  ({| isAdminEdit := admin; initialProduct := None; isSubmitting := false;
      error := None; navigatedTo := None |}, true).

Definition noId : string := "ID объявления не указан.".
Definition noUser : string :=
  "Не удалось определить пользователя. Авторизация не пройдена.".
Definition noRights : string := "У вас нет прав для редактирования этого объявления.".
Definition notFound : string := "Объявление не найдено.".
Definition loadFailed : string := "Не удалось загрузить объявление для редактирования.".

Definition fetchProduct (productId : string) (currentUserId : option string)
    (p : Page) (w : World) : (Page * bool) * World :=
  match getListingById productId w with
  | (Returned (Some product), w') =>
      if isAdminEdit p || bool_decide (get product "userId" = optional currentUserId)
      then ((setInitialProduct product p, false), w')
      else ((setError (Some noRights) p, false), w')
  | (Returned None, w') => ((setError (Some notFound) p, false), w')
  | (Thrown _, w') => ((setError (Some loadFailed) p, false), w')
  end.

Definition useEffect (productId currentUserId : option string)
    (s : Page * bool) (w : World) : (Page * bool) * World :=
  match productId with
  | Some productId =>
      if negb (truthy (VStr productId)) then ((setError (Some noId) s.1, false), w)
      else if negb (truthy (optional currentUserId)) && negb (isAdminEdit s.1)
      then ((setError (Some noUser) s.1, false), w)
      else fetchProduct productId currentUserId s.1 w
  | None => ((setError (Some noId) s.1, false), w)
  end.

End EditListingPage_useEffect.

(** ** pages/CreateListingPage.tsx *)

Module CreateListingPage.

Import listingService.

(** The error the page shows: a text of its own, or the message of the
    error it caught. *)
Inductive Shown : Type :=
| Text (s : string)
| MessageOf (e : Error).

Record Page : Type := {
  isSubmitting : bool;
  error : option Shown;
  navigatedTo : option string
}.

Definition userUndetermined : string :=
  "Не удалось определить пользователя. Пожалуйста, убедитесь, что вы вошли в систему.".

Definition handleSubmit (currentUserId : option string) (productFormData : Obj)
    (p : Page) (w : World) : Page * World :=
  let p := {| isSubmitting := true; error := None; navigatedTo := navigatedTo p |} in
  if negb (truthy (optional currentUserId))
  then ({| isSubmitting := false; error := Some (Text userUndetermined);
           navigatedTo := navigatedTo p |}, w)
  else
    let dataToSubmit := <["userId" := optional currentUserId]> productFormData in
    match createListing dataToSubmit w with
    | (Returned _, w') =>
        ({| isSubmitting := false; error := error p;
            navigatedTo := Some "/my-listings" |}, w')
    | (Thrown err, w') =>
        ({| isSubmitting := false; error := Some (MessageOf err);
            navigatedTo := navigatedTo p |}, w')
    end.

End CreateListingPage.

(** ** MyListingsPage *)

Module MyListingsPage.

Import listingService.

Record Page : Type := {
  userListings : list Obj;
  isLoading : bool;
  error : option string;
  activeTab : AdStatus;
  showDeleteModal : bool;
  listingToDelete : option Obj;
  isDeleting : bool
}.

Definition fromFirestoreToProduct (snapshot : string * Obj) : Obj :=
  let data := snapshot.2 in
  <["createdAt" := millisIfTimestamp (get data "createdAt")]>
    (<["id" := VStr snapshot.1]> data).

(** The query of the listener on the listings of the user. *)
Definition listingsQuery (currentUserId : string) : Query :=
  query "listings" [where_eq "userId" (VStr currentUserId); orderBy "createdAt" Desc].

(** The listener is handed a snapshot. *)
Definition onListings (querySnapshot : list (string * Obj)) (p : Page) : Page :=
  {| userListings := fromFirestoreToProduct <$> querySnapshot;
     isLoading := false; error := error p; activeTab := activeTab p;
     showDeleteModal := showDeleteModal p; listingToDelete := listingToDelete p;
     isDeleting := isDeleting p |}.

Definition handleDeleteClick (product : Obj) (p : Page) : Page :=
  {| userListings := userListings p; isLoading := isLoading p; error := error p;
     activeTab := activeTab p; showDeleteModal := true;
     listingToDelete := Some product; isDeleting := isDeleting p |}.

Definition deleteFailed : string := "Ошибка при удалении объявления.".

(** [listingService.deleteListing(listingToDelete.id)]: a document reference
    needs a string id. *)
Definition deleteSelected (selected : Obj) : M bool :=
  match get selected "id" with
  | VStr id => deleteListing id
  | _ => throw InvalidPath
  end.

Definition confirmDelete (p : Page) (w : World) : Page * World :=
  match listingToDelete p with
  | None => (p, w)
  | Some selected =>
      match deleteSelected selected w with
      | (Returned _, w') =>
          ({| userListings := userListings p; isLoading := isLoading p;
              error := error p; activeTab := activeTab p;
              showDeleteModal := false; listingToDelete := None;
              isDeleting := false |}, w')
      | (Thrown _, w') =>
          ({| userListings := userListings p; isLoading := isLoading p;
              error := Some deleteFailed; activeTab := activeTab p;
              showDeleteModal := showDeleteModal p;
              listingToDelete := listingToDelete p;
              isDeleting := false |}, w')
      end
  end.

(** [userListings.filter(p => p.status === key)]: the listings of a tab;
    [filteredListings] is the one of the active tab, and the length is the
    number in the label of the tab. *)
Definition ofTab (key : AdStatus) (p : Page) : list Obj :=
  filter (fun product => get product "status" = (key : Value)) (userListings p).

Definition filteredListings (p : Page) : list Obj := ofTab (activeTab p) p.

End MyListingsPage.

(** ** AdminDashboardPage *)

Module AdminDashboardPage.

Record Stats : Type := {
  totalActive : nat;
  totalPending : nat;
  totalRejected : nat;
  totalListings : nat
}.

Record Page : Type := {
  stats : option Stats;
  isLoading : bool;
  recentPending : list Obj
}.

Definition fromFirestoreToProduct (snapshot : string * Obj) : Obj :=
  let data := snapshot.2 in
  <["createdAt" := millisIfTimestamp (get data "createdAt")]>
    (<["id" := VStr snapshot.1]> data).

Definition statusCount (status : AdStatus) : M nat :=
  getCountFromServer (query "listings" [where_eq "status" (status : Value)]).

(** The four counts are awaited one after the other; [e1], [e2] and [e3]
    are what the rest of the world does in between. *)
Definition fetchDashboardData_interleaved (e1 e2 e3 : World -> World)
    (p : Page) (w : World) : Page * World :=
  let counts : M Stats :=
    activeSnapshot ← statusCount ACTIVE;
    _ ← interleave e1;
    pendingSnapshot ← statusCount PENDING;
    _ ← interleave e2;
    rejectedSnapshot ← statusCount REJECTED;
    _ ← interleave e3;
    totalSnapshot ← getCountFromServer (query "listings" []);
    mret {| totalActive := activeSnapshot; totalPending := pendingSnapshot;
            totalRejected := rejectedSnapshot; totalListings := totalSnapshot |} in
  match counts w with
  | (Returned st, w') =>
      ({| stats := Some st; isLoading := false; recentPending := recentPending p |}, w')
  | (Thrown _, w') =>
      ({| stats := stats p; isLoading := false; recentPending := recentPending p |}, w')
  end.

Definition fetchDashboardData (p : Page) (w : World) : Page * World :=
  fetchDashboardData_interleaved (fun w => w) (fun w => w) (fun w => w) p w.

Definition recentPendingQuery : Query :=
  query "listings" [where_eq "status" (PENDING : Value); orderBy "createdAt" Desc].

(** The listener on the pending listings is handed a snapshot. *)
Definition onRecentPending (querySnapshot : list (string * Obj)) (p : Page) : Page :=
  {| stats := (fun prevStats =>
                 {| totalActive := totalActive prevStats;
                    totalPending := length querySnapshot;
                    totalRejected := totalRejected prevStats;
                    totalListings := totalListings prevStats |}) <$> stats p;
     isLoading := false;
     recentPending := take 5 (fromFirestoreToProduct <$> querySnapshot) |}.

End AdminDashboardPage.

(** ** ProductPage: the chat with the seller *)

Module ProductPage.

Import chatService.

(** The fields of the product that the chat reads, typed as in the
    interface [Product]. *)
Record Product : Type := {
  id : string;
  userId : string
}.

Record Page : Type := {
  product : option Product;
  messages : list Obj;
  newMessageText : string;
  isSendingMessage : bool;
  isLoadingMessages : bool;
  showChat : bool
}.

Definition fromFirestoreToMessage (snapshot : string * Obj) : Obj :=
  let data := snapshot.2 in
  <["timestamp" := millisIfTimestamp (get data "timestamp")]>
    (<["id" := VStr snapshot.1]> data).

(** [String.prototype.trim] is an argument. *)
Definition handleSendMessage (trim : string -> string) (currentUserId : option string)
    (p : Page) (w : World) : Page * World :=
  match product p, currentUserId with
  | Some product, Some currentUserId =>
      if negb (truthy (VStr (trim (newMessageText p))))
         || negb (truthy (VStr currentUserId))
         || String.eqb (userId product) currentUserId
      then (p, w)
      else
        match sendMessage (id product) currentUserId (userId product)
                (trim (newMessageText p)) w with
        | (Returned _, w') =>
            ({| product := Some product; messages := messages p; newMessageText := "";
                isSendingMessage := false; isLoadingMessages := isLoadingMessages p;
                showChat := showChat p |}, w')
        | (Thrown _, w') =>
            ({| product := Some product; messages := messages p;
                newMessageText := newMessageText p;
                isSendingMessage := false; isLoadingMessages := isLoadingMessages p;
                showChat := showChat p |}, w')
        end
  | _, _ => (p, w)
  end.

(** The effect registers the listener on the messages when this holds. *)
Definition listens (productId currentUserId : option string) (p : Page) : bool :=
  match productId, currentUserId, product p with
  | Some productId, Some currentUserId, Some product =>
      truthy (VStr productId) && truthy (VStr currentUserId)
      && negb (String.eqb (userId product) currentUserId) && showChat p
  | _, _, _ => false
  end.

Definition messagesQuery (productId : string) : Query :=
  query "messages" [where_eq "adId" (VStr productId); orderBy "timestamp" Asc].

(** A message between the viewer and the seller. *)
Definition between (currentUserId seller : string) (msg : Obj) : Prop :=
  (get msg "senderId" = VStr currentUserId ∧ get msg "receiverId" = VStr seller)
  ∨ (get msg "senderId" = VStr seller ∧ get msg "receiverId" = VStr currentUserId).

#[global] Instance between_dec u seller msg : Decision (between u seller msg).
Proof. unfold between. apply _. Defined.

(** [msg.receiverId === currentUserId && !msg.read] *)
Definition unreadBy (currentUserId : string) (msg : Obj) : Prop :=
  get msg "receiverId" = VStr currentUserId ∧ truthy (get msg "read") = false.

#[global] Instance unreadBy_dec u msg : Decision (unreadBy u msg).
Proof. unfold unreadBy. apply _. Defined.

(** The listener is handed a snapshot.  [markMessagesAsRead] is started and
    not awaited; it runs here at once. *)
Definition onMessages (productId currentUserId : string) (product : Product)
    (querySnapshot : list (string * Obj)) (p : Page) (w : World) : Page * World :=
  let fetchedMessages :=
    filter (between currentUserId (userId product))
           (fromFirestoreToMessage <$> querySnapshot) in
  let w' :=
    if decide (Exists (unreadBy currentUserId) fetchedMessages)
    then (markMessagesAsRead productId currentUserId w).2
    else w in
  ({| product := ProductPage.product p; messages := fetchedMessages;
      newMessageText := newMessageText p; isSendingMessage := isSendingMessage p;
      isLoadingMessages := false; showChat := showChat p |}, w').

End ProductPage.

(** ** MessagesPage: the list of chat previews *)

Module MessagesPage.

Import chatService.

Definition fromFirestoreToMessage (snapshot : string * Obj) : Obj :=
  let data := snapshot.2 in
  <["timestamp" := millisIfTimestamp (get data "timestamp")]>
    (<["id" := VStr snapshot.1]> data).

(** The query of the listener on the messages of a listing. *)
Definition adMessagesQuery (adId : string) : Query :=
  query "messages" [where_eq "adId" (VStr adId); orderBy "timestamp" Desc].

(** [a.timestamp - b.timestamp] on numbers, which is what
    [fromFirestoreToMessage] makes of the timestamps of the store.  With
    [undefined] the difference is not a number, which counts as zero in a
    sort.  Other values are coerced by the subtraction; they are not modelled
    and count as zero here. *)
Definition byTimestamp (a b : Obj) : Z :=
  match get a "timestamp", get b "timestamp" with
  | VNum ta, VNum tb => ta - tb
  | _, _ => 0
  end.

(** The listener is handed a snapshot: the messages of the user, sorted. *)
Definition messagesForAd (currentUserId : string) (msgSnapshot : list (string * Obj))
    : list Obj :=
  sort byTimestamp
    (filter (isParticipant currentUserId) (fromFirestoreToMessage <$> msgSnapshot)).

(** [messagesForAd.length > 0 ? messagesForAd[messagesForAd.length - 1] : null] *)
Definition lastMessage (messagesForAd : list Obj) : option Obj := last messagesForAd.

(** [messagesForAd.filter(msg => msg.receiverId === currentUserId && !msg.read).length],
    the [unreadCount] of the preview. *)
Definition countUnread (currentUserId : string) (messagesForAd : list Obj) : nat :=
  length (filter (ProductPage.unreadBy currentUserId) messagesForAd).

Record ChatPreview : Type := {
  adId : string;
  adTitle : string;
  adImage : string;
  lastMessageText : string;
  lastMessageTimestamp : option Z;
  lastMessageSenderId : option string;
  unreadCount : nat
}.

(** A timestamp that is neither [null] nor zero. *)
Definition hasTime (a : ChatPreview) : bool :=
  match lastMessageTimestamp a with
  | Some t => negb (t =? 0)
  | None => false
  end.

Definition time (a : ChatPreview) : Z := default 0 (lastMessageTimestamp a).

Definition comparePreviews (a b : ChatPreview) : Z :=
  if (0 <? unreadCount a)%nat && (unreadCount b =? 0)%nat then -1
  else if (0 <? unreadCount b)%nat && (unreadCount a =? 0)%nat then 1
  else if hasTime a && hasTime b then time b - time a
  else if hasTime a then -1
  else if hasTime b then 1
  else 0.

(** The update of the previews when the listener of a listing is handed a
    snapshot and has made the preview of that listing. *)
Definition updatePreviews (preview : ChatPreview) (prev : list ChatPreview)
    : list ChatPreview :=
  let updatedPreviews := filter (fun p => adId p ≠ adId preview) prev in
  sort comparePreviews (updatedPreviews ++ [preview]).

End MessagesPage.

(** ** Vocabulary of the properties *)

Import listingService chatService.

Definition listing (w : World) (id : string) : option Obj :=
  docs w LISTINGS_COLLECTION !! id.

Definition message (w : World) (id : string) : option Obj :=
  docs w MESSAGES_COLLECTION !! id.

(** The two ways a call can end, seen apart. *)
Definition returned {A} (o : Outcome A) : option A :=
  match o with Returned a => Some a | Thrown _ => None end.

Definition thrown {A} (o : Outcome A) : option Error :=
  match o with Returned _ => None | Thrown e => Some e end.

(** A field of a document that may not exist. *)
Definition field (o : option Obj) (k : string) : option Value :=
  o ≫= (fun d => d !! k).

(** What [updateDoc] leaves in a document: the parsed fields over the old ones. *)
Definition merged (w : World) (fields old : Obj) : Obj :=
  (resolve (serverTime w) <$> fields) ∪ old.

(** The six fields [sendMessage] stores. *)
Definition messageFields (adId senderId receiverId text : string)
    (timestamp : Value) (read : bool) : Obj :=
  <["adId" := VStr adId]>
    (<["senderId" := VStr senderId]>
       (<["receiverId" := VStr receiverId]>
          (<["text" := VStr text]>
             (<["timestamp" := timestamp]>
                {["read" := VBool read]})))).

(** The shape of the documents that [sendMessage] puts in the store and
    that [markMessagesAsRead] keeps: string ids, of which sender and receiver
    are non-empty, a timestamp of the store, a boolean flag. *)
Definition isStoredMessage (d : Obj) : bool :=
  match d !! "adId", d !! "senderId", d !! "receiverId", d !! "timestamp", d !! "read" with
  | Some (VStr _), Some (VStr s), Some (VStr r), Some (VTimestamp _), Some (VBool _) =>
      negb (String.eqb s "") && negb (String.eqb r "")
  | _, _, _, _, _ => false
  end.

Definition messagesWellFormed (w : World) : Prop :=
  map_Forall (fun _ d => isStoredMessage d = true) (docs w MESSAGES_COLLECTION).

(** An unread message of a listing, addressed to a reader. *)
Definition unreadFor (adId readerId : string) (d : Obj) : Prop :=
  d !! "adId" = Some (VStr adId)
  ∧ d !! "receiverId" = Some (VStr readerId)
  ∧ d !! "read" = Some (VBool false).

#[global] Instance unreadFor_dec adId readerId d : Decision (unreadFor adId readerId d).
Proof. unfold unreadFor. apply _. Defined.

Definition markRead (adId readerId : string) (d : Obj) : Obj :=
  if decide (unreadFor adId readerId d) then <["read" := VBool true]> d else d.

(** The batch [markMessagesAsRead] builds for the messages with these ids. *)
Definition readUpdates (ids : list string) : WriteBatch :=
  (fun id => (MESSAGES_COLLECTION, id, ({["read" := VBool true]} : Obj))) <$> ids.

(** The world after a batch went through. *)
Definition committed (w : World) (b : WriteBatch) : World :=
  {| settings := settings w;
     db := foldl (applyUpdate (serverTime w)) (db w) b;
     serverTime := serverTime w;
     localTime := localTime w;
     writes := writes w ++ [WCommit b] |}.

(** A message of a listing in which a user takes part. *)
Definition inConversation (adId userId : string) (d : Obj) : Prop :=
  d !! "adId" = Some (VStr adId)
  ∧ (d !! "senderId" = Some (VStr userId) ∨ d !! "receiverId" = Some (VStr userId)).

(** A user sent or received the message. *)
Definition involves (userId : string) (d : Obj) : Prop :=
  d !! "senderId" = Some (VStr userId) ∨ d !! "receiverId" = Some (VStr userId).

(** Two returned messages in ascending order of their millisecond times. *)
Definition ascending (m1 m2 : Obj) : Prop :=
  ∃ t1 t2, get m1 "timestamp" = VNum t1 ∧ get m2 "timestamp" = VNum t2 ∧ t1 ≤ t2.

(** Time passes. *)
Definition elapse (dt : Z) (w : World) : World :=
  {| settings := settings w; db := db w; serverTime := serverTime w + dt;
     localTime := localTime w + dt; writes := writes w |}.

(** The same world seen by a client configured with other settings. *)
Definition with_settings (s : Settings) (w : World) : World :=
  {| settings := s; db := db w; serverTime := serverTime w;
     localTime := localTime w; writes := writes w |}.

(** Two returned listings, the newer one first. *)
Definition newestFirst (p1 p2 : Obj) : Prop :=
  ∃ t1 t2, get p1 "createdAt" = VNum t1 ∧ get p2 "createdAt" = VNum t2 ∧ t2 ≤ t1.

(** The creation time of a stored listing is a timestamp of the store, as
    [createListing] leaves it. *)
Definition isStamped (d : Obj) : bool :=
  match d !! "createdAt" with
  | Some (VTimestamp _) => true
  | _ => false
  end.

Definition listingsStamped (w : World) : Prop :=
  map_Forall (fun _ d => isStamped d = true) (docs w LISTINGS_COLLECTION).

(** An unread message addressed to a user, in any listing. *)
Definition unreadTo (userId : string) (d : Obj) : Prop :=
  d !! "receiverId" = Some (VStr userId) ∧ d !! "read" = Some (VBool false).

#[global] Instance unreadTo_dec userId d : Decision (unreadTo userId d).
Proof. unfold unreadTo. apply _. Defined.

Definition unreadMessages (w : World) (userId : string) : gmap string Obj :=
  filter (fun kv => unreadTo userId kv.2) (docs w MESSAGES_COLLECTION).



(** A returned message whose time is a number. *)
Definition timed (m : Obj) : Prop := ∃ t, get m "timestamp" = VNum t.

(** A string that [doc(db, collection, id)] takes as the name of a document
    of the collection: not empty and without a slash.  With another string
    the reference is refused or is one to a document elsewhere; the ids of
    stored documents are of this kind. *)
Definition isDocumentId (id : string) : Prop :=
  id ≠ "" ∧ String.index 0%nat "/" id = None.

(** ** A small marketplace, used to run the services *)

Module Scenario.

Definition start : World :=
  {| settings := defaultSettings; db := ∅;
     serverTime := 1000; localTime := 990; writes := [] |}.

Definition lenient : Settings := {| ignoreUndefinedProperties := true |}.

Definition bike : Obj :=
  <["title" := VStr "Bike"]>
    (<["description" := VStr "City bike"]>
       (<["price" := VNum 120]>
          (<["category" := VStr "transport"]>
             (<["subcategory" := VStr "bicycles"]>
                (<["images" := VArr ["bike.jpg"]]>
                   {["userId" := VStr "u1"]}))))).

(** [u1] creates a listing; the store names it ["0"]. *)
Definition listed : World := (createListing bike start).2.

(** The admin rejects it. *)
Definition rejected : World := (rejectListing "0" "blurry photo" listed).2.

(** [u1] opens the edit page of the rejected listing and changes the title;
    the admin does the same and also sets the status. *)
Definition initial : Obj :=
  fromFirestore ("0", default ∅ (listing rejected "0")).

Definition ownerPage : EditListingPage.Page :=
  {| EditListingPage.isAdminEdit := false;
     EditListingPage.initialProduct := Some initial;
     EditListingPage.isSubmitting := false;
     EditListingPage.error := None;
     EditListingPage.navigatedTo := None |}.

Definition adminPage : EditListingPage.Page :=
  {| EditListingPage.isAdminEdit := true;
     EditListingPage.initialProduct := Some initial;
     EditListingPage.isSubmitting := false;
     EditListingPage.error := None;
     EditListingPage.navigatedTo := None |}.

Definition edited : Obj := <["title" := VStr "Bike, new tyres"]> initial.

Definition editedByAdmin : Obj := <["status" := ACTIVE : Value]> edited.

(** [u2] asks about the listing, [u1] answers five milliseconds later, and
    [u3] asks too. *)
Definition asked : World :=
  (sendMessage "0" "u2" "u1" "Is it still available?" listed).2.

Definition answered : World :=
  (sendMessage "0" "u1" "u2" "Yes, it is." (elapse 5 asked)).2.

Definition busy : World :=
  (sendMessage "0" "u3" "u1" "Would you take 100?" (elapse 5 answered)).2.

(** A second listing of [u1], created ten milliseconds after the first, and
    the first one set to [active] by the admin on the edit page. *)
Definition skates : Obj :=
  <["title" := VStr "Skates"]>
    (<["price" := VNum 40]> {["userId" := VStr "u1"]}).

Definition two : World := (createListing skates (elapse 10 listed)).2.

Definition moderated : World :=
  (EditListingPage.handleSubmit
     (<["status" := ACTIVE : Value]> {["title" := VStr "Bike"]})
     {| EditListingPage.isAdminEdit := true;
        EditListingPage.initialProduct :=
          Some (fromFirestore ("0", default ∅ (listing two "0")));
        EditListingPage.isSubmitting := false;
        EditListingPage.error := None;
        EditListingPage.navigatedTo := None |}
     two).2.

End Scenario.

(** ** The store *)

Section store_facts.

(** [!s] on a string tests for the empty string. *)
Lemma truthy_string (s : string) : truthy (VStr s) = false <-> s = "".
Proof.
  simpl. rewrite negb_false_iff. apply String.eqb_eq.
Qed.

Lemma truthy_string_true (s : string) : s ≠ "" -> truthy (VStr s) = true.
Proof.
  intros H. destruct (truthy (VStr s)) eqn:E; [done|].
  by apply truthy_string in E.
Qed.

Lemma docs_set_docs c ds wr w : docs (set_docs c ds wr w) c = ds.
Proof. unfold docs, set_docs; simpl. by rewrite lookup_insert_eq. Qed.

Lemma docs_set_docs_ne c c' ds wr w :
  c ≠ c' -> docs (set_docs c ds wr w) c' = docs w c'.
Proof. intros Hc. unfold docs, set_docs; simpl. by rewrite lookup_insert_ne. Qed.

Lemma parseData_strict w data :
  ignoreUndefinedProperties (settings w) = false ->
  parseData (settings w) data = if decide (noUndefined data) then Some data else None.
Proof. intros H. unfold parseData. by rewrite H. Qed.

Lemma parseData_noUndefined s data :
  noUndefined data -> parseData s data = Some data.
Proof.
  intros Hd. unfold parseData. destruct (ignoreUndefinedProperties s).
  - f_equal. apply map_filter_id. intros k v Hk. exact (Hd k v Hk).
  - by rewrite decide_True.
Qed.



Lemma parseData_defined s data fields k v :
  parseData s data = Some fields -> data !! k = Some v -> defined v ->
  fields !! k = Some v.
Proof.
  unfold parseData. destruct (ignoreUndefinedProperties s).
  - intros [= <-] Hk Hv. by apply map_lookup_filter_Some.
  - case_decide; [|done]. by intros [= <-].
Qed.

Lemma updateDoc_invalid c id data w :
  parseData (settings w) data = None ->
  updateDoc c id data w = (Thrown InvalidData, w).
Proof. intros H. unfold updateDoc. by rewrite H. Qed.

Lemma updateDoc_not_found c id data fields w :
  parseData (settings w) data = Some fields -> docs w c !! id = None ->
  updateDoc c id data w = (Thrown (NotFound c id), w).
Proof. intros H1 H2. unfold updateDoc. by rewrite H1, H2. Qed.

Lemma updateDoc_ok c id data fields old w :
  parseData (settings w) data = Some fields -> docs w c !! id = Some old ->
  updateDoc c id data w =
    (Returned tt,
     set_docs c (<[id := merged w fields old]> (docs w c)) (WUpdate c id data) w).
Proof. intros H1 H2. unfold updateDoc. by rewrite H1, H2. Qed.


End store_facts.

(** ** listingService *)

Section listing_facts.

Implicit Types (w : World) (id : string) (updates data fields old : Obj).

(** [updateListing] is its write followed by its re-read. *)
Lemma updateListing_interleaved_unfold env id updates w :
  updateListing_interleaved env id updates w =
    match updateDoc LISTINGS_COLLECTION id (delete "userId" updates) w with
    | (Returned _, w1) =>
        (Returned ((fun d => fromFirestore (id, d)) <$> listing (env w1) id), env w1)
    | (Thrown e, w1) => (Thrown e, w1)
    end.
Proof.
  unfold updateListing_interleaved, mbind, M_bind, bind.
  destruct (updateDoc _ _ _ w) as [[[]|e] w1]; simpl; [|done].
  unfold listing. by destruct (docs (env w1) LISTINGS_COLLECTION !! id).
Qed.

Lemma updateListing_invalid id updates w :
  parseData (settings w) (delete "userId" updates) = None ->
  updateListing id updates w = (Thrown InvalidData, w).
Proof.
  intros H. unfold updateListing. rewrite updateListing_interleaved_unfold.
  by rewrite (updateDoc_invalid _ _ _ _ H).
Qed.

Lemma updateListing_not_found id updates fields w :
  parseData (settings w) (delete "userId" updates) = Some fields ->
  listing w id = None ->
  updateListing id updates w = (Thrown (NotFound LISTINGS_COLLECTION id), w).
Proof.
  intros H1 H2. unfold updateListing. rewrite updateListing_interleaved_unfold.
  by rewrite (updateDoc_not_found _ _ _ _ _ H1 H2).
Qed.

Lemma updateListing_ok id updates fields old w :
  parseData (settings w) (delete "userId" updates) = Some fields ->
  listing w id = Some old ->
  updateListing id updates w =
    (Returned (Some (fromFirestore (id, merged w fields old))),
     set_docs LISTINGS_COLLECTION
       (<[id := merged w fields old]> (docs w LISTINGS_COLLECTION))
       (WUpdate LISTINGS_COLLECTION id (delete "userId" updates)) w).
Proof.
  intros H1 H2. unfold updateListing. rewrite updateListing_interleaved_unfold.
  rewrite (updateDoc_ok _ _ _ _ _ _ H1 H2). unfold listing.
  by rewrite docs_set_docs, lookup_insert_eq.
Qed.

(** The three ways an update can end. *)
Lemma updateListing_cases id updates w :
  updateListing id updates w = (Thrown InvalidData, w)
  ∨ updateListing id updates w = (Thrown (NotFound LISTINGS_COLLECTION id), w)
  ∨ ∃ fields old,
      parseData (settings w) (delete "userId" updates) = Some fields
      ∧ listing w id = Some old
      ∧ updateListing id updates w =
          (Returned (Some (fromFirestore (id, merged w fields old))),
           set_docs LISTINGS_COLLECTION
             (<[id := merged w fields old]> (docs w LISTINGS_COLLECTION))
             (WUpdate LISTINGS_COLLECTION id (delete "userId" updates)) w).
Proof.
  destruct (parseData (settings w) (delete "userId" updates)) as [fields|] eqn:Hp.
  - destruct (listing w id) as [old|] eqn:Hl.
    + right; right. exists fields, old. eauto using updateListing_ok.
    + right; left. eauto using updateListing_not_found.
  - left. by apply updateListing_invalid.
Qed.

(** A field that the parsed update does not mention keeps its value. *)
Lemma merged_lookup_other w fields old k :
  fields !! k = None -> merged w fields old !! k = old !! k.
Proof.
  intros H. unfold merged. rewrite lookup_union_r; [done|].
  by rewrite lookup_fmap, H.
Qed.

Lemma merged_lookup_set w fields old k v :
  fields !! k = Some v -> merged w fields old !! k = Some (resolve (serverTime w) v).
Proof.
  intros H. unfold merged.
  erewrite lookup_union_Some_l; [done|]. by rewrite lookup_fmap, H.
Qed.



(** The listing of the scenario is deleted by someone else while its owner's
    update is between its write and its re-read: the update returns
    [undefined]. *)
Lemma updateListing_of_deleted_listing :
  (updateListing_interleaved (fun w => (deleteListing "0" w).2) "0"
     {["title" := VStr "Bike, new tyres"]} Scenario.listed).1
  = Returned None.
Proof. reflexivity. Qed.

End listing_facts.

(** ** Moderation: reject and approve *)

Section moderation_facts.

Implicit Types (w : World) (id reason : string) (old : Obj).

Lemma rejection_merged w reason old :
  merged w (<["rejectionReason" := VStr reason]> {["status" := REJECTED : Value]}) old
  = <["rejectionReason" := VStr reason]> (<["status" := VStr "rejected"]> old).
Proof.
  unfold merged. rewrite fmap_insert, map_fmap_singleton. simpl.
  by rewrite <- insert_union_l, <- insert_union_singleton_l.
Qed.

Lemma rejection_parses s reason :
  parseData s
    (delete "userId" (<["rejectionReason" := VStr reason]> {["status" := REJECTED : Value]}))
  = Some (<["rejectionReason" := VStr reason]> {["status" := REJECTED : Value]}).
Proof.
  rewrite delete_id by (by rewrite lookup_insert_ne, lookup_singleton_ne).
  apply parseData_noUndefined. intros k v Hk.
  apply lookup_insert_Some in Hk as [[_ <-]|[_ Hk]]; [done|].
  by apply lookup_singleton_Some in Hk as [_ <-].
Qed.

(** What [rejectListing] does to a listing that exists, whatever the reason. *)
Lemma rejectListing_ok id reason old w :
  listing w id = Some old ->
  let d := <["rejectionReason" := VStr reason]> (<["status" := VStr "rejected"]> old) in
  rejectListing id reason w =
    (Returned (Some (fromFirestore (id, d))),
     set_docs LISTINGS_COLLECTION (<[id := d]> (docs w LISTINGS_COLLECTION))
       (WUpdate LISTINGS_COLLECTION id
          (delete "userId"
             (<["rejectionReason" := VStr reason]> {["status" := REJECTED : Value]}))) w).
Proof.
  intros Hl d. unfold rejectListing.
  rewrite (updateListing_ok _ _ _ _ _ (rejection_parses _ reason) Hl).
  by rewrite rejection_merged.
Qed.

(** C1, as the code has it: the repository checks nothing about the reason.
    For every listing that exists and every reason string, empty or not,
    [rejectListing] succeeds, the stored listing gets status [rejected] and
    the reason exactly as given, its other fields and the other listings
    stay as they were, and the record re-read from the store is returned.
    No call of [rejectListing] ends in a required-field error. *)
Theorem rejectListing_stores_any_reason id reason old w :
  listing w id = Some old ->
  ∃ p w',
    rejectListing id reason w = (Returned (Some p), w')
    ∧ listing w' id
        = Some (<["rejectionReason" := VStr reason]> (<["status" := VStr "rejected"]> old))
    ∧ p = fromFirestore
            (id, <["rejectionReason" := VStr reason]> (<["status" := VStr "rejected"]> old))
    ∧ (∀ id', id' ≠ id -> listing w' id' = listing w id')
    ∧ (∀ id' r msg, (rejectListing id' r w).1 ≠ Thrown (RequiredField msg)).
Proof.
  intros Hl. eexists _, _. split; [by apply rejectListing_ok|].
  split; [|split; [done|split]].
  - unfold listing. by rewrite docs_set_docs, lookup_insert_eq.
  - intros id' Hne. unfold listing. by rewrite docs_set_docs, lookup_insert_ne.
  - intros id' r msg. unfold rejectListing.
    destruct (updateListing_cases id'
                (<["rejectionReason" := VStr r]> {["status" := REJECTED : Value]}) w)
      as [-> | [-> | (? & ? & _ & _ & ->)]]; done.
Qed.

(** The rejected listing of the scenario is rejected once more, now with an
    empty reason. *)
Lemma rejectListing_stores_any_reason_witness :
  ∃ p w',
    rejectListing "0" "" Scenario.rejected = (Returned (Some p), w')
    ∧ field (listing w' "0") "rejectionReason" = Some (VStr "")
    ∧ field (listing w' "0") "userId" = Some (VStr "u1").
Proof.
  assert (listing Scenario.rejected "0"
          = Some (default ∅ (listing Scenario.rejected "0"))) as Hold
    by reflexivity.
  destruct (rejectListing_stores_any_reason "0" "" _ _ Hold)
    as (p & w' & Hr & Hl & _).
  exists p, w'. split; [exact Hr|]. rewrite Hl. split; reflexivity.
Defined.

(** C1 as stated fails: rejecting the pending listing of the scenario with
    an empty reason does not throw; the call returns the listing, and the
    store, which held it with status [pending], now holds it with status
    [rejected] and the empty string as its reason. *)
Lemma rejectListing_empty_reason_succeeds :
  thrown (rejectListing "0" "" Scenario.listed).1 = None
  ∧ field (mjoin (returned (rejectListing "0" "" Scenario.listed).1)) "status"
      = Some (VStr "rejected")
  ∧ field (listing Scenario.listed "0") "status" = Some (VStr "pending")
  ∧ field (listing (rejectListing "0" "" Scenario.listed).2 "0") "status"
      = Some (VStr "rejected")
  ∧ field (listing (rejectListing "0" "" Scenario.listed).2 "0") "rejectionReason"
      = Some (VStr "").
Proof. repeat split; reflexivity. Qed.

End moderation_facts.

Section approve_facts.

Implicit Types (w : World) (id : string) (old : Obj).

Lemma approval_request :
  delete "userId" (<["rejectionReason" := VUndefined]> {["status" := ACTIVE : Value]})
  = (<["rejectionReason" := VUndefined]> {["status" := ACTIVE : Value]} : Obj).
Proof. reflexivity. Qed.

(** Under the default settings the request is refused for its [undefined]
    field, before the store is asked anything. *)
Lemma approveListing_strict id w :
  ignoreUndefinedProperties (settings w) = false ->
  approveListing id w = (Thrown InvalidData, w).
Proof.
  intros Hs. apply updateListing_invalid.
  rewrite approval_request, (parseData_strict _ _ Hs).
  apply decide_False. intros Hd.
  by apply (Hd "rejectionReason" VUndefined).
Qed.

(** A client that ignores [undefined] fields writes the status only. *)
Lemma approveListing_lenient id old w :
  ignoreUndefinedProperties (settings w) = true ->
  listing w id = Some old ->
  listing (approveListing id w).2 id = Some (<["status" := VStr "active"]> old).
Proof.
  intros Hs Hl. unfold approveListing.
  assert (parseData (settings w)
            (delete "userId"
               (<["rejectionReason" := VUndefined]> {["status" := ACTIVE : Value]}))
          = Some {["status" := VStr "active"]}) as Hp.
  { unfold parseData. rewrite Hs, approval_request. f_equal. }
  rewrite (updateListing_ok _ _ _ _ _ Hp Hl). simpl.
  unfold listing. rewrite docs_set_docs, lookup_insert_eq. f_equal.
  unfold merged. rewrite map_fmap_singleton. simpl.
  by rewrite <- insert_union_singleton_l.
Qed.

(** C4 fails on the code.  [approveListing] asks for the rejection reason to
    be set to [undefined].  With the settings of firebaseConfig the store
    client refuses such a request: approving the rejected listing of the
    scenario throws, and the listing stays rejected.  With a client that
    ignores [undefined] fields the status becomes [active] and the old
    rejection reason is still there. *)
Theorem approveListing_leaves_rejection_reason :
  approveListing "0" Scenario.rejected = (Thrown InvalidData, Scenario.rejected)
  ∧ field (listing Scenario.rejected "0") "status" = Some (VStr "rejected")
  ∧ field (listing Scenario.rejected "0") "rejectionReason" = Some (VStr "blurry photo")
  ∧ field (listing (approveListing "0"
                      (with_settings Scenario.lenient Scenario.rejected)).2 "0")
          "status" = Some (VStr "active")
  ∧ field (listing (approveListing "0"
                      (with_settings Scenario.lenient Scenario.rejected)).2 "0")
          "rejectionReason" = Some (VStr "blurry photo").
Proof.
  split; [by apply approveListing_strict|].
  repeat split; reflexivity.
Qed.

End approve_facts.

(** ** Creating a listing *)

Section create_facts.

Implicit Types (w : World) (id : string) (productData : Obj).

Lemma autoId_nonempty (ds : gmap string Obj) : autoId ds ≠ "".
Proof.
  unfold autoId. intros H.
  apply (is_fresh ({[""]} ∪ dom ds)). rewrite H. set_solver.
Qed.

Lemma autoId_fresh (ds : gmap string Obj) : ds !! autoId ds = None.
Proof.
  apply not_elem_of_dom. unfold autoId. intros H.
  apply (is_fresh ({[""]} ∪ dom ds)). set_solver.
Qed.

Lemma addDoc_invalid c data w :
  parseData (settings w) data = None -> addDoc c data w = (Thrown InvalidData, w).
Proof. intros H. unfold addDoc. by rewrite H. Qed.

Lemma addDoc_ok c data fields w :
  parseData (settings w) data = Some fields ->
  addDoc c data w =
    (Returned (autoId (docs w c)),
     set_docs c (<[autoId (docs w c) := resolve (serverTime w) <$> fields]> (docs w c))
       (WAdd c (autoId (docs w c)) data) w).
Proof. intros H. unfold addDoc. by rewrite H. Qed.

Lemma noUndefined_insert k v (data : Obj) :
  defined v -> noUndefined data -> noUndefined (<[k := v]> data).
Proof. intros Hv Hd. by apply map_Forall_insert_2. Qed.

(** An owner id that is missing or empty. *)
Lemma createListing_without_owner productData w :
  truthy (get productData "userId") = false ->
  createListing productData w
  = (Thrown (RequiredField "User ID is required to create a listing."), w).
Proof. intros Hu. unfold createListing. by rewrite Hu. Qed.

(** With an owner, [createListing] is its one write. *)
Lemma createListing_run productData w :
  truthy (get productData "userId") = true ->
  createListing productData w
  = match parseData (settings w)
            (<["createdAt" := VServerTimestamp]>
               (<["status" := VStr "pending"]> productData)) with
    | None => (Thrown InvalidData, w)
    | Some fields =>
        let id := autoId (docs w LISTINGS_COLLECTION) in
        (Returned (<["createdAt" := VNum (localTime w)]>
                     (<["status" := VStr "pending"]>
                        (<["id" := VStr id]> productData))),
         set_docs LISTINGS_COLLECTION
           (<[id := resolve (serverTime w) <$> fields]> (docs w LISTINGS_COLLECTION))
           (WAdd LISTINGS_COLLECTION id
              (<["createdAt" := VServerTimestamp]>
                 (<["status" := VStr "pending"]> productData))) w)
    end.
Proof.
  intros Hu. unfold createListing. rewrite Hu. cbn [negb].
  unfold mbind, M_bind, bind, addDoc. cbn [AdStatus_value].
  by destruct (parseData _ _).
Qed.

(** C3: when the owner id of the input is missing (it reads as [undefined])
    or is the empty string, [createListing] throws the required-field error
    and leaves the world as it was.  When it is a non-empty string: a call
    that returns has put the listing in the store with status [pending],
    under an id that is not empty and was free, and returns a record with
    that id and status [pending], the other listings being as before; a
    call that throws was refused by the store and has written nothing; and
    for data the store accepts the call returns, the stored listing being
    the data with status [pending] and the server's time of creation. *)
Theorem createListing_requires_owner_and_starts_pending productData w :
  (get productData "userId" = VUndefined ∨ get productData "userId" = VStr "" ->
   createListing productData w
   = (Thrown (RequiredField "User ID is required to create a listing."), w))
  ∧ (∀ owner, get productData "userId" = VStr owner -> owner ≠ "" ->
     (∀ product w',
        createListing productData w = (Returned product, w') ->
        ∃ id,
          id ≠ "" ∧ listing w id = None
          ∧ get product "id" = VStr id
          ∧ get product "status" = VStr "pending"
          ∧ field (listing w' id) "status" = Some (VStr "pending")
          ∧ (∀ id', id' ≠ id -> listing w' id' = listing w id'))
     ∧ (∀ e w', createListing productData w = (Thrown e, w') ->
                e = InvalidData ∧ w' = w)
     ∧ (noUndefined productData ->
        ∃ id product w',
          createListing productData w = (Returned product, w')
          ∧ product = <["createdAt" := VNum (localTime w)]>
                        (<["status" := VStr "pending"]>
                           (<["id" := VStr id]> productData))
          ∧ listing w' id
            = Some (<["createdAt" := VTimestamp (serverTime w)]>
                      (<["status" := VStr "pending"]>
                         (resolve (serverTime w) <$> productData)))
          ∧ writes w' = writes w ++
              [WAdd LISTINGS_COLLECTION id
                 (<["createdAt" := VServerTimestamp]>
                    (<["status" := VStr "pending"]> productData))])).
Proof.
  split.
  - intros Hu. apply createListing_without_owner. by destruct Hu as [-> | ->].
  - intros owner Ho Hne.
    assert (truthy (get productData "userId") = true) as Hu
      by (rewrite Ho; by apply truthy_string_true).
    rewrite (createListing_run _ _ Hu).
    set (dataToSave := <["createdAt" := VServerTimestamp]>
                         (<["status" := VStr "pending"]> productData)).
    split; [|split].
    + intros product w' Hrun.
      destruct (parseData (settings w) dataToSave) as [fields|] eqn:Hp; [|done].
      cbv zeta in Hrun. injection Hrun as <- <-.
      exists (autoId (docs w LISTINGS_COLLECTION)).
      split; [apply autoId_nonempty|]. split; [apply autoId_fresh|].
      split; [|split; [|split]].
      * unfold get. rewrite !lookup_insert_ne by discriminate.
        by rewrite lookup_insert_eq.
      * unfold get. rewrite lookup_insert_ne by discriminate.
        by rewrite lookup_insert_eq.
      * unfold listing. rewrite docs_set_docs, lookup_insert_eq. cbn.
        rewrite lookup_fmap.
        rewrite (parseData_defined _ _ _ "status" (VStr "pending") Hp); [done| |done].
        unfold dataToSave. rewrite lookup_insert_ne by discriminate.
        apply lookup_insert_eq.
      * intros id' Hid'. unfold listing. by rewrite docs_set_docs, lookup_insert_ne.
    + intros e w' Hrun.
      destruct (parseData (settings w) dataToSave) as [fields|]; [done|].
      by injection Hrun as <- <-.
    + intros Hd.
      assert (parseData (settings w) dataToSave = Some dataToSave) as ->.
      { apply parseData_noUndefined. by repeat apply noUndefined_insert. }
      eexists _, _, _. split; [reflexivity|]. split; [done|]. split; [|done].
      unfold listing. rewrite docs_set_docs, lookup_insert_eq.
      unfold dataToSave. by rewrite !fmap_insert.
Qed.

(** Creating without an owner, and creating the bike of the scenario. *)
Lemma createListing_requires_owner_and_starts_pending_witness :
  createListing (delete "userId" Scenario.bike) Scenario.start
  = (Thrown (RequiredField "User ID is required to create a listing."), Scenario.start)
  ∧ ∃ id product w',
      createListing Scenario.bike Scenario.start = (Returned product, w')
      ∧ id ≠ ""
      ∧ get product "id" = VStr id
      ∧ field (listing w' id) "status" = Some (VStr "pending").
Proof.
  split.
  - apply (createListing_requires_owner_and_starts_pending
             (delete "userId" Scenario.bike) Scenario.start).
    by left.
  - destruct (createListing_requires_owner_and_starts_pending
                Scenario.bike Scenario.start) as [_ H].
    destruct (H "u1" eq_refl) as (Hret & _ & Hacc); [discriminate|].
    destruct Hacc as (id0 & product & w' & Hrun & _).
    { apply (bool_decide_unpack _). exact I. }
    destruct (Hret product w' Hrun) as (id & Hid & _ & Hpid & _ & Hst & _).
    exists id, product, w'. split; [exact Hrun|]. split; [exact Hid|].
    split; [exact Hpid|exact Hst].
Defined.

End create_facts.

(** ** Editing a listing *)

Section edit_facts.

Import EditListingPage.

Implicit Types (w : World) (id : string) (productData initial old : Obj) (p : Page).

Lemma noUndefined_delete k (data : Obj) :
  noUndefined data -> noUndefined (delete k data).
Proof. intros Hd. by apply map_Forall_delete. Qed.

(** On a loaded page the submit handler leaves the world that its one call
    of [updateListing] leaves. *)
Lemma handleSubmit_world productData p initial id w :
  initialProduct p = Some initial -> get initial "id" = VStr id ->
  (handleSubmit productData p w).2
  = (updateListing id
       (<["status" := if negb (isAdminEdit p) then PENDING : Value
                      else get productData "status"]> productData) w).2.
Proof.
  intros Hi Hid. unfold handleSubmit. cbv zeta.
  change (initialProduct (setError None (setIsSubmitting true p)))
    with (initialProduct p).
  change (isAdminEdit (setError None (setIsSubmitting true p)))
    with (isAdminEdit p).
  rewrite Hi. unfold updateInitial. rewrite Hid.
  by destruct (updateListing _ _ w) as [[r|e] w'].
Qed.

(** An update that sets the status either changes nothing, when the store
    refuses it, or leaves that status in the listing. *)
Lemma updateListing_status id (updates : Obj) (status : Value) w :
  updates !! "status" = Some status -> defined status ->
  (updateListing id updates w).2 = w
  ∨ field (listing (updateListing id updates w).2 id) "status"
    = Some (resolve (serverTime w) status).
Proof.
  intros Hs Hd.
  destruct (updateListing_cases id updates w)
    as [-> | [-> | (fields & old & Hp & Hl & ->)]]; [by left|by left|right].
  cbn [snd]. unfold listing. rewrite docs_set_docs, lookup_insert_eq. cbn.
  apply merged_lookup_set, (parseData_defined _ _ _ _ _ Hp); [|done].
  by rewrite lookup_delete_ne.
Qed.

(** An update the store accepts, of a listing that exists. *)
Lemma updateListing_accepted id (updates old : Obj) w :
  listing w id = Some old -> noUndefined updates ->
  listing (updateListing id updates w).2 id
    = Some (merged w (delete "userId" updates) old)
  ∧ writes (updateListing id updates w).2
    = writes w ++ [WUpdate LISTINGS_COLLECTION id (delete "userId" updates)].
Proof.
  intros Hl Hd.
  rewrite (updateListing_ok _ _ _ _ _
             (parseData_noUndefined _ _ (noUndefined_delete "userId" _ Hd)) Hl).
  cbn [snd]. split; [|done]. unfold listing. by rewrite docs_set_docs, lookup_insert_eq.
Qed.

(** C2: on a loaded edit page, a submission that is not the admin's never
    leaves another status than [pending]: either the store refuses the
    update and nothing is written, or the listing is written with status
    [pending].  When the listing exists in the store, whatever it looks
    like, and the form data is data the store accepts, the listing is
    written, its status is [pending], and the one update made carries that
    status.  An admin submission writes the status chosen in the form
    instead. *)
Theorem handleSubmit_owner_edit_resets_status productData p initial id w :
  initialProduct p = Some initial -> get initial "id" = VStr id ->
  (isAdminEdit p = false ->
   ((handleSubmit productData p w).2 = w
    ∨ field (listing (handleSubmit productData p w).2 id) "status" = Some (VStr "pending"))
   ∧ (∀ old, listing w id = Some old -> noUndefined productData ->
      field (listing (handleSubmit productData p w).2 id) "status" = Some (VStr "pending")
      ∧ writes (handleSubmit productData p w).2
        = writes w ++ [WUpdate LISTINGS_COLLECTION id
                         (delete "userId" (<["status" := VStr "pending"]> productData))]))
  ∧ (isAdminEdit p = true ->
     ∀ (chosen : AdStatus) old,
       productData !! "status" = Some (chosen : Value) ->
       listing w id = Some old -> noUndefined productData ->
       field (listing (handleSubmit productData p w).2 id) "status"
       = Some (chosen : Value)).
Proof.
  intros Hi Hid. rewrite (handleSubmit_world _ _ _ _ _ Hi Hid). split.
  - intros ->. cbn [negb AdStatus_value]. split.
    + apply (updateListing_status id _ (VStr "pending")); [|done].
      apply lookup_insert_eq.
    + intros old Hl Hd.
      destruct (updateListing_accepted id (<["status" := VStr "pending"]> productData) old w)
        as [Hw Hlog]; [done|by apply noUndefined_insert|].
      split; [|exact Hlog]. rewrite Hw. cbn.
      rewrite (merged_lookup_set _ _ _ _ (VStr "pending")); [done|].
      rewrite lookup_delete_ne by discriminate. apply lookup_insert_eq.
  - intros -> chosen old Hc Hl Hd. cbn [negb].
    assert (get productData "status" = chosen) as -> by (unfold get; by rewrite Hc).
    destruct (updateListing_accepted id (<["status" := chosen : Value]> productData) old w)
      as [Hw _]; [done|apply noUndefined_insert; [by destruct chosen|done]|].
    rewrite Hw. cbn.
    rewrite (merged_lookup_set _ _ _ _ (chosen : Value)); [by destruct chosen|].
    rewrite lookup_delete_ne by discriminate. apply lookup_insert_eq.
Qed.

End edit_facts.

(** The rejected listing of the scenario, edited by its owner and by the admin. *)
Lemma handleSubmit_owner_edit_resets_status_witness :
  field (listing Scenario.rejected "0") "status" = Some (VStr "rejected")
  ∧ field (listing (EditListingPage.handleSubmit Scenario.edited Scenario.ownerPage
                      Scenario.rejected).2 "0") "status"
    = Some (VStr "pending")
  ∧ field (listing (EditListingPage.handleSubmit Scenario.editedByAdmin
                      Scenario.adminPage Scenario.rejected).2 "0") "status"
    = Some (VStr "active").
Proof.
  assert (listing Scenario.rejected "0"
          = Some (default ∅ (listing Scenario.rejected "0"))) as Hold
    by reflexivity.
  assert (get Scenario.initial "id" = VStr "0") as Hid by reflexivity.
  assert (noUndefined Scenario.edited) as Hed
    by (apply (bool_decide_unpack _); exact I).
  assert (noUndefined Scenario.editedByAdmin) as Had
    by (apply (bool_decide_unpack _); exact I).
  split; [reflexivity|]. split.
  - exact (proj1 (proj2 (proj1 (handleSubmit_owner_edit_resets_status
             Scenario.edited Scenario.ownerPage Scenario.initial "0"
             Scenario.rejected eq_refl Hid) eq_refl) _ Hold Hed)).
  - exact (proj2 (handleSubmit_owner_edit_resets_status
             Scenario.editedByAdmin Scenario.adminPage Scenario.initial "0"
             Scenario.rejected eq_refl Hid) eq_refl ACTIVE _ eq_refl Hold Had).
Defined.

(** ** chatService: sending *)

Section send_facts.

Implicit Types (w : World) (adId senderId receiverId text id : string).

Lemma messageFields_noUndefined adId senderId receiverId text ts read :
  defined ts -> noUndefined (messageFields adId senderId receiverId text ts read).
Proof.
  intros Hts. unfold messageFields.
  repeat (apply noUndefined_insert; [done|]).
  apply map_Forall_empty.
Qed.

Lemma messageFields_resolve t adId senderId receiverId text read :
  resolve t <$> messageFields adId senderId receiverId text VServerTimestamp read
  = messageFields adId senderId receiverId text (VTimestamp t) read.
Proof. unfold messageFields. by rewrite !fmap_insert, map_fmap_singleton. Qed.

Lemma messageFields_stored adId senderId receiverId text t read :
  senderId ≠ "" -> receiverId ≠ "" ->
  isStoredMessage (messageFields adId senderId receiverId text (VTimestamp t) read) = true.
Proof.
  intros Hs Hr. unfold isStoredMessage, messageFields.
  repeat first [rewrite lookup_insert_eq | rewrite lookup_insert_ne by discriminate
               | rewrite lookup_singleton_eq].
  apply andb_true_iff. split; apply negb_true_iff, String.eqb_neq; done.
Qed.

(** What a call with both ids does. *)
Lemma sendMessage_ok adId senderId receiverId text w :
  senderId ≠ "" -> receiverId ≠ "" ->
  let id := autoId (docs w MESSAGES_COLLECTION) in
  sendMessage adId senderId receiverId text w =
    (Returned
       (<["read" := VBool false]>
          (<["timestamp" := VNum (localTime w)]>
             (<["id" := VStr id]>
                (messageFields adId senderId receiverId text VServerTimestamp false)))),
     set_docs MESSAGES_COLLECTION
       (<[id := messageFields adId senderId receiverId text
                  (VTimestamp (serverTime w)) false]>
          (docs w MESSAGES_COLLECTION))
       (WAdd MESSAGES_COLLECTION id
          (messageFields adId senderId receiverId text VServerTimestamp false)) w).
Proof.
  intros Hs Hr id. unfold sendMessage.
  rewrite (truthy_string_true _ Hs), (truthy_string_true _ Hr). simpl.
  fold (messageFields adId senderId receiverId text VServerTimestamp false).
  unfold mbind, M_bind, bind.
  rewrite (addDoc_ok _ _ _ _
             (parseData_noUndefined _ _
                (messageFields_noUndefined adId senderId receiverId text
                   VServerTimestamp false ltac:(done)))).
  simpl. by rewrite messageFields_resolve.
Qed.

(** C8: without a sender id or without a receiver id [sendMessage] throws
    the required-field error and the world stays as it was.  With both ids
    it stores, under a new non-empty id, a message with the given listing
    id, sender, receiver and text, unread and stamped by the store, and it
    returns these fields with that id, unread, stamped with the local clock
    instead; the other messages are as before and one write was made. *)
Theorem sendMessage_requires_ids_and_stores_unread adId senderId receiverId text w :
  (senderId = "" ∨ receiverId = "" ->
   sendMessage adId senderId receiverId text w
   = (Thrown (RequiredField "Sender and Receiver ID are required to send a message."), w))
  ∧ (senderId ≠ "" -> receiverId ≠ "" ->
     ∃ id msg w',
       sendMessage adId senderId receiverId text w = (Returned msg, w')
       ∧ id ≠ "" ∧ message w id = None
       ∧ message w' id
         = Some (messageFields adId senderId receiverId text
                   (VTimestamp (serverTime w)) false)
       ∧ msg = <["id" := VStr id]>
                 (messageFields adId senderId receiverId text (VNum (localTime w)) false)
       ∧ (∀ id', id' ≠ id -> message w' id' = message w id')
       ∧ writes w' = writes w ++
           [WAdd MESSAGES_COLLECTION id
              (messageFields adId senderId receiverId text VServerTimestamp false)]).
Proof.
  split.
  - intros H. unfold sendMessage.
    assert (negb (truthy (VStr senderId)) || negb (truthy (VStr receiverId)) = true) as ->;
      [|done].
    apply orb_true_iff.
    destruct H as [H|H]; [left|right]; by apply negb_true_iff, truthy_string.
  - intros Hs Hr. eexists _, _, _. split; [by apply sendMessage_ok|].
    split; [apply autoId_nonempty|]. split; [apply autoId_fresh|].
    split; [|split; [|split; [|done]]].
    + unfold message. by rewrite docs_set_docs, lookup_insert_eq.
    + unfold messageFields. apply map_eq. intros k.
      repeat (rewrite !lookup_insert; case_decide; [done|]). done.
    + intros id' Hne. unfold message. by rewrite docs_set_docs, lookup_insert_ne.
Qed.

End send_facts.

(** ** chatService: marking messages read *)

Section read_facts.

Implicit Types (w : World) (adId readerId id : string) (d : Obj).

Lemma unreadQuery_elem adId readerId (ds : gmap string Obj) id d :
  (id, d) ∈ runQuery (unreadQuery adId readerId) ds
  <-> ds !! id = Some d ∧ unreadFor adId readerId d.
Proof.
  unfold runQuery, unreadQuery, unreadFor. simpl.
  rewrite !list_elem_of_filter, elem_of_map_to_list. simpl. tauto.
Qed.

Lemma forEach_update_ok (snaps : list (string * Obj)) c data fields batch w :
  parseData (settings w) data = Some fields ->
  forEach_update snaps c data batch w
  = (Returned (batch ++ ((fun s => (c, s.1, fields)) <$> snaps)), w).
Proof.
  intros Hp. revert batch.
  induction snaps as [|s snaps IH]; intros batch; simpl.
  - by rewrite app_nil_r.
  - unfold mbind, M_bind, bind, batch_update. rewrite Hp, IH.
    by rewrite <- app_assoc.
Qed.

Lemma missing_nil w (b : WriteBatch) :
  Forall (fun u => is_Some (docs w u.1.1 !! u.1.2)) b -> missing w b = [].
Proof.
  unfold missing. induction 1 as [|u b [old Hu] _ IH]; [done|].
  rewrite filter_cons_False; [done|]. by rewrite Hu.
Qed.

Lemma batch_commit_ok (b : WriteBatch) w :
  Forall (fun u => is_Some (docs w u.1.1 !! u.1.2)) b ->
  batch_commit b w = (Returned tt, committed w b).
Proof. intros H. unfold batch_commit. by rewrite (missing_nil _ _ H). Qed.

(** One update of a batch, seen from a document of its collection. *)
Lemma applyUpdate_docs t c i (fields : Obj) (database : gmap string (gmap string Obj)) id :
  default ∅ (applyUpdate t database (c, i, fields) !! c) !! id
  = if decide (id = i)
    then (fun old => (resolve t <$> fields) ∪ old) <$> (default ∅ (database !! c) !! id)
    else default ∅ (database !! c) !! id.
Proof.
  unfold applyUpdate. simpl.
  destruct (default ∅ (database !! c) !! i) as [old|] eqn:Hi.
  - rewrite lookup_insert_eq. simpl. case_decide as Hid.
    + subst. by rewrite lookup_insert_eq, Hi.
    + by rewrite lookup_insert_ne.
  - case_decide; [subst; by rewrite Hi|done].
Qed.

Lemma applyUpdate_other t c i (fields : Obj) (database : gmap string (gmap string Obj)) c' :
  c' ≠ c -> applyUpdate t database (c, i, fields) !! c' = database !! c'.
Proof.
  intros Hc. unfold applyUpdate. simpl.
  destruct (default ∅ (database !! c) !! i); [|done]. by rewrite lookup_insert_ne.
Qed.

(** A whole batch of the same update. *)
Lemma foldl_applyUpdate_docs t c (fields : Obj) (ids : list string)
    (database : gmap string (gmap string Obj)) id :
  default ∅ (foldl (applyUpdate t) database ((fun i => (c, i, fields)) <$> ids) !! c) !! id
  = if decide (id ∈ ids)
    then (fun old => (resolve t <$> fields) ∪ old) <$> (default ∅ (database !! c) !! id)
    else default ∅ (database !! c) !! id.
Proof.
  revert database. induction ids as [|i ids IH]; intros database.
  - rewrite fmap_nil. cbn [foldl].
    case_decide as H; [by apply not_elem_of_nil in H|done].
  - rewrite fmap_cons. cbn [foldl]. rewrite IH, applyUpdate_docs.
    destruct (decide (id = i)) as [->|Hne].
    + destruct (decide (i ∈ i :: ids)) as [_|[]]; [|apply list_elem_of_here].
      case_decide; [|done].
      destruct (default ∅ (database !! c) !! i) as [old|]; [|done]. simpl.
      by rewrite (assoc_L (∪)), (idemp_L (∪)).
    + destruct (decide (id ∈ ids)) as [Hin|Hin].
      * destruct (decide (id ∈ i :: ids)) as [_|[]]; [done|].
        by apply list_elem_of_further.
      * destruct (decide (id ∈ i :: ids)) as [[?|?]%elem_of_cons|_]; done.
Qed.

Lemma foldl_applyUpdate_other t c (fields : Obj) (ids : list string)
    (database : gmap string (gmap string Obj)) c' :
  c' ≠ c ->
  foldl (applyUpdate t) database ((fun i => (c, i, fields)) <$> ids) !! c' = database !! c'.
Proof.
  intros Hc. revert database. induction ids as [|i ids IH]; intros database; [done|].
  rewrite fmap_cons. cbn [foldl]. by rewrite IH, applyUpdate_other.
Qed.

Lemma read_update_parses s : parseData s {["read" := VBool true]} = Some {["read" := VBool true]}.
Proof. apply parseData_noUndefined. by apply map_Forall_singleton. Qed.

Lemma readUpdates_snapshot (snaps : list (string * Obj)) :
  (fun s => (MESSAGES_COLLECTION, s.1, ({["read" := VBool true]} : Obj))) <$> snaps
  = readUpdates snaps.*1.
Proof. unfold readUpdates. by rewrite <- list_fmap_compose. Qed.

(** The run of [markMessagesAsRead] for a reader id that is not empty. *)
Lemma markMessagesAsRead_run adId readerId w :
  readerId ≠ "" ->
  markMessagesAsRead adId readerId w
  = match runQuery (unreadQuery adId readerId) (docs w MESSAGES_COLLECTION) with
    | [] => (Returned tt, w)
    | (_ :: _) as snapshot => (Returned tt, committed w (readUpdates snapshot.*1))
    end.
Proof.
  intros Hr. unfold markMessagesAsRead. rewrite (truthy_string_true _ Hr).
  cbv beta iota delta [negb mbind M_bind bind getDocs].
  change (q_collection (unreadQuery adId readerId)) with MESSAGES_COLLECTION.
  destruct (runQuery _ _) as [|s snaps] eqn:Hq; [done|].
  rewrite (forEach_update_ok _ _ _ _ _ _ (read_update_parses _)).
  unfold writeBatch. rewrite app_nil_l, (readUpdates_snapshot (s :: snaps)).
  apply batch_commit_ok.
  unfold readUpdates. rewrite Forall_fmap. apply Forall_forall. intros i Hi.
  apply list_elem_of_fmap in Hi as ([i' d] & -> & Hin). rewrite <- Hq in Hin.
  apply unreadQuery_elem in Hin as [Hin _]. by exists d.
Qed.

End read_facts.

Section read_claims.

Implicit Types (w : World) (adId readerId id : string) (d : Obj).

(** A stored message is addressed to someone. *)
Lemma isStoredMessage_receiver d :
  isStoredMessage d = true -> d !! "receiverId" ≠ Some (VStr "").
Proof.
  unfold isStoredMessage. intros H Hr. rewrite Hr in H.
  repeat case_match; try discriminate.
  all: apply andb_true_iff in H as [_ H]; discriminate.
Qed.

Lemma isStoredMessage_sender d :
  isStoredMessage d = true -> d !! "senderId" ≠ Some (VStr "").
Proof.
  unfold isStoredMessage. intros H Hs. rewrite Hs in H.
  repeat case_match; try discriminate.
  all: apply andb_true_iff in H as [H _]; discriminate.
Qed.

Lemma read_update_merged t d :
  (resolve t <$> ({["read" := VBool true]} : Obj)) ∪ d = <["read" := VBool true]> d.
Proof. rewrite map_fmap_singleton. simpl. by rewrite <- insert_union_singleton_l. Qed.

(** The messages after the batch of [markMessagesAsRead] went through. *)
Lemma committed_message adId readerId w id :
  message (committed w
             (readUpdates (runQuery (unreadQuery adId readerId)
                             (docs w MESSAGES_COLLECTION)).*1)) id
  = markRead adId readerId <$> message w id.
Proof.
  unfold message at 1, docs, committed, readUpdates. cbn [db].
  rewrite foldl_applyUpdate_docs. fold (docs w MESSAGES_COLLECTION). fold (message w id).
  destruct (message w id) as [d|] eqn:Hm; [|by case_decide].
  cbn [fmap option_fmap option_map]. unfold markRead.
  destruct (decide (unreadFor adId readerId d)) as [Hu|Hu].
  - rewrite decide_True; [by rewrite read_update_merged|].
    apply list_elem_of_fmap. exists (id, d). split; [done|].
    by apply unreadQuery_elem.
  - rewrite decide_False; [done|].
    intros ([id' d'] & Hid & Hin)%list_elem_of_fmap. simpl in Hid. subst id'.
    apply unreadQuery_elem in Hin as [Hin Hu']. unfold message in Hm. congruence.
Qed.

Lemma committed_other_collections w (ids : list string) c :
  c ≠ MESSAGES_COLLECTION -> docs (committed w (readUpdates ids)) c = docs w c.
Proof.
  intros Hc. unfold docs, committed, readUpdates. cbn [db].
  by rewrite foldl_applyUpdate_other.
Qed.

(** C5: for a reader id that is not empty, and for the empty one over a store
    whose messages were put there by [sendMessage],
    [markMessagesAsRead] returns, and afterwards every message that had the
    given listing id, the reader as receiver and [read = false] is the same
    message with [read = true], and every other message is exactly as it
    was, so also the ones the reader sent; no message is added or removed
    and the other collections are untouched.  The changes reach the store
    as one batch holding one update per flipped message, and no write is
    made when there is nothing to flip. *)
Theorem markMessagesAsRead_flips_exactly adId readerId w :
  readerId ≠ "" ∨ messagesWellFormed w ->
  ∃ w' ids,
    markMessagesAsRead adId readerId w = (Returned tt, w')
    ∧ (∀ id, message w' id = markRead adId readerId <$> message w id)
    ∧ (∀ c, c ≠ MESSAGES_COLLECTION -> docs w' c = docs w c)
    ∧ NoDup ids
    ∧ (∀ id, id ∈ ids <-> ∃ d, message w id = Some d ∧ unreadFor adId readerId d)
    ∧ writes w' = writes w ++ match ids with
                              | [] => []
                              | _ :: _ => [WCommit (readUpdates ids)]
                              end.
Proof.
  intros Hwf. destruct (decide (readerId = "")) as [->|Hr].
  - destruct Hwf as [?|Hwf]; [done|].
    exists w, []. split; [done|]. split; [|split; [done|split; [constructor|split]]].
    + intros id. destruct (message w id) as [d|] eqn:Hm; [|done].
      cbn [fmap option_fmap option_map]. unfold markRead.
      rewrite decide_False; [done|]. intros (_ & Hrecv & _).
      by apply (isStoredMessage_receiver d (Hwf id d Hm)).
    + intros id. split; [by intros ?%not_elem_of_nil|].
      intros (d & Hm & _ & Hrecv & _).
      by destruct (isStoredMessage_receiver d (Hwf id d Hm)).
    + by rewrite app_nil_r.
  - set (snapshot := runQuery (unreadQuery adId readerId) (docs w MESSAGES_COLLECTION)).
    assert (NoDup snapshot.*1) as Hnd.
    { unfold snapshot, runQuery, unreadQuery. cbn [q_constraints foldl applyConstraint].
      apply NoDup_fmap_fst.
      - intros i d1 d2 H1 H2.
        apply list_elem_of_filter in H1 as (_ & (_ & (_ & H1)%list_elem_of_filter)%list_elem_of_filter).
        apply list_elem_of_filter in H2 as (_ & (_ & (_ & H2)%list_elem_of_filter)%list_elem_of_filter).
        apply elem_of_map_to_list in H1, H2. congruence.
      - repeat apply NoDup_filter. apply NoDup_map_to_list. }
    assert (∀ id, id ∈ snapshot.*1
                  <-> ∃ d, message w id = Some d ∧ unreadFor adId readerId d) as Hin.
    { intros id. rewrite list_elem_of_fmap. split.
      - intros ([id' d] & -> & H). exists d. by apply unreadQuery_elem.
      - intros (d & H). exists (id, d). split; [done|]. by apply unreadQuery_elem. }
    rewrite (markMessagesAsRead_run _ _ _ Hr). fold snapshot.
    destruct snapshot as [|s snaps] eqn:Hq.
    + exists w, []. split; [done|]. split; [|split; [done|split; [done|split; [done|]]]].
      * intros id. destruct (message w id) as [d|] eqn:Hm; [|done].
        cbn [fmap option_fmap option_map]. unfold markRead.
        rewrite decide_False; [done|]. intros Hu.
        eapply not_elem_of_nil, Hin. eauto.
      * by rewrite app_nil_r.
    + exists (committed w (readUpdates (s :: snaps).*1)), (s :: snaps).*1.
      split; [done|]. split; [|split; [|split; [done|split; [done|done]]]].
      * intros id. rewrite <- Hq. apply committed_message.
      * intros c Hc. by apply committed_other_collections.
Qed.

(** C10: with an empty reader id, or when no message of the listing is
    addressed to the reader and unread, [markMessagesAsRead] returns and
    the world is exactly as it was: no write, no batch. *)
Theorem markMessagesAsRead_nothing_to_do adId readerId w :
  readerId = "" ∨ (∀ id d, message w id = Some d -> ¬ unreadFor adId readerId d) ->
  markMessagesAsRead adId readerId w = (Returned tt, w).
Proof.
  intros H. destruct (decide (readerId = "")) as [->|Hr]; [done|].
  destruct H as [?|H]; [done|].
  rewrite (markMessagesAsRead_run _ _ _ Hr).
  destruct (runQuery _ _) as [|[id d] snaps] eqn:Hq; [done|].
  assert ((id, d) ∈ runQuery (unreadQuery adId readerId) (docs w MESSAGES_COLLECTION))
    as Hin by (rewrite Hq; apply list_elem_of_here).
  apply unreadQuery_elem in Hin as [Hm Hu]. by destruct (H id d).
Qed.

End read_claims.

(** ** chatService: reading a conversation *)

Section conversation_facts.

Implicit Types (w : World) (adId userId id : string) (d m : Obj).

Lemma key_le_total : Total key_le.
Proof. intros [a1 a2] [b1 b2]. unfold key_le. simpl. lia. Qed.

Lemma key_le_trans : Transitive key_le.
Proof. intros [a1 a2] [b1 b2] [c1 c2]. unfold key_le. simpl. lia. Qed.

Lemma snapshot_le_total field dir : Total (snapshot_le field dir).
Proof. intros a b. unfold snapshot_le. destruct dir; apply key_le_total. Qed.

Lemma snapshot_le_trans field dir : Transitive (snapshot_le field dir).
Proof.
  intros a b c. unfold snapshot_le.
  destruct dir; intros H1 H2; [exact (key_le_trans _ _ _ H1 H2)|exact (key_le_trans _ _ _ H2 H1)].
Qed.

#[local] Existing Instances snapshot_le_total snapshot_le_trans.

(** The snapshot behind [getMessagesForAd]. *)
Lemma conversation_snapshot adId (ds : gmap string Obj) :
  runQuery (query MESSAGES_COLLECTION
              [where_eq "adId" (VStr adId); orderBy "timestamp" Asc]) ds
  = merge_sort (snapshot_le "timestamp" Asc)
      (filter (fun s => is_Some (s.2 !! "timestamp"))
         (filter (fun s => s.2 !! "adId" = Some (VStr adId)) (map_to_list ds))).
Proof. reflexivity. Qed.

Lemma conversation_snapshot_elem adId (ds : gmap string Obj) id d :
  (id, d) ∈ runQuery (query MESSAGES_COLLECTION
                        [where_eq "adId" (VStr adId); orderBy "timestamp" Asc]) ds
  <-> ds !! id = Some d ∧ d !! "adId" = Some (VStr adId) ∧ is_Some (d !! "timestamp").
Proof.
  rewrite conversation_snapshot, merge_sort_Permutation.
  rewrite !list_elem_of_filter, elem_of_map_to_list. simpl. tauto.
Qed.

Lemma conversation_snapshot_NoDup adId (ds : gmap string Obj) :
  NoDup (runQuery (query MESSAGES_COLLECTION
                     [where_eq "adId" (VStr adId); orderBy "timestamp" Asc]) ds).
Proof.
  rewrite conversation_snapshot, merge_sort_Permutation.
  repeat apply NoDup_filter. apply NoDup_map_to_list.
Qed.

Lemma conversation_snapshot_sorted adId (ds : gmap string Obj) :
  StronglySorted (snapshot_le "timestamp" Asc)
    (runQuery (query MESSAGES_COLLECTION
                 [where_eq "adId" (VStr adId); orderBy "timestamp" Asc]) ds).
Proof. rewrite conversation_snapshot. apply StronglySorted_merge_sort; apply _. Qed.

Lemma messageFromFirestore_lookup id d k :
  k ≠ "timestamp" -> k ≠ "id" -> messageFromFirestore (id, d) !! k = d !! k.
Proof.
  intros H1 H2. unfold messageFromFirestore. cbn [fst snd].
  by rewrite !lookup_insert_ne.
Qed.

Lemma messageFromFirestore_id id d : messageFromFirestore (id, d) !! "id" = Some (VStr id).
Proof.
  unfold messageFromFirestore. cbn [fst snd].
  rewrite lookup_insert_ne by discriminate. apply lookup_insert_eq.
Qed.

Lemma messageFromFirestore_timestamp id d :
  get (messageFromFirestore (id, d)) "timestamp" = millisIfTimestamp (get d "timestamp").
Proof.
  unfold messageFromFirestore, get at 1. cbn [fst snd]. by rewrite lookup_insert_eq.
Qed.

Lemma isStoredMessage_fields d :
  isStoredMessage d = true ->
  ∃ a s r t b,
    d !! "adId" = Some (VStr a) ∧ d !! "senderId" = Some (VStr s)
    ∧ d !! "receiverId" = Some (VStr r) ∧ d !! "timestamp" = Some (VTimestamp t)
    ∧ d !! "read" = Some (VBool b) ∧ s ≠ "" ∧ r ≠ "".
Proof.
  unfold isStoredMessage. intros H.
  destruct (d !! "adId") as [[| | |a| | |]|]; try discriminate.
  destruct (d !! "senderId") as [[| | |s| | |]|]; try discriminate.
  destruct (d !! "receiverId") as [[| | |r| | |]|]; try discriminate.
  destruct (d !! "timestamp") as [[| | | | |t|]|]; try discriminate.
  destruct (d !! "read") as [[|b| | | | |]|]; try discriminate.
  apply andb_true_iff in H as [Hs Hr%negb_true_iff%String.eqb_neq].
  apply negb_true_iff, String.eqb_neq in Hs. eauto 12.
Qed.

(** Taking part, seen on the returned record and on the stored document. *)
Lemma isParticipant_involves userId id d :
  isStoredMessage d = true ->
  isParticipant userId (messageFromFirestore (id, d)) <-> involves userId d.
Proof.
  intros (a & s & r & t & b & _ & Hs & Hr & _)%isStoredMessage_fields.
  unfold isParticipant, involves, get.
  rewrite !messageFromFirestore_lookup by discriminate.
  rewrite Hs, Hr. simpl. split; (intros [H|H]; [left|right]; congruence).
Qed.

(** Stored messages in the order of the query come out in ascending order
    of their millisecond times, also after the participants are selected. *)
Lemma conversation_ascending (P : Obj -> Prop) `{!∀ m, Decision (P m)}
    (snaps : list (string * Obj)) :
  Forall (fun s => isStoredMessage s.2 = true) snaps ->
  StronglySorted (snapshot_le "timestamp" Asc) snaps ->
  StronglySorted ascending (filter P (messageFromFirestore <$> snaps)).
Proof.
  intros Hwf Hs. induction Hs as [|[id d] snaps Hs IH Hle]; [constructor|].
  apply Forall_cons in Hwf as [Hd Hwf]. rewrite fmap_cons.
  destruct (decide (P (messageFromFirestore (id, d)))) as [HP|HP].
  - rewrite filter_cons_True by done. constructor; [by apply IH|].
    apply Forall_forall. intros m (_ & ([id' d'] & -> & Hin)%list_elem_of_fmap)%list_elem_of_filter.
    rewrite Forall_forall in Hle, Hwf. specialize (Hle _ Hin). specialize (Hwf _ Hin).
    simpl in Hd, Hwf.
    apply isStoredMessage_fields in Hd as (? & ? & ? & t1 & ? & _ & _ & _ & Ht1 & _).
    apply isStoredMessage_fields in Hwf as (? & ? & ? & t2 & ? & _ & _ & _ & Ht2 & _).
    exists t1, t2. rewrite !messageFromFirestore_timestamp. unfold get.
    rewrite Ht1, Ht2. simpl. repeat split.
    unfold snapshot_le, key_le, get in Hle. simpl in Hle.
    rewrite Ht1, Ht2 in Hle. simpl in Hle. lia.
  - rewrite filter_cons_False by done. by apply IH.
Qed.

End conversation_facts.

Section conversation_claims.

Implicit Types (w : World) (adId userId id : string) (d m : Obj).

(** C6: over a store whose messages were put there by [sendMessage],
    [getMessagesForAd] returns, without touching the world, each stored
    message of the listing in which the user is sender or receiver, once and
    as converted by [messageFromFirestore], and nothing else; the returned
    list is in ascending order of the millisecond times. *)
Theorem getMessagesForAd_conversation_sorted adId userId w :
  messagesWellFormed w ->
  ∃ msgs,
    getMessagesForAd adId userId w = (Returned msgs, w)
    ∧ NoDup msgs
    ∧ (∀ m, m ∈ msgs <->
            ∃ id d, message w id = Some d ∧ inConversation adId userId d
                    ∧ m = messageFromFirestore (id, d))
    ∧ StronglySorted ascending msgs.
Proof.
  intros Hwf. destruct (decide (userId = "")) as [->|Hu].
  - exists []. split; [done|]. split; [constructor|]. split; [|constructor].
    intros m. split; [by intros ?%not_elem_of_nil|].
    intros (id & d & Hm & (_ & [Hs|Hr]) & _).
    + by destruct (isStoredMessage_sender d (Hwf id d Hm)).
    + by destruct (isStoredMessage_receiver d (Hwf id d Hm)).
  - set (q := query MESSAGES_COLLECTION
                [where_eq "adId" (VStr adId); orderBy "timestamp" Asc]).
    set (snapshot := runQuery q (docs w MESSAGES_COLLECTION)).
    assert (∀ id d, (id, d) ∈ snapshot -> message w id = Some d
                                         ∧ d !! "adId" = Some (VStr adId)
                                         ∧ isStoredMessage d = true) as Hsnap.
    { intros id d (Hm & Ha & _)%conversation_snapshot_elem.
      split; [done|]. split; [done|]. exact (Hwf id d Hm). }
    exists (filter (isParticipant userId) (messageFromFirestore <$> snapshot)).
    split; [|split; [|split]].
    + unfold getMessagesForAd. by rewrite (truthy_string_true _ Hu).
    + apply NoDup_filter, NoDup_fmap_2_strong; [|apply conversation_snapshot_NoDup].
      intros [i1 d1] [i2 d2] H1 H2 Heq.
      assert (i1 = i2) as <-.
      { pose proof (messageFromFirestore_id i1 d1) as E1.
        rewrite Heq, messageFromFirestore_id in E1. congruence. }
      apply Hsnap in H1 as [H1 _]. apply Hsnap in H2 as [H2 _]. congruence.
    + intros m. rewrite list_elem_of_filter, list_elem_of_fmap. split.
      * intros (Hp & [id d] & -> & Hin). apply Hsnap in Hin as (Hm & Ha & Hd).
        exists id, d. split; [done|]. split; [|done]. split; [done|].
        by apply (isParticipant_involves userId id d Hd).
      * intros (id & d & Hm & (Ha & Hinv) & ->).
        pose proof (Hwf id d Hm) as Hd. split.
        -- by apply (isParticipant_involves userId id d Hd).
        -- exists (id, d). split; [done|]. apply conversation_snapshot_elem.
           split; [done|]. split; [done|].
           apply isStoredMessage_fields in Hd as (? & ? & ? & t & ? & _ & _ & _ & Ht & _).
           by exists (VTimestamp t).
    + apply conversation_ascending; [|apply conversation_snapshot_sorted].
      apply Forall_forall. intros [id d] Hin. by apply Hsnap in Hin as (_ & _ & Hd).
Qed.

Lemma where_snapshot_elem c field v (ds : gmap string Obj) id d :
  (id, d) ∈ runQuery (query c [where_eq field v]) ds
  <-> ds !! id = Some d ∧ d !! field = Some v.
Proof.
  unfold runQuery. cbn [q_constraints foldl applyConstraint].
  rewrite list_elem_of_filter, elem_of_map_to_list. simpl. tauto.
Qed.

Lemma set_add_elem (s : list Value) v v' : v' ∈ set_add s v <-> v' ∈ s ∨ v' = v.
Proof.
  unfold set_add. destruct (isPrimitive v && bool_decide (v ∈ s)) eqn:E.
  - apply andb_true_iff in E as [_ E%bool_decide_eq_true].
    split; [by left|]. by intros [?| ->].
  - by rewrite elem_of_app, list_elem_of_singleton.
Qed.

Lemma set_add_NoDup (s : list Value) v :
  isPrimitive v = true -> NoDup s -> NoDup (set_add s v).
Proof.
  intros Hv Hs. unfold set_add. rewrite Hv. cbn [andb]. case_bool_decide as H; [done|].
  apply NoDup_app. split; [done|]. split; [|apply NoDup_singleton].
  intros x Hx ->%list_elem_of_singleton. done.
Qed.

(** Adding the listing id of every document of a snapshot to a set. *)
Lemma collect_elem (snaps : list (string * Obj)) (s : list Value) v :
  v ∈ foldl (fun s (x : string * Obj) => set_add s (get x.2 "adId")) s snaps
  <-> v ∈ s ∨ ∃ x, x ∈ snaps ∧ get x.2 "adId" = v.
Proof.
  revert s. induction snaps as [|x snaps IH]; intros s; cbn [foldl].
  - split; [by left|]. intros [?|(x & ?%not_elem_of_nil & _)]; done.
  - rewrite IH, set_add_elem. split.
    + intros [[?| ->]|(y & Hy & <-)]; [by left| |].
      * right. exists x. split; [apply list_elem_of_here|done].
      * right. exists y. split; [by apply list_elem_of_further|done].
    + intros [?|(y & [->|Hy]%elem_of_cons & <-)]; [by left; left|by left; right|].
      right. by exists y.
Qed.

Lemma collect_NoDup (snaps : list (string * Obj)) (s : list Value) :
  Forall (fun x => isPrimitive (get x.2 "adId") = true) snaps ->
  NoDup s ->
  NoDup (foldl (fun s (x : string * Obj) => set_add s (get x.2 "adId")) s snaps).
Proof.
  revert s. induction snaps as [|x snaps IH]; intros s Hp Hs; cbn [foldl]; [done|].
  apply Forall_cons in Hp as [Hx Hp]. by apply IH, set_add_NoDup.
Qed.

(** The listing id of a stored message is a string. *)
Lemma where_snapshot_primitive w field v :
  messagesWellFormed w ->
  Forall (fun x => isPrimitive (get x.2 "adId") = true)
    (runQuery (query MESSAGES_COLLECTION [where_eq field v]) (docs w MESSAGES_COLLECTION)).
Proof.
  intros Hwf. apply Forall_forall. intros [id d] [Hm _]%where_snapshot_elem.
  apply (Hwf id d), isStoredMessage_fields in Hm as (a & ? & ? & ? & ? & Ha & _).
  unfold get. cbn [snd]. by rewrite Ha.
Qed.

(** C7: over a store whose messages were put there by [sendMessage],
    [getChatsForUser] returns, without touching the world, a list without
    repetition that holds exactly the listing ids of the messages the user
    sent and of the messages the user received. *)
Theorem getChatsForUser_distinct_listing_ids userId w :
  messagesWellFormed w ->
  ∃ adIds,
    getChatsForUser userId w = (Returned adIds, w)
    ∧ NoDup adIds
    ∧ (∀ v, v ∈ adIds <->
            (∃ id d, message w id = Some d
                     ∧ d !! "senderId" = Some (VStr userId) ∧ get d "adId" = v)
            ∨ (∃ id d, message w id = Some d
                       ∧ d !! "receiverId" = Some (VStr userId) ∧ get d "adId" = v)).
Proof.
  intros Hwf. destruct (decide (userId = "")) as [->|Hu].
  - exists []. split; [done|]. split; [constructor|].
    intros v. split; [by intros ?%not_elem_of_nil|].
    intros [(id & d & Hm & Hs & _)|(id & d & Hm & Hr & _)].
    + by destruct (isStoredMessage_sender d (Hwf id d Hm)).
    + by destruct (isStoredMessage_receiver d (Hwf id d Hm)).
  - eexists. split; [|split].
    + unfold getChatsForUser. by rewrite (truthy_string_true _ Hu).
    + apply collect_NoDup; [by apply where_snapshot_primitive|].
      apply collect_NoDup; [by apply where_snapshot_primitive|]. constructor.
    + intros v. rewrite !collect_elem. split.
      * intros [[?%not_elem_of_nil|([id d] & Hin & Hv)]|([id d] & Hin & Hv)]; [done| |].
        -- left. apply where_snapshot_elem in Hin as [Hm Hs]. by exists id, d.
        -- right. apply where_snapshot_elem in Hin as [Hm Hr]. by exists id, d.
      * intros [(id & d & Hm & Hs & Hv)|(id & d & Hm & Hr & Hv)].
        -- left. right. exists (id, d). split; [|done]. by apply where_snapshot_elem.
        -- right. exists (id, d). split; [|done]. by apply where_snapshot_elem.
Qed.

End conversation_claims.

(** ** The shape of stored messages is kept *)

Section well_formed.

Implicit Types (w : World) (adId senderId receiverId text readerId id : string) (d : Obj).

Lemma messagesWellFormed_empty w :
  docs w MESSAGES_COLLECTION = ∅ -> messagesWellFormed w.
Proof. intros H. unfold messagesWellFormed. rewrite H. apply map_Forall_empty. Qed.

Lemma sendMessage_wellFormed adId senderId receiverId text w :
  messagesWellFormed w ->
  messagesWellFormed (sendMessage adId senderId receiverId text w).2.
Proof.
  intros Hwf.
  destruct (decide (senderId = "")) as [->|Hs]; [done|].
  destruct (decide (receiverId = "")) as [->|Hr].
  { unfold sendMessage. by rewrite (truthy_string_true _ Hs). }
  rewrite (sendMessage_ok _ _ _ _ _ Hs Hr). cbn [snd].
  unfold messagesWellFormed. rewrite docs_set_docs.
  apply map_Forall_insert_2; [|done]. by apply messageFields_stored.
Qed.

Lemma markRead_stored adId readerId d :
  isStoredMessage d = true -> isStoredMessage (markRead adId readerId d) = true.
Proof.
  intros H. unfold markRead. case_decide; [|done].
  unfold isStoredMessage in *.
  rewrite !lookup_insert_ne by discriminate. rewrite lookup_insert_eq.
  repeat case_match; done.
Qed.

Lemma markMessagesAsRead_wellFormed adId readerId w :
  messagesWellFormed w -> messagesWellFormed (markMessagesAsRead adId readerId w).2.
Proof.
  intros Hwf. destruct (decide (readerId = "")) as [->|Hr]; [done|].
  rewrite (markMessagesAsRead_run _ _ _ Hr).
  destruct (runQuery _ _) as [|s snaps] eqn:Hq; [done|]. cbn [snd].
  intros id d Hd. fold (message (committed w (readUpdates (s :: snaps).*1)) id) in Hd.
  rewrite <- Hq, committed_message in Hd.
  destruct (message w id) as [d0|] eqn:Hm; [|done].
  injection Hd as <-. apply markRead_stored. exact (Hwf id d0 Hm).
Qed.

End well_formed.

(** ** The services at work in the scenario *)

Lemma busy_wellFormed : messagesWellFormed Scenario.busy.
Proof.
  repeat apply sendMessage_wellFormed.
  apply messagesWellFormed_empty. reflexivity.
Qed.

(** A message without sender is refused; the question of [u2] is stored
    unread with the store's time and returned with the local time. *)
Lemma sendMessage_requires_ids_and_stores_unread_witness :
  sendMessage "0" "" "u1" "Is it still available?" Scenario.listed
  = (Thrown (RequiredField "Sender and Receiver ID are required to send a message."),
     Scenario.listed)
  ∧ ∃ id msg w',
      sendMessage "0" "u2" "u1" "Is it still available?" Scenario.listed
      = (Returned msg, w')
      ∧ get msg "read" = VBool false
      ∧ get msg "timestamp" = VNum 990
      ∧ field (message w' id) "read" = Some (VBool false)
      ∧ field (message w' id) "timestamp" = Some (VTimestamp 1000).
Proof.
  split.
  - apply (sendMessage_requires_ids_and_stores_unread
             "0" "" "u1" "Is it still available?" Scenario.listed).
    by left.
  - destruct (sendMessage_requires_ids_and_stores_unread
                "0" "u2" "u1" "Is it still available?" Scenario.listed) as [_ H].
    destruct H as (id & msg & w' & Hrun & _ & _ & Hst & -> & _); [done|done|].
    eexists id, _, w'. split; [exact Hrun|]. rewrite Hst.
    repeat split; reflexivity.
Defined.

(** [u1] opens the chat of the listing: the two questions become read, the
    answer [u1] sent stays unread. *)
Lemma markMessagesAsRead_flips_exactly_witness :
  ∃ w',
    markMessagesAsRead "0" "u1" Scenario.busy = (Returned tt, w')
    ∧ field (message Scenario.busy "0") "read" = Some (VBool false)
    ∧ field (message w' "0") "read" = Some (VBool true)
    ∧ field (message w' "1") "read" = Some (VBool false)
    ∧ field (message w' "2") "read" = Some (VBool true).
Proof.
  destruct (markMessagesAsRead_flips_exactly "0" "u1" Scenario.busy
              (or_intror busy_wellFormed))
    as (w' & ids & Hrun & Hmsg & _).
  exists w'. split; [exact Hrun|]. rewrite !Hmsg.
  repeat split; reflexivity.
Defined.

(** Nobody has written about the listing yet; and an empty reader id. *)
Lemma markMessagesAsRead_nothing_to_do_witness :
  markMessagesAsRead "0" "u1" Scenario.listed = (Returned tt, Scenario.listed)
  ∧ markMessagesAsRead "0" "" Scenario.busy = (Returned tt, Scenario.busy).
Proof.
  split.
  - apply (markMessagesAsRead_nothing_to_do "0" "u1" Scenario.listed).
    right. intros id d Hm. unfold message in Hm.
    change (docs Scenario.listed MESSAGES_COLLECTION) with (∅ : gmap string Obj) in Hm.
    by rewrite lookup_empty in Hm.
  - apply (markMessagesAsRead_nothing_to_do "0" "" Scenario.busy). by left.
Defined.

(** The conversation of [u2] about the listing: the question and, five
    milliseconds later, the answer. *)
Lemma getMessagesForAd_conversation_sorted_witness :
  ∃ msgs,
    getMessagesForAd "0" "u2" Scenario.busy = (Returned msgs, Scenario.busy)
    ∧ (fun m => get m "text") <$> msgs
      = [VStr "Is it still available?"; VStr "Yes, it is."]
    ∧ (fun m => get m "timestamp") <$> msgs = [VNum 1000; VNum 1005]
    ∧ StronglySorted ascending msgs.
Proof.
  destruct (getMessagesForAd_conversation_sorted "0" "u2" Scenario.busy busy_wellFormed)
    as (msgs & Hrun & _ & _ & Hsorted).
  exists msgs. split; [exact Hrun|].
  assert (returned (getMessagesForAd "0" "u2" Scenario.busy).1 = Some msgs) as Hm
    by (by rewrite Hrun).
  split; [|split; [|exact Hsorted]].
  - assert ((fun l : list Obj => (fun m => get m "text") <$> l)
              <$> returned (getMessagesForAd "0" "u2" Scenario.busy).1
            = Some [VStr "Is it still available?"; VStr "Yes, it is."]) as E
      by reflexivity.
    rewrite Hm in E. by injection E.
  - assert ((fun l : list Obj => (fun m => get m "timestamp") <$> l)
              <$> returned (getMessagesForAd "0" "u2" Scenario.busy).1
            = Some [VNum 1000; VNum 1005]) as E
      by reflexivity.
    rewrite Hm in E. by injection E.
Defined.

(** All messages of the scenario are about the one listing. *)
Lemma getChatsForUser_distinct_listing_ids_witness :
  ∃ adIds,
    getChatsForUser "u1" Scenario.busy = (Returned adIds, Scenario.busy)
    ∧ NoDup adIds
    ∧ VStr "0" ∈ adIds.
Proof.
  destruct (getChatsForUser_distinct_listing_ids "u1" Scenario.busy busy_wellFormed)
    as (adIds & Hrun & Hnd & Hin).
  exists adIds. split; [exact Hrun|]. split; [exact Hnd|].
  apply Hin. left.
  exists "1", (default ∅ (message Scenario.busy "1")). repeat split; reflexivity.
Defined.

(** * Further properties of the services and pages *)

(** ** Reading listings *)

Section listing_reads.

Implicit Types (w : World) (id : string) (d : Obj).

#[local] Existing Instances snapshot_le_total snapshot_le_trans.

Lemma fromFirestore_id id d : fromFirestore (id, d) !! "id" = Some (VStr id).
Proof.
  unfold fromFirestore. cbn [fst snd].
  rewrite lookup_insert_ne by discriminate. apply lookup_insert_eq.
Qed.

Lemma fromFirestore_lookup id d k :
  k ≠ "createdAt" -> k ≠ "id" -> fromFirestore (id, d) !! k = d !! k.
Proof.
  intros H1 H2. unfold fromFirestore. cbn [fst snd]. by rewrite !lookup_insert_ne.
Qed.

Lemma fromFirestore_createdAt id d :
  get (fromFirestore (id, d)) "createdAt" = millisIfTimestamp (get d "createdAt").
Proof. unfold fromFirestore, get at 1. cbn [fst snd]. by rewrite lookup_insert_eq. Qed.

Lemma getListingById_run id w :
  getListingById id w
  = (Returned ((fun d => fromFirestore (id, d)) <$> listing w id), w).
Proof.
  unfold getListingById, mbind, M_bind, bind, getDoc, listing. cbn [fst snd].
  by destruct (docs w LISTINGS_COLLECTION !! id).
Qed.

(** The snapshot behind the list functions that select on one field. *)
Lemma selection_elem field v (ds : gmap string Obj) id d :
  (id, d) ∈ runQuery (query LISTINGS_COLLECTION
                        [where_eq field v; orderBy "createdAt" Desc]) ds
  <-> ds !! id = Some d ∧ d !! field = Some v ∧ is_Some (d !! "createdAt").
Proof.
  unfold runQuery. cbn [q_constraints foldl applyConstraint].
  rewrite merge_sort_Permutation.
  rewrite !list_elem_of_filter, elem_of_map_to_list. simpl. tauto.
Qed.

Lemma selection_NoDup field v (ds : gmap string Obj) :
  NoDup (runQuery (query LISTINGS_COLLECTION
                     [where_eq field v; orderBy "createdAt" Desc]) ds).
Proof.
  unfold runQuery. cbn [q_constraints foldl applyConstraint].
  rewrite merge_sort_Permutation.
  repeat apply NoDup_filter. apply NoDup_map_to_list.
Qed.

Lemma selection_sorted field v (ds : gmap string Obj) :
  StronglySorted (snapshot_le "createdAt" Desc)
    (runQuery (query LISTINGS_COLLECTION
                 [where_eq field v; orderBy "createdAt" Desc]) ds).
Proof.
  unfold runQuery. cbn [q_constraints foldl applyConstraint].
  apply StronglySorted_merge_sort; apply _.
Qed.

(** Converting the documents of a snapshot keeps them apart. *)
Lemma fromFirestore_NoDup (ds : gmap string Obj) (snaps : list (string * Obj)) :
  (∀ id d, (id, d) ∈ snaps -> ds !! id = Some d) ->
  NoDup snaps -> NoDup (fromFirestore <$> snaps).
Proof.
  intros Hin Hnd. apply NoDup_fmap_2_strong; [|done].
  intros [i1 d1] [i2 d2] H1 H2 Heq.
  assert (i1 = i2) as <-.
  { pose proof (fromFirestore_id i1 d1) as E1.
    rewrite Heq, fromFirestore_id in E1. congruence. }
  apply Hin in H1, H2. congruence.
Qed.

Lemma isStamped_createdAt d :
  isStamped d = true -> ∃ t, d !! "createdAt" = Some (VTimestamp t).
Proof.
  unfold isStamped. destruct (d !! "createdAt") as [[| | | | |t|]|]; try discriminate.
  by exists t.
Qed.

(** Stamped documents in the order of the query come out newest first. *)
Lemma converted_newestFirst (snaps : list (string * Obj)) :
  Forall (fun s => isStamped s.2 = true) snaps ->
  StronglySorted (snapshot_le "createdAt" Desc) snaps ->
  StronglySorted newestFirst (fromFirestore <$> snaps).
Proof.
  intros Hst Hs. induction Hs as [|[id d] snaps Hs IH Hle]; [constructor|].
  apply Forall_cons in Hst as [Hd Hst]. rewrite fmap_cons.
  constructor; [by apply IH|].
  apply Forall_forall. intros p ([id' d'] & -> & Hin)%list_elem_of_fmap.
  rewrite Forall_forall in Hle, Hst. specialize (Hle _ Hin). specialize (Hst _ Hin).
  simpl in Hd, Hst.
  apply isStamped_createdAt in Hd as [t1 Ht1].
  apply isStamped_createdAt in Hst as [t2 Ht2].
  exists t1, t2. rewrite !fromFirestore_createdAt. unfold get.
  rewrite Ht1, Ht2. simpl. repeat split.
  unfold snapshot_le, key_le, get in Hle. simpl in Hle.
  rewrite Ht1, Ht2 in Hle. simpl in Hle. lia.
Qed.

Lemma getActiveListings_run w :
  getActiveListings w
  = (Returned (fromFirestore <$>
                 runQuery (query LISTINGS_COLLECTION
                             [where_eq "status" (VStr "active"); orderBy "createdAt" Desc])
                          (docs w LISTINGS_COLLECTION)), w).
Proof. reflexivity. Qed.

Lemma getPendingListings_run w :
  getPendingListings w
  = (Returned (fromFirestore <$>
                 runQuery (query LISTINGS_COLLECTION
                             [where_eq "status" (VStr "pending"); orderBy "createdAt" Desc])
                          (docs w LISTINGS_COLLECTION)), w).
Proof. reflexivity. Qed.

Lemma getListingsByUserId_run userId w :
  getListingsByUserId userId w
  = (Returned (fromFirestore <$>
                 runQuery (query LISTINGS_COLLECTION
                             [where_eq "userId" (VStr userId); orderBy "createdAt" Desc])
                          (docs w LISTINGS_COLLECTION)), w).
Proof. reflexivity. Qed.

(** Membership in the result of a list function that selects on one field. *)
Lemma selected_elem field v w (p : Obj) :
  p ∈ fromFirestore <$>
        runQuery (query LISTINGS_COLLECTION [where_eq field v; orderBy "createdAt" Desc])
                 (docs w LISTINGS_COLLECTION)
  <-> ∃ id d, listing w id = Some d ∧ d !! field = Some v
              ∧ is_Some (d !! "createdAt") ∧ p = fromFirestore (id, d).
Proof.
  rewrite list_elem_of_fmap. split.
  - intros ([id d] & -> & Hin). apply selection_elem in Hin as (? & ? & ?).
    by exists id, d.
  - intros (id & d & Hl & Hf & Hc & ->). exists (id, d). split; [done|].
    by apply selection_elem.
Qed.

(** X3: [getActiveListings] writes nothing and returns each stored listing
    that has status [active] and a creation time, once and as converted by
    [fromFirestore], and nothing else; when the creation times in the store
    are timestamps of the store, the list is ordered newest first. *)
Theorem getActiveListings_exact w :
  ∃ products,
    getActiveListings w = (Returned products, w)
    ∧ NoDup products
    ∧ (∀ p, p ∈ products <->
            ∃ id d, listing w id = Some d ∧ d !! "status" = Some (VStr "active")
                    ∧ is_Some (d !! "createdAt") ∧ p = fromFirestore (id, d))
    ∧ (listingsStamped w -> StronglySorted newestFirst products).
Proof.
  eexists. split; [apply getActiveListings_run|]. split; [|split].
  - apply (fromFirestore_NoDup (docs w LISTINGS_COLLECTION)); [|apply selection_NoDup].
    by intros id d (? & _)%selection_elem.
  - intros p. apply selected_elem.
  - intros Hst. apply converted_newestFirst; [|apply selection_sorted].
    apply Forall_forall. intros [id d] (Hl & _)%selection_elem. exact (Hst id d Hl).
Qed.

End listing_reads.

(** ** What the list functions show of a listing as it is moderated *)

Section listing_life.

Implicit Types (w : World) (id owner : string) (d productData product : Obj).

Lemma get_fmap_resolve t (fields : Obj) k :
  get (resolve t <$> fields) k = resolve t (get fields k).
Proof. unfold get. rewrite lookup_fmap. by destruct (fields !! k). Qed.

(** Parsing keeps what every field reads as. *)
Lemma parseData_get s (data fields : Obj) k :
  parseData s data = Some fields -> get fields k = get data k.
Proof.
  unfold parseData, get. destruct (ignoreUndefinedProperties s).
  - intros [= <-]. rewrite map_lookup_filter.
    destruct (data !! k) as [v|]; [|done]. simpl.
    unfold guard. case_decide as Hd; [done|]. simpl.
    unfold defined in Hd. by destruct (decide (v = VUndefined)) as [->|].
  - case_decide; [|done]. by intros [= <-].
Qed.

Lemma get_Some (o : Obj) k v : get o k = v -> v ≠ VUndefined -> o !! k = Some v.
Proof.
  unfold get. destruct (o !! k); simpl; [by intros ->|]. by intros <-.
Qed.

(** A successful [createListing], with what it stored. *)
Lemma createListing_stored productData owner w product w' :
  get productData "userId" = VStr owner -> owner ≠ "" ->
  createListing productData w = (Returned product, w') ->
  ∃ id fields,
    parseData (settings w)
      (<["createdAt" := VServerTimestamp]> (<["status" := VStr "pending"]> productData))
    = Some fields
    ∧ product = <["createdAt" := VNum (localTime w)]>
                  (<["status" := VStr "pending"]> (<["id" := VStr id]> productData))
    ∧ listing w id = None
    ∧ listing w' id = Some (resolve (serverTime w) <$> fields)
    ∧ (∀ id', id' ≠ id -> listing w' id' = listing w id')
    ∧ docs w' MESSAGES_COLLECTION = docs w MESSAGES_COLLECTION.
Proof.
  intros Ho Hne Hrun.
  rewrite createListing_run in Hrun by (rewrite Ho; by apply truthy_string_true).
  destruct (parseData _ _) as [fields|] eqn:Hp; [|done].
  cbv zeta in Hrun. injection Hrun as <- <-.
  exists (autoId (docs w LISTINGS_COLLECTION)), fields.
  split; [done|]. split; [done|]. split; [apply autoId_fresh|].
  split; [|split].
  - unfold listing. by rewrite docs_set_docs, lookup_insert_eq.
  - intros id' Hid. unfold listing. by rewrite docs_set_docs, lookup_insert_ne.
  - by apply docs_set_docs_ne.
Qed.

(** X1: the listing read back with [getListingById] after a successful
    [createListing], under the id of the returned record, agrees with that
    record on every field except the creation time: the stored one is the
    time of the store, the returned one the local clock's. *)
Theorem createListing_then_getListingById productData owner w product w' :
  get productData "userId" = VStr owner -> owner ≠ "" ->
  createListing productData w = (Returned product, w') ->
  ∃ id stored,
    get product "id" = VStr id
    ∧ getListingById id w = (Returned None, w)
    ∧ getListingById id w' = (Returned (Some stored), w')
    ∧ get stored "createdAt" = VNum (serverTime w)
    ∧ get product "createdAt" = VNum (localTime w)
    ∧ get stored "status" = VStr "pending"
    ∧ (∀ k, k ≠ "createdAt" -> get productData k ≠ VServerTimestamp ->
            get stored k = get product k).
Proof.
  intros Ho Hne Hrun.
  destruct (createListing_stored _ _ _ _ _ Ho Hne Hrun)
    as (id & fields & Hp & -> & Hfree & Hst & _).
  exists id, (fromFirestore (id, resolve (serverTime w) <$> fields)).
  assert (∀ k, get (resolve (serverTime w) <$> fields) k
               = resolve (serverTime w)
                   (get (<["createdAt" := VServerTimestamp]>
                           (<["status" := VStr "pending"]> productData)) k)) as Hget.
  { intros k. by rewrite get_fmap_resolve, (parseData_get _ _ _ k Hp). }
  split; [|split; [|split; [|split; [|split; [|split]]]]].
  - unfold get. rewrite !lookup_insert_ne by discriminate. by rewrite lookup_insert_eq.
  - by rewrite getListingById_run, Hfree.
  - by rewrite getListingById_run, Hst.
  - rewrite fromFirestore_createdAt, Hget. unfold get. by rewrite lookup_insert_eq.
  - unfold get. by rewrite lookup_insert_eq.
  - unfold get at 1. rewrite fromFirestore_lookup by discriminate.
    fold (get (resolve (serverTime w) <$> fields) "status"). rewrite Hget.
    unfold get. rewrite lookup_insert_ne by discriminate. by rewrite lookup_insert_eq.
  - intros k Hk Hv. unfold get at 2. rewrite lookup_insert_ne by done.
    destruct (decide (k = "id")) as [->|Hid].
    { unfold get. rewrite fromFirestore_id.
      rewrite lookup_insert_ne by discriminate. by rewrite lookup_insert_eq. }
    unfold get at 1. rewrite fromFirestore_lookup by done.
    fold (get (resolve (serverTime w) <$> fields) k). rewrite Hget.
    unfold get at 1. rewrite lookup_insert_ne by done.
    destruct (decide (k = "status")) as [->|Hs].
    { by rewrite !lookup_insert_eq. }
    rewrite !lookup_insert_ne by done. fold (get productData k).
    by destruct (get productData k).
Qed.

(** X4: a listing that [createListing] has stored waits for moderation:
    [getPendingListings] and [getListingsByUserId] of its owner return it,
    with the id of the returned record, and [getActiveListings] returns no
    listing with that id. *)
Theorem createListing_awaits_moderation productData owner w product w' :
  get productData "userId" = VStr owner -> owner ≠ "" ->
  createListing productData w = (Returned product, w') ->
  ∃ id stored pending own active,
    get product "id" = VStr id
    ∧ get stored "id" = VStr id
    ∧ getPendingListings w' = (Returned pending, w') ∧ stored ∈ pending
    ∧ getListingsByUserId owner w' = (Returned own, w') ∧ stored ∈ own
    ∧ getActiveListings w' = (Returned active, w')
    ∧ (∀ p, p ∈ active -> get p "id" ≠ VStr id).
Proof.
  intros Ho Hne Hrun.
  destruct (createListing_stored _ _ _ _ _ Ho Hne Hrun)
    as (id & fields & Hp & -> & _ & Hst & _).
  set (d := resolve (serverTime w) <$> fields) in *.
  assert (∀ k v, (<["createdAt" := VServerTimestamp]>
                    (<["status" := VStr "pending"]> productData)) !! k = Some v ->
                 defined v -> d !! k = Some (resolve (serverTime w) v)) as Hd.
  { intros k v Hk Hv. unfold d. rewrite lookup_fmap.
    by rewrite (parseData_defined _ _ _ _ _ Hp Hk Hv). }
  assert (d !! "status" = Some (VStr "pending")) as Hstatus.
  { apply (Hd "status" (VStr "pending")); [|done].
    rewrite lookup_insert_ne by discriminate. apply lookup_insert_eq. }
  assert (d !! "createdAt" = Some (VTimestamp (serverTime w))) as Hcreated.
  { apply (Hd "createdAt" VServerTimestamp); [|done]. apply lookup_insert_eq. }
  assert (d !! "userId" = Some (VStr owner)) as Howner.
  { apply (Hd "userId" (VStr owner)); [|done].
    rewrite !lookup_insert_ne by discriminate. by apply get_Some. }
  exists id, (fromFirestore (id, d)). eexists _, _, _.
  split; [|split; [|split; [apply getPendingListings_run|split;
    [|split; [apply getListingsByUserId_run|split;
      [|split; [apply getActiveListings_run|]]]]]]].
  - unfold get. rewrite !lookup_insert_ne by discriminate. by rewrite lookup_insert_eq.
  - unfold get. by rewrite fromFirestore_id.
  - apply selected_elem. exists id, d. rewrite Hcreated. by eauto.
  - apply selected_elem. exists id, d. rewrite Hcreated. by eauto.
  - intros p (id' & d' & Hl & Hs & _ & ->)%selected_elem.
    unfold get. rewrite fromFirestore_id. simpl. intros [= ->]. congruence.
Qed.

(** X5: once [rejectListing] has gone through, neither [getPendingListings]
    nor [getActiveListings] returns the listing; when it has an owner and a
    creation time, [getListingsByUserId] of the owner still returns it, now
    with the reason of the rejection. *)
Theorem rejectListing_hides_listing id reason old w :
  listing w id = Some old ->
  ∃ w' pending active,
    (rejectListing id reason w).2 = w'
    ∧ getPendingListings w' = (Returned pending, w')
    ∧ getActiveListings w' = (Returned active, w')
    ∧ (∀ p, p ∈ pending ∨ p ∈ active -> get p "id" ≠ VStr id)
    ∧ (∀ owner, old !! "userId" = Some (VStr owner) -> is_Some (old !! "createdAt") ->
       ∃ own p,
         getListingsByUserId owner w' = (Returned own, w') ∧ p ∈ own
         ∧ get p "id" = VStr id
         ∧ get p "status" = VStr "rejected"
         ∧ get p "rejectionReason" = VStr reason).
Proof.
  intros Hl. pose proof (rejectListing_ok id reason old w Hl) as Hrun.
  cbv zeta in Hrun. rewrite Hrun. cbn [snd].
  set (d := <["rejectionReason" := VStr reason]> (<["status" := VStr "rejected"]> old)).
  set (w' := set_docs _ _ _ w).
  assert (listing w' id = Some d) as Hd.
  { unfold listing, w'. by rewrite docs_set_docs, lookup_insert_eq. }
  exists w'. eexists _, _.
  split; [done|]. split; [apply getPendingListings_run|].
  split; [apply getActiveListings_run|]. split.
  - assert (d !! "status" = Some (VStr "rejected")) as Hs.
    { unfold d. rewrite lookup_insert_ne by discriminate. apply lookup_insert_eq. }
    intros p [(i & d' & Hi & Hs' & _ & ->)%selected_elem
             |(i & d' & Hi & Hs' & _ & ->)%selected_elem];
      unfold get; rewrite fromFirestore_id; simpl; intros [= ->]; congruence.
  - intros owner Ho Hc. eexists _, (fromFirestore (id, d)).
    split; [apply getListingsByUserId_run|]. split; [|split; [|split]].
    + apply selected_elem. exists id, d. split; [done|].
      unfold d. rewrite !lookup_insert_ne by discriminate. by eauto.
    + unfold get. by rewrite fromFirestore_id.
    + unfold get. rewrite fromFirestore_lookup by discriminate.
      unfold d. rewrite lookup_insert_ne by discriminate. by rewrite lookup_insert_eq.
    + unfold get. rewrite fromFirestore_lookup by discriminate.
      unfold d. by rewrite lookup_insert_eq.
Qed.

(** X2: for an id that can name a document, [deleteListing] returns [true]
    whether or not there was such a listing.  Afterwards [getListingById] returns nothing for that id, every
    other listing and every other collection is as before, one delete was
    sent to the store, and an update of the deleted listing throws without
    writing. *)
Theorem deleteListing_removes id w :
  isDocumentId id ->
  ∃ w',
    deleteListing id w = (Returned true, w')
    ∧ getListingById id w' = (Returned None, w')
    ∧ (∀ id', id' ≠ id -> listing w' id' = listing w id')
    ∧ (∀ c, c ≠ LISTINGS_COLLECTION -> docs w' c = docs w c)
    ∧ writes w' = writes w ++ [WDelete LISTINGS_COLLECTION id]
    ∧ (∀ updates, ∃ e, updateListing id updates w' = (Thrown e, w')).
Proof.
  intros _. eexists. split; [reflexivity|].
  set (w' := set_docs _ _ _ w).
  assert (listing w' id = None) as Hgone.
  { unfold listing, w'. by rewrite docs_set_docs, lookup_delete_eq. }
  split; [by rewrite getListingById_run, Hgone|]. split; [|split; [|split; [done|]]].
  - intros id' Hid. unfold listing, w'. by rewrite docs_set_docs, lookup_delete_ne.
  - intros c Hc. unfold w'. by rewrite docs_set_docs_ne.
  - intros updates.
    destruct (updateListing_cases id updates w')
      as [-> | [-> | (fields & old & _ & Hl & _)]]; [by eexists|by eexists|congruence].
Qed.

End listing_life.

(** ** Unread messages *)

Section unread_facts.

Implicit Types (w : World) (adId senderId receiverId text userId readerId id : string) (d : Obj).

Lemma map_to_list_filter_perm (P : string * Obj -> Prop) `{!∀ x, Decision (P x)}
    (m : gmap string Obj) :
  map_to_list (filter P m) ≡ₚ filter P (map_to_list m).
Proof.
  apply NoDup_Permutation; [apply NoDup_map_to_list|apply NoDup_filter, NoDup_map_to_list|].
  intros [i x]. rewrite elem_of_map_to_list, map_lookup_filter_Some.
  rewrite list_elem_of_filter, elem_of_map_to_list. tauto.
Qed.

Lemma unread_snapshot_length userId (ds : gmap string Obj) :
  length (runQuery (query MESSAGES_COLLECTION
                      [where_eq "receiverId" (VStr userId); where_eq "read" (VBool false)])
                   ds)
  = size (filter (fun kv : string * Obj => unreadTo userId kv.2) ds).
Proof.
  unfold runQuery. cbn [q_constraints foldl applyConstraint].
  rewrite <- length_map_to_list, map_to_list_filter_perm.
  rewrite list_filter_filter. f_equiv. apply list_filter_iff.
  intros [i x]. unfold unreadTo. simpl. tauto.
Qed.

Lemma getUnreadMessagesCountForUser_run userId w :
  userId ≠ "" ->
  getUnreadMessagesCountForUser userId w = (Returned (size (unreadMessages w userId)), w).
Proof.
  intros Hu. unfold getUnreadMessagesCountForUser. rewrite (truthy_string_true _ Hu).
  cbv beta iota delta [negb mbind M_bind bind getDocs mret M_ret ret].
  cbn [q_collection]. by rewrite unread_snapshot_length.
Qed.

(** X6: [getUnreadMessagesCountForUser] writes nothing and returns the number
    of stored messages whose receiver is the user and whose flag [read] is
    [false], for a user id that is not empty, and for the empty one over a
    store whose messages were put there by [sendMessage]. *)
Theorem getUnreadMessagesCountForUser_counts userId w :
  userId ≠ "" ∨ messagesWellFormed w ->
  getUnreadMessagesCountForUser userId w
  = (Returned (size (unreadMessages w userId)), w).
Proof.
  intros H. destruct (decide (userId = "")) as [->|Hu];
    [|by apply getUnreadMessagesCountForUser_run].
  destruct H as [?|Hwf]; [done|].
  assert (unreadMessages w "" = ∅) as ->; [|done].
  apply map_empty_filter_2. intros id d Hm [Hr _]. simpl in Hr.
  by apply (isStoredMessage_receiver d (Hwf id d Hm)).
Qed.

(** X7: a message that [sendMessage] has stored is one more unread message
    for its receiver, as [getUnreadMessagesCountForUser] counts them, and
    changes the count of nobody else. *)
Theorem sendMessage_adds_one_unread adId senderId receiverId text w :
  senderId ≠ "" -> receiverId ≠ "" ->
  ∃ n w',
    (sendMessage adId senderId receiverId text w).2 = w'
    ∧ getUnreadMessagesCountForUser receiverId w = (Returned n, w)
    ∧ getUnreadMessagesCountForUser receiverId w' = (Returned (S n), w')
    ∧ (∀ userId, userId ≠ receiverId ->
         (getUnreadMessagesCountForUser userId w').1
         = (getUnreadMessagesCountForUser userId w).1).
Proof.
  intros Hs Hr. pose proof (sendMessage_ok adId senderId receiverId text w Hs Hr) as Hrun.
  cbv zeta in Hrun. rewrite Hrun. cbn [snd].
  set (id := autoId (docs w MESSAGES_COLLECTION)).
  set (d := messageFields adId senderId receiverId text (VTimestamp (serverTime w)) false).
  set (w' := set_docs _ _ _ w).
  assert (docs w' MESSAGES_COLLECTION = <[id := d]> (docs w MESSAGES_COLLECTION)) as Hdocs
    by apply docs_set_docs.
  assert (d !! "receiverId" = Some (VStr receiverId) ∧ d !! "read" = Some (VBool false))
    as [Hrecv Hread].
  { unfold d, messageFields. split;
      repeat first [rewrite lookup_insert_eq | rewrite lookup_insert_ne by discriminate
                   | rewrite lookup_singleton_eq]; done. }
  exists (size (unreadMessages w receiverId)), w'.
  split; [done|]. split; [by apply getUnreadMessagesCountForUser_run|]. split.
  - rewrite (getUnreadMessagesCountForUser_run _ _ Hr). do 2 f_equal.
    unfold unreadMessages. rewrite Hdocs.
    rewrite map_filter_insert_True by done.
    apply map_size_insert_None, map_lookup_filter_None. left. apply autoId_fresh.
  - intros userId Hu. destruct (decide (userId = "")) as [->|Hne]; [done|].
    rewrite !getUnreadMessagesCountForUser_run by done. cbn [fst]. do 2 f_equal.
    unfold unreadMessages. rewrite Hdocs.
    rewrite map_filter_insert_False.
    + rewrite delete_id; [done|]. apply autoId_fresh.
    + intros [Hu' _]. simpl in Hu'. congruence.
Qed.

(** The messages after [markMessagesAsRead], for a reader id that is not empty. *)
Lemma markMessagesAsRead_message adId readerId w id :
  readerId ≠ "" ->
  message (markMessagesAsRead adId readerId w).2 id
  = markRead adId readerId <$> message w id.
Proof.
  intros Hr. rewrite (markMessagesAsRead_run _ _ _ Hr).
  destruct (runQuery _ _) as [|s snaps] eqn:Hq.
  - cbn [snd]. destruct (message w id) as [d|] eqn:Hm; [|done].
    cbn [fmap option_fmap option_map]. unfold markRead.
    rewrite decide_False; [done|]. intros Hu.
    assert ((id, d) ∈ runQuery (unreadQuery adId readerId) (docs w MESSAGES_COLLECTION))
      as Hin by (by apply unreadQuery_elem).
    rewrite Hq in Hin. by apply not_elem_of_nil in Hin.
  - cbn [snd]. rewrite <- Hq. apply committed_message.
Qed.

Lemma markRead_not_unread adId readerId d : ¬ unreadFor adId readerId (markRead adId readerId d).
Proof.
  unfold markRead. case_decide as Hu; [|done].
  intros (_ & _ & Hread). rewrite lookup_insert_eq in Hread. discriminate.
Qed.

(** No matching message: nothing is done. *)
Lemma markMessagesAsRead_no_match adId readerId w :
  (∀ id d, message w id = Some d -> ¬ unreadFor adId readerId d) ->
  markMessagesAsRead adId readerId w = (Returned tt, w).
Proof.
  intros H. destruct (decide (readerId = "")) as [->|Hr]; [done|].
  rewrite (markMessagesAsRead_run _ _ _ Hr).
  destruct (runQuery _ _) as [|[id d] snaps] eqn:Hq; [done|].
  assert ((id, d) ∈ runQuery (unreadQuery adId readerId) (docs w MESSAGES_COLLECTION))
    as Hin by (rewrite Hq; apply list_elem_of_here).
  apply unreadQuery_elem in Hin as [Hm Hu]. by destruct (H id d).
Qed.

(** X8: [markMessagesAsRead] settles the listing for the reader: a second
    call right after the first finds nothing to do and leaves the world,
    with its log of writes, as the first call left it; and for a reader id
    that is not empty the messages still unread for the reader afterwards
    are the ones of other listings that were unread before. *)
Theorem markMessagesAsRead_settles adId readerId w :
  markMessagesAsRead adId readerId (markMessagesAsRead adId readerId w).2
  = (Returned tt, (markMessagesAsRead adId readerId w).2)
  ∧ (readerId ≠ "" ->
     unreadMessages (markMessagesAsRead adId readerId w).2 readerId
     = filter (fun kv : string * Obj => kv.2 !! "adId" ≠ Some (VStr adId))
              (unreadMessages w readerId)).
Proof.
  split.
  - destruct (decide (readerId = "")) as [->|Hr]; [done|].
    apply markMessagesAsRead_no_match. intros id d Hm.
    rewrite markMessagesAsRead_message in Hm by done.
    destruct (message w id) as [d0|]; [|done]. injection Hm as <-.
    apply markRead_not_unread.
  - intros Hr. apply map_eq. intros id. apply option_eq. intros x.
    unfold unreadMessages. rewrite !map_lookup_filter_Some.
    fold (message (markMessagesAsRead adId readerId w).2 id). fold (message w id).
    rewrite (markMessagesAsRead_message _ _ _ _ Hr). cbn [snd]. split.
    + intros [Hm Ht]. destruct (message w id) as [d|]; [|done].
      injection Hm as <-. unfold markRead in *.
      destruct (decide (unreadFor adId readerId d)) as [Hu|Hu].
      * destruct Ht as [_ Hread]. rewrite lookup_insert_eq in Hread. discriminate.
      * split; [done|]. intros Ha. apply Hu. by destruct Ht.
    + intros [[Hm Ht] Ha]. rewrite Hm. cbn. split; [|done]. f_equal.
      unfold markRead. rewrite decide_False; [done|]. by intros (? & _).
Qed.

End unread_facts.

(** ** A message on its way to the two participants *)

Section conversation_life.

Implicit Types (w : World) (adId senderId receiverId text userId id : string) (d m : Obj).

Lemma getMessagesForAd_run adId userId w :
  userId ≠ "" ->
  getMessagesForAd adId userId w
  = (Returned (filter (isParticipant userId)
                 (messageFromFirestore <$>
                    runQuery (query MESSAGES_COLLECTION
                                [where_eq "adId" (VStr adId); orderBy "timestamp" Asc])
                             (docs w MESSAGES_COLLECTION))), w).
Proof. intros Hu. unfold getMessagesForAd. by rewrite (truthy_string_true _ Hu). Qed.

(** What [getMessagesForAd] returns, document by document. *)
Lemma getMessagesForAd_elem adId userId w m :
  userId ≠ "" ->
  m ∈ filter (isParticipant userId)
        (messageFromFirestore <$>
           runQuery (query MESSAGES_COLLECTION
                       [where_eq "adId" (VStr adId); orderBy "timestamp" Asc])
                    (docs w MESSAGES_COLLECTION))
  <-> ∃ id d, message w id = Some d ∧ d !! "adId" = Some (VStr adId)
              ∧ is_Some (d !! "timestamp")
              ∧ (get d "senderId" = VStr userId ∨ get d "receiverId" = VStr userId)
              ∧ m = messageFromFirestore (id, d).
Proof.
  intros Hu. rewrite list_elem_of_filter, list_elem_of_fmap.
  unfold isParticipant, get. split.
  - intros (Hp & [id d] & -> & (Hm & Ha & Ht)%conversation_snapshot_elem).
    rewrite !messageFromFirestore_lookup in Hp by discriminate.
    by exists id, d.
  - intros (id & d & Hm & Ha & Ht & Hp & ->).
    rewrite !messageFromFirestore_lookup by discriminate. split; [done|].
    exists (id, d). split; [done|]. by apply conversation_snapshot_elem.
Qed.

(** X9: a message that [sendMessage] has stored is in the conversation that
    [getMessagesForAd] returns to its sender and to its receiver, under the
    id of the returned record, unread, with the given text and with the
    store's time in place of the local time of the returned record; nobody
    else gets it. *)
Theorem sendMessage_then_getMessagesForAd adId senderId receiverId text w :
  senderId ≠ "" -> receiverId ≠ "" ->
  ∃ id msg m w' toSender toReceiver,
    sendMessage adId senderId receiverId text w = (Returned msg, w')
    ∧ get msg "id" = VStr id ∧ get m "id" = VStr id
    ∧ getMessagesForAd adId senderId w' = (Returned toSender, w') ∧ m ∈ toSender
    ∧ getMessagesForAd adId receiverId w' = (Returned toReceiver, w') ∧ m ∈ toReceiver
    ∧ get m "text" = VStr text ∧ get m "read" = VBool false
    ∧ get m "timestamp" = VNum (serverTime w)
    ∧ get msg "timestamp" = VNum (localTime w)
    ∧ (∀ userId m', userId ≠ senderId -> userId ≠ receiverId ->
         m' ∈ default [] (returned (getMessagesForAd adId userId w').1) ->
         get m' "id" ≠ VStr id).
Proof.
  intros Hs Hr. pose proof (sendMessage_ok adId senderId receiverId text w Hs Hr) as Hrun.
  cbv zeta in Hrun.
  set (id := autoId (docs w MESSAGES_COLLECTION)) in *.
  set (d := messageFields adId senderId receiverId text (VTimestamp (serverTime w)) false)
    in *.
  set (w' := set_docs _ _ _ w) in *.
  assert (message w' id = Some d) as Hm.
  { unfold message, w'. by rewrite docs_set_docs, lookup_insert_eq. }
  assert (∀ k v, d !! k = Some v -> k ≠ "timestamp" -> k ≠ "id" ->
                 get (messageFromFirestore (id, d)) k = v) as Hget.
  { intros k v Hk H1 H2. unfold get. by rewrite messageFromFirestore_lookup, Hk. }
  assert (d !! "adId" = Some (VStr adId) ∧ d !! "senderId" = Some (VStr senderId)
          ∧ d !! "receiverId" = Some (VStr receiverId) ∧ d !! "text" = Some (VStr text)
          ∧ d !! "timestamp" = Some (VTimestamp (serverTime w))
          ∧ d !! "read" = Some (VBool false)) as (Ha & Hsd & Hrv & Htx & Hts & Hrd).
  { unfold d, messageFields. repeat split;
      repeat first [rewrite lookup_insert_eq | rewrite lookup_insert_ne by discriminate
                   | rewrite lookup_singleton_eq]; done. }
  exists id. eexists _, (messageFromFirestore (id, d)), w', _, _.
  split; [exact Hrun|].
  split; [unfold get; rewrite !lookup_insert_ne by discriminate;
          by rewrite lookup_insert_eq|].
  split; [unfold get; by rewrite messageFromFirestore_id|].
  split; [by apply getMessagesForAd_run|]. split.
  { apply getMessagesForAd_elem; [done|]. exists id, d. unfold get.
    rewrite Hsd, Hts. by eauto 10. }
  split; [by apply getMessagesForAd_run|]. split.
  { apply getMessagesForAd_elem; [done|]. exists id, d. unfold get.
    rewrite Hrv, Hts. by eauto 10. }
  split; [by apply Hget|]. split; [by apply Hget|].
  split; [rewrite messageFromFirestore_timestamp; unfold get; by rewrite Hts|].
  split.
  { unfold get. rewrite lookup_insert_ne by discriminate. by rewrite lookup_insert_eq. }
  intros userId m' Hus Hur Hin.
  destruct (decide (userId = "")) as [->|Hu].
  { by apply not_elem_of_nil in Hin. }
  rewrite (getMessagesForAd_run _ _ _ Hu) in Hin. cbn in Hin.
  apply getMessagesForAd_elem in Hin as (id' & d' & Hm' & _ & _ & Hp & ->); [|done].
  unfold get at 1. rewrite messageFromFirestore_id. intros [= ->].
  assert (d' = d) as -> by congruence.
  unfold get in Hp. rewrite Hsd, Hrv in Hp. cbn [default from_option] in Hp.
  destruct Hp as [[= ?]|[= ?]]; done.
Qed.

(** The chat functions read the messages and nothing else. *)
Lemma getChatsForUser_reads_messages userId w1 w2 :
  docs w1 MESSAGES_COLLECTION = docs w2 MESSAGES_COLLECTION ->
  (getChatsForUser userId w1).1 = (getChatsForUser userId w2).1.
Proof.
  intros H. unfold getChatsForUser. destruct (negb (truthy (VStr userId))); [done|].
  unfold mbind, M_bind, bind, getDocs. cbn [q_collection fst snd]. by rewrite H.
Qed.

Lemma getMessagesForAd_reads_messages adId userId w1 w2 :
  docs w1 MESSAGES_COLLECTION = docs w2 MESSAGES_COLLECTION ->
  (getMessagesForAd adId userId w1).1 = (getMessagesForAd adId userId w2).1.
Proof.
  intros H. unfold getMessagesForAd. destruct (negb (truthy (VStr userId))); [done|].
  unfold mbind, M_bind, bind, getDocs. cbn [q_collection fst snd]. by rewrite H.
Qed.

Lemma getUnreadMessagesCountForUser_reads_messages userId w1 w2 :
  docs w1 MESSAGES_COLLECTION = docs w2 MESSAGES_COLLECTION ->
  (getUnreadMessagesCountForUser userId w1).1 = (getUnreadMessagesCountForUser userId w2).1.
Proof.
  intros H. unfold getUnreadMessagesCountForUser.
  destruct (negb (truthy (VStr userId))); [done|].
  unfold mbind, M_bind, bind, getDocs. cbn [q_collection fst snd]. by rewrite H.
Qed.

(** X10: deleting a listing deletes none of its messages.  After
    [deleteListing] with an id that can name a document the chats of every user, every conversation and every
    count of unread messages are what they were, also those of the deleted
    listing, for which [getListingById] now returns nothing. *)
Theorem deleteListing_keeps_messages id w :
  isDocumentId id ->
  (getListingById id (deleteListing id w).2).1 = Returned None
  ∧ (∀ userId,
       (getChatsForUser userId (deleteListing id w).2).1 = (getChatsForUser userId w).1)
  ∧ (∀ adId userId,
       (getMessagesForAd adId userId (deleteListing id w).2).1
       = (getMessagesForAd adId userId w).1)
  ∧ (∀ userId,
       (getUnreadMessagesCountForUser userId (deleteListing id w).2).1
       = (getUnreadMessagesCountForUser userId w).1).
Proof.
  intros _.
  assert (docs (deleteListing id w).2 MESSAGES_COLLECTION = docs w MESSAGES_COLLECTION)
    as Hm by (by apply docs_set_docs_ne).
  split; [|split; [|split]].
  - rewrite getListingById_run. cbn [fst]. unfold listing.
    change (deleteListing id w).2
      with (set_docs LISTINGS_COLLECTION (delete id (docs w LISTINGS_COLLECTION))
              (WDelete LISTINGS_COLLECTION id) w).
    by rewrite docs_set_docs, lookup_delete_eq.
  - intros userId. by apply getChatsForUser_reads_messages.
  - intros adId userId. by apply getMessagesForAd_reads_messages.
  - intros userId. by apply getUnreadMessagesCountForUser_reads_messages.
Qed.

End conversation_life.

(** ** Names of categories *)

Section category_names.

Implicit Types (CATEGORIES : list Category) (categoryId subcategoryId : string).

Lemma orElse_nonempty (x : option string) (fallback : string) :
  fallback ≠ "" -> orElse x fallback ≠ "".
Proof.
  intros Hf. unfold orElse. destruct x as [s|]; [|done].
  destruct (String.eqb s "") eqn:E; [done|]. by apply String.eqb_neq in E.
Qed.

Lemma orElse_cases (x : option string) (fallback : string) :
  orElse x fallback = fallback ∨ (x = Some (orElse x fallback) ∧ orElse x fallback ≠ "").
Proof.
  unfold orElse. destruct x as [s|]; [|by left].
  destruct (String.eqb s "") eqn:E; [by left|right]. by apply String.eqb_neq in E.
Qed.

Lemma find_by_id_none {A} (key : A -> string) (l : list A) (k : string) :
  (∀ x, x ∈ l -> key x ≠ k) -> List.find (fun x => String.eqb (key x) k) l = None.
Proof.
  intros H. induction l as [|x l IH]; [done|]. simpl.
  destruct (String.eqb (key x) k) eqn:E.
  - apply String.eqb_eq in E. destruct (H x); [apply list_elem_of_here|done].
  - apply IH. intros y Hy. apply H. by apply list_elem_of_further.
Qed.

Lemma find_by_id_some {A} (key : A -> string) (l : list A) (k : string) x :
  List.find (fun x => String.eqb (key x) k) l = Some x -> x ∈ l ∧ key x = k.
Proof.
  intros [Hin E]%List.find_some. split; [by apply list_elem_of_In|].
  by apply String.eqb_eq.
Qed.

(** X11: the name functions never answer with an empty string for an id
    that is not empty: [getCategoryName] answers with the id itself, or
    with the non-empty name of a category of the table that has this id,
    and it answers with the id when the table has no category with it;
    [getSubcategoryName] does the same with the subcategories of a category
    that has the category id, and answers with the subcategory id when there
    is no such category. *)
Theorem category_names_fall_back CATEGORIES categoryId subcategoryId :
  (categoryId ≠ "" -> getCategoryName CATEGORIES categoryId ≠ "")
  ∧ (getCategoryName CATEGORIES categoryId = categoryId
     ∨ ∃ c, c ∈ CATEGORIES ∧ cat_id c = categoryId
            ∧ getCategoryName CATEGORIES categoryId = cat_name c)
  ∧ ((∀ c, c ∈ CATEGORIES -> cat_id c ≠ categoryId) ->
     getCategoryName CATEGORIES categoryId = categoryId
     ∧ getSubcategoryName CATEGORIES categoryId subcategoryId = subcategoryId)
  ∧ (subcategoryId ≠ "" -> getSubcategoryName CATEGORIES categoryId subcategoryId ≠ "")
  ∧ (getSubcategoryName CATEGORIES categoryId subcategoryId = subcategoryId
     ∨ ∃ c sc, c ∈ CATEGORIES ∧ cat_id c = categoryId
               ∧ sc ∈ subcategories c ∧ sub_id sc = subcategoryId
               ∧ getSubcategoryName CATEGORIES categoryId subcategoryId = sub_name sc).
Proof.
  split; [by apply orElse_nonempty|]. split; [|split; [|split; [by apply orElse_nonempty|]]].
  - unfold getCategoryName.
    destruct (orElse_cases
                (cat_name <$> List.find (fun c => String.eqb (cat_id c) categoryId) CATEGORIES)
                categoryId) as [?|[Hx _]]; [by left|right].
    destruct (List.find _ CATEGORIES) as [c|] eqn:Hf; [|done].
    apply find_by_id_some in Hf as [Hin Hid]. exists c.
    cbn [fmap option_fmap option_map] in *. split; [done|]. split; [done|]. congruence.
  - intros Hnone. unfold getCategoryName, getSubcategoryName.
    by rewrite (find_by_id_none cat_id CATEGORIES categoryId Hnone).
  - unfold getSubcategoryName.
    destruct (orElse_cases
                (List.find (fun c => String.eqb (cat_id c) categoryId) CATEGORIES ≫= fun c =>
                   sub_name <$> List.find (fun sc => String.eqb (sub_id sc) subcategoryId)
                                          (subcategories c))
                subcategoryId) as [?|[Hx _]]; [by left|right].
    destruct (List.find _ CATEGORIES) as [c|] eqn:Hf; [|done]. cbn in Hx.
    destruct (List.find _ (subcategories c)) as [sc|] eqn:Hg; [|done].
    apply find_by_id_some in Hf as [Hin Hid].
    destruct (find_by_id_some _ _ _ _ Hg) as [Hin' Hid'].
    exists c, sc. cbn [mbind option_bind fmap option_fmap option_map] in *.
    rewrite Hg. cbn [fmap option_fmap option_map].
    split; [done|]. split; [done|]. split; [done|]. split; [done|]. congruence.
Qed.

End category_names.

(** ** The create page *)

Section create_page.

Import CreateListingPage.

Implicit Types (w : World) (p : Page) (productFormData : Obj) (u id : string).

(** X12: on the create page, without a current user (none, or the empty
    string) [handleSubmit] writes nothing and shows that the user is not
    determined.  With a current user every listing it stores belongs to that
    user, whatever owner the form data names, and has status [pending]; the
    page then goes to the listings of the user.  The only other outcome is
    that the store refuses the data: nothing is written and the message of
    that error is shown.  Data without [undefined] fields is stored. *)
Theorem create_page_sets_owner currentUserId productFormData p w :
  (currentUserId = None ∨ currentUserId = Some "" ->
   handleSubmit currentUserId productFormData p w
   = ({| isSubmitting := false; error := Some (Text userUndetermined);
         navigatedTo := navigatedTo p |}, w))
  ∧ (∀ u, currentUserId = Some u -> u ≠ "" ->
     (handleSubmit currentUserId productFormData p w
      = ({| isSubmitting := false; error := Some (MessageOf InvalidData);
            navigatedTo := navigatedTo p |}, w)
      ∧ ¬ noUndefined productFormData)
     ∨ (∃ id w',
          handleSubmit currentUserId productFormData p w
          = ({| isSubmitting := false; error := None;
                navigatedTo := Some "/my-listings" |}, w')
          ∧ listing w id = None
          ∧ field (listing w' id) "userId" = Some (VStr u)
          ∧ field (listing w' id) "status" = Some (VStr "pending")
          ∧ (∀ id', id' ≠ id -> listing w' id' = listing w id'))).
Proof.
  split.
  - intros [-> | ->]; reflexivity.
  - intros u -> Hu. unfold handleSubmit. cbn [optional].
    rewrite (truthy_string_true _ Hu). cbn [negb].
    set (dataToSubmit := <["userId" := VStr u]> productFormData).
    assert (get dataToSubmit "userId" = VStr u) as Ho
      by (unfold get, dataToSubmit; by rewrite lookup_insert_eq).
    destruct (createListing dataToSubmit w) as [[product|e] w'] eqn:Hrun.
    + right.
      destruct (createListing_stored _ _ _ _ _ Ho Hu Hrun)
        as (id & fields & Hp & _ & Hfree & Hst & Hothers & _).
      exists id, w'. split; [done|]. split; [done|]. rewrite Hst. cbn.
      rewrite !lookup_fmap. split; [|split; [|done]].
      * rewrite (parseData_defined _ _ _ "userId" (VStr u) Hp); [done| |done].
        rewrite !lookup_insert_ne by discriminate. apply lookup_insert_eq.
      * rewrite (parseData_defined _ _ _ "status" (VStr "pending") Hp); [done| |done].
        rewrite lookup_insert_ne by discriminate. apply lookup_insert_eq.
    + left.
      rewrite createListing_run in Hrun by (rewrite Ho; by apply truthy_string_true).
      destruct (parseData _ _) as [fields|] eqn:Hp; [done|].
      injection Hrun as <- <-. split; [done|]. intros Hd.
      rewrite parseData_noUndefined in Hp; [done|].
      repeat (apply noUndefined_insert; [done|]). done.
Qed.

End create_page.

(** ** The edit page: who may write *)

Section edit_page_access.

Import EditListingPage EditListingPage_useEffect.

Implicit Types (w : World) (p : Page) (productId u id : string) (d productData : Obj).

Lemma handleSubmit_not_loaded productData p w :
  initialProduct p = None ->
  handleSubmit productData p w = (setError None (setIsSubmitting true p), w).
Proof. intros H. unfold handleSubmit. cbv zeta. cbn [initialProduct setError setIsSubmitting]. by rewrite H. Qed.

(** X13: the edit page lets a listing be changed by its owner and by the
    admin only.  Loading a stored listing as a user who is not the admin
    and whose id is not the owner id of the listing leaves the page without
    a listing and with an error, and whatever is submitted then, nothing is
    written.  For the owner, and for the admin whoever is logged in, the
    listing is loaded as [getListingById] returns it.  Loading writes
    nothing. *)
Theorem edit_page_guards_ownership productId currentUserId admin d productData w :
  productId ≠ "" -> listing w productId = Some d ->
  (useEffect (Some productId) currentUserId (mounted admin) w).2 = w
  ∧ (admin = false -> get d "userId" ≠ optional currentUserId ->
     initialProduct (useEffect (Some productId) currentUserId (mounted false) w).1.1 = None
     ∧ is_Some (error (useEffect (Some productId) currentUserId (mounted false) w).1.1)
     ∧ (handleSubmit productData
          (useEffect (Some productId) currentUserId (mounted false) w).1.1 w).2 = w)
  ∧ ((admin = true ∨ ∃ u, currentUserId = Some u ∧ u ≠ "" ∧ get d "userId" = VStr u) ->
     (useEffect (Some productId) currentUserId (mounted admin) w).1
     = ({| isAdminEdit := admin;
           initialProduct := Some (fromFirestore (productId, d));
           isSubmitting := false; error := None; navigatedTo := None |}, false)).
Proof.
  intros Hid Hl.
  assert (getListingById productId w
          = (Returned (Some (fromFirestore (productId, d))), w)) as Hget
    by (by rewrite getListingById_run, Hl).
  assert (get (fromFirestore (productId, d)) "userId" = get d "userId") as Hown
    by (unfold get; by rewrite fromFirestore_lookup).
  unfold useEffect, fetchProduct, mounted. cbn [fst snd isAdminEdit].
  rewrite (truthy_string_true _ Hid), Hget, Hown. cbn [negb].
  split; [|split].
  - by repeat case_match.
  - intros -> Hne. cbn [negb andb orb].
    destruct (negb (truthy (optional currentUserId))).
    + cbn [fst snd]. split; [done|]. split; [by eexists|].
      by rewrite handleSubmit_not_loaded.
    + rewrite bool_decide_eq_false_2 by done. cbn [fst snd].
      split; [done|]. split; [by eexists|]. by rewrite handleSubmit_not_loaded.
  - intros [-> |(u & -> & Hu & Hd)].
    + by rewrite andb_false_r.
    + cbn [optional]. rewrite (truthy_string_true _ Hu). cbn [negb andb].
      rewrite bool_decide_eq_true_2 by done. by rewrite orb_true_r.
Qed.

(** X14: a submission on the edit page that the store accepts, the owner's
    or the admin's with a status in the form, changes in the stored listing
    only what the form data names: a field the data does not have keeps its
    stored value, so a rejected listing that its owner edits goes back to
    [pending] with the old rejection reason still in it; the owner id is
    kept even when the data names one; every other field of the data is
    written; the other listings are untouched. *)
Theorem handleSubmit_keeps_unmentioned_fields productData p initial id old w :
  initialProduct p = Some initial -> get initial "id" = VStr id ->
  listing w id = Some old -> noUndefined productData ->
  isAdminEdit p = false ∨ is_Some (productData !! "status") ->
  (∀ k, k ≠ "status" -> productData !! k = None ∨ k = "userId" ->
        field (listing (handleSubmit productData p w).2 id) k = old !! k)
  ∧ (∀ k v, k ≠ "status" -> k ≠ "userId" -> productData !! k = Some v ->
            field (listing (handleSubmit productData p w).2 id) k
            = Some (resolve (serverTime w) v))
  ∧ (∀ id', id' ≠ id -> listing (handleSubmit productData p w).2 id' = listing w id').
Proof.
  intros Hi Hid Hl Hd Hstatus. rewrite (handleSubmit_world _ _ _ _ _ Hi Hid).
  set (status := if negb (isAdminEdit p) then PENDING : Value else get productData "status").
  assert (defined status) as Hs.
  { unfold status. destruct Hstatus as [-> |[v Hv]]; [done|].
    destruct (isAdminEdit p); [|done]. cbn [negb]. unfold get. rewrite Hv.
    exact (Hd "status" v Hv). }
  destruct (updateListing_accepted id (<["status" := status]> productData) old w Hl)
    as [Hw _]; [by apply noUndefined_insert|].
  split; [|split].
  - intros k Hk Hnone. rewrite Hw. cbn. apply merged_lookup_other.
    destruct (decide (k = "userId")) as [->|Hu]; [apply lookup_delete_eq|].
    rewrite lookup_delete_ne, lookup_insert_ne by done. by destruct Hnone.
  - intros k v Hk Hu Hv. rewrite Hw. cbn. apply merged_lookup_set.
    by rewrite lookup_delete_ne, lookup_insert_ne.
  - intros id' Hne.
    rewrite (updateListing_ok id (<["status" := status]> productData) _ old w
               (parseData_noUndefined _ _
                  (noUndefined_delete "userId" _ (noUndefined_insert _ _ _ Hs Hd))) Hl).
    cbn [snd]. unfold listing. by rewrite docs_set_docs, lookup_insert_ne.
Qed.

End edit_page_access.

(** ** Counting by status *)

Section three_ways.

Context {A : Type} (P1 P2 P3 : A -> Prop).
Context `{!∀ x, Decision (P1 x), !∀ x, Decision (P2 x), !∀ x, Decision (P3 x)}.
Hypothesis apart12 : ∀ x, P1 x -> P2 x -> False.
Hypothesis apart13 : ∀ x, P1 x -> P3 x -> False.
Hypothesis apart23 : ∀ x, P2 x -> P3 x -> False.

(** Three selections that exclude each other never count more than there
    is, and count everything exactly when every element is in one. *)
Lemma three_way_count (l : list A) :
  (length (filter P1 l) + length (filter P2 l) + length (filter P3 l) <= length l)%nat
  ∧ (Forall (fun x => P1 x ∨ P2 x ∨ P3 x) l
     <-> (length (filter P1 l) + length (filter P2 l) + length (filter P3 l))%nat
         = length l).
Proof.
  induction l as [|x l [IHle IHeq]].
  - split; [done|]. split; [done|constructor].
  - rewrite !filter_cons. rewrite Forall_cons.
    destruct (decide (P1 x)) as [Hx1|Hx1], (decide (P2 x)) as [Hx2|Hx2],
             (decide (P3 x)) as [Hx3|Hx3];
      try (by destruct (apart12 x)); try (by destruct (apart13 x));
      try (by destruct (apart23 x)); cbn [length]; (split; [lia|]);
      rewrite IHeq; (split; [intros [Hx HF]|intros HS]).
    all: first [lia | by destruct Hx as [?|[?|?]] | split; [tauto|lia]].
Qed.

End three_ways.

Section status_counts.

Implicit Types (w : World) (d : Obj).

Lemma status_apart (k1 k2 : AdStatus) (v : Value) :
  k1 ≠ k2 -> v = (k1 : Value) -> v = (k2 : Value) -> False.
Proof. intros Hne -> H. by destruct k1, k2. Qed.

Lemma status_three_ways (v : Value) :
  (v = (ACTIVE : Value) ∨ v = (PENDING : Value) ∨ v = (REJECTED : Value))
  <-> ∃ k : AdStatus, v = (k : Value).
Proof.
  split.
  - intros [-> |[-> | ->]]; by eexists.
  - intros [[] ->]; auto.
Qed.

End status_counts.

(** ** The page of the user's listings *)

Section my_listings_page.

Import MyListingsPage.

Implicit Types (w : World) (p : Page) (id u : string) (product selected : Obj).

(** X16: the three tabs of the page never show a listing twice: their counts
    add up to at most the number of listings of the user, and to exactly
    that number when, and only when, every listing has one of the three
    statuses; no listing is in two tabs. *)
Theorem tabs_cover_listings p :
  (length (ofTab ACTIVE p) + length (ofTab PENDING p) + length (ofTab REJECTED p)
   <= length (userListings p))%nat
  ∧ (Forall (fun product => ∃ k : AdStatus, get product "status" = (k : Value))
            (userListings p)
     <-> (length (ofTab ACTIVE p) + length (ofTab PENDING p) + length (ofTab REJECTED p))%nat
         = length (userListings p))
  ∧ (∀ product k, product ∈ ofTab k p ->
                  ∀ k', product ∈ ofTab k' p -> k' = k).
Proof.
  destruct (three_way_count
              (fun product => get product "status" = (ACTIVE : Value))
              (fun product => get product "status" = (PENDING : Value))
              (fun product => get product "status" = (REJECTED : Value))
              ltac:(intros x; by apply status_apart)
              ltac:(intros x; by apply status_apart)
              ltac:(intros x; by apply status_apart)
              (userListings p)) as [Hle Heq].
  split; [exact Hle|]. split.
  - rewrite <- Heq. apply Forall_iff. intros product. symmetry. apply status_three_ways.
  - intros product k [Hk _]%list_elem_of_filter k' [Hk' _]%list_elem_of_filter.
    rewrite Hk in Hk'. by destruct k, k'.
Qed.

Lemma deleteSelected_run selected id w :
  get selected "id" = VStr id ->
  deleteSelected selected w
  = (Returned true,
     set_docs LISTINGS_COLLECTION (delete id (docs w LISTINGS_COLLECTION))
       (WDelete LISTINGS_COLLECTION id) w).
Proof. intros H. unfold deleteSelected. by rewrite H. Qed.

(** What the listener of the page makes of the snapshot of a world. *)
Lemma onListings_elem u w p product :
  product ∈ userListings (onListings (delivered (listingsQuery u) w) p)
  <-> ∃ id d, listing w id = Some d ∧ d !! "userId" = Some (VStr u)
              ∧ is_Some (d !! "createdAt") ∧ product = fromFirestore (id, d).
Proof. apply (selected_elem "userId" (VStr u) w product). Qed.

(** X15: confirming the deletion of the selected listing, whose id names a
    document, removes it from the store and leaves every other listing; the
    dialog is closed, nothing is selected any more and the error shown is
    left as it was.  The next snapshot the
    listener of the page is handed has the listings it had before, without
    the deleted one.  With nothing selected, page and world stay as they
    are. *)
Theorem confirmDelete_removes_selected p w :
  (listingToDelete p = None -> confirmDelete p w = (p, w))
  ∧ (∀ selected id, listingToDelete p = Some selected -> get selected "id" = VStr id ->
     isDocumentId id ->
     ∃ p' w',
       confirmDelete p w = (p', w')
       ∧ listing w' id = None
       ∧ (∀ id', id' ≠ id -> listing w' id' = listing w id')
       ∧ showDeleteModal p' = false ∧ listingToDelete p' = None
       ∧ isDeleting p' = false ∧ error p' = error p
       ∧ (∀ u product,
            product ∈ userListings (onListings (delivered (listingsQuery u) w') p')
            <-> product ∈ userListings (onListings (delivered (listingsQuery u) w) p)
                ∧ get product "id" ≠ VStr id)).
Proof.
  split.
  - intros H. unfold confirmDelete. by rewrite H.
  - intros selected id Hsel Hid _. unfold confirmDelete.
    rewrite Hsel, (deleteSelected_run _ _ _ Hid).
    set (w' := set_docs _ _ _ w).
    assert (∀ id', listing w' id' = if decide (id' = id) then None else listing w id')
      as Hw'.
    { intros id'. unfold listing, w'. rewrite docs_set_docs. case_decide as E.
      - subst. apply lookup_delete_eq.
      - by apply lookup_delete_ne. }
    eexists _, w'. split; [reflexivity|].
    split; [by rewrite Hw', decide_True|].
    split; [by intros id' Hne; rewrite Hw', decide_False|].
    do 4 (split; [done|]).
    intros u product. rewrite !onListings_elem. split.
    + intros (id' & d & Hl & Hu & Hc & ->). rewrite Hw' in Hl.
      case_decide as E; [done|]. split; [by exists id', d|].
      unfold get. rewrite fromFirestore_id. simpl. congruence.
    + intros [(id' & d & Hl & Hu & Hc & ->) Hne]. exists id', d.
      split; [|done]. rewrite Hw'. case_decide as E; [|done]. subst.
      destruct Hne. unfold get. by rewrite fromFirestore_id.
Qed.

End my_listings_page.

(** ** The dashboard of the admin *)

Section dashboard.

Import AdminDashboardPage.

Implicit Types (w : World) (p : Page) (d : Obj).

Lemma status_snapshot_length (k : AdStatus) (ds : gmap string Obj) :
  length (runQuery (query "listings" [where_eq "status" (k : Value)]) ds)
  = length (filter (fun s : string * Obj => get s.2 "status" = (k : Value))
                   (map_to_list ds)).
Proof.
  unfold runQuery. cbn [q_constraints foldl applyConstraint]. f_equal.
  apply list_filter_iff. intros [i d]. simpl. unfold get. split.
  - by intros ->.
  - destruct (d !! "status"); simpl; [by intros ->|]. by destruct k.
Qed.

(** X17: when nothing else writes in between, [fetchDashboardData] writes
    nothing itself and sets counts that fit each other: the total is the
    number of stored listings, the counts of active, pending and rejected
    listings add up to at most the total, and to exactly the total when,
    and only when, every stored listing has one of the three statuses. *)
Theorem fetchDashboardData_counts p w :
  ∃ st,
    fetchDashboardData p w
    = ({| stats := Some st; isLoading := false; recentPending := recentPending p |}, w)
    ∧ totalListings st = size (docs w "listings")
    ∧ (totalActive st + totalPending st + totalRejected st <= totalListings st)%nat
    ∧ (map_Forall (fun _ d => ∃ k : AdStatus, get d "status" = (k : Value))
                  (docs w "listings")
       <-> (totalActive st + totalPending st + totalRejected st)%nat = totalListings st).
Proof.
  eexists. split; [reflexivity|]. cbn [totalListings totalActive totalPending totalRejected].
  cbn [q_collection]. rewrite !status_snapshot_length.
  assert (length (runQuery (query "listings" []) (docs w "listings"))
          = length (map_to_list (docs w "listings"))) as -> by reflexivity.
  destruct (three_way_count
              (fun s : string * Obj => get s.2 "status" = (ACTIVE : Value))
              (fun s : string * Obj => get s.2 "status" = (PENDING : Value))
              (fun s : string * Obj => get s.2 "status" = (REJECTED : Value))
              ltac:(intros x; by apply status_apart)
              ltac:(intros x; by apply status_apart)
              ltac:(intros x; by apply status_apart)
              (map_to_list (docs w "listings"))) as [Hle Heq].
  split; [apply length_map_to_list|]. split; [exact Hle|].
  rewrite <- Heq, map_Forall_to_list. apply Forall_iff. intros [i d]. simpl.
  symmetry. apply status_three_ways.
Qed.

(** X18: the listener of the dashboard shows at most five pending listings,
    each one a stored listing with status [pending], and sets the count of
    pending listings to the size of its snapshot; when the creation times in
    the store are timestamps of the store, the listings it shows are the
    newest: a pending listing it leaves out is not newer than any it shows. *)
Theorem onRecentPending_shows_newest p w :
  let snapshot := delivered recentPendingQuery w in
  let p' := onRecentPending snapshot p in
  (length (recentPending p') <= 5)%nat
  ∧ recentPending p' ++ drop 5 (fromFirestoreToProduct <$> snapshot)
    = fromFirestoreToProduct <$> snapshot
  ∧ (∀ product, product ∈ fromFirestoreToProduct <$> snapshot <->
        ∃ id d, listing w id = Some d ∧ d !! "status" = Some (VStr "pending")
                ∧ is_Some (d !! "createdAt") ∧ product = fromFirestore (id, d))
  ∧ (totalPending <$> stats p' = (fun _ => length snapshot) <$> stats p)
  ∧ (listingsStamped w ->
     ∀ shown hidden, shown ∈ recentPending p' ->
                     hidden ∈ drop 5 (fromFirestoreToProduct <$> snapshot) ->
                     newestFirst shown hidden).
Proof.
  intros snapshot p'. split; [|split; [|split; [|split]]].
  - unfold p', onRecentPending. cbn [recentPending]. rewrite length_take. lia.
  - apply take_drop.
  - intros product. apply (selected_elem "status" (VStr "pending") w product).
  - unfold p', onRecentPending. cbn [stats]. by destruct (stats p).
  - intros Hst shown hidden Hs Hh.
    assert (StronglySorted newestFirst (fromFirestoreToProduct <$> snapshot)) as Hsorted.
    { apply converted_newestFirst; [|apply selection_sorted].
      apply Forall_forall. intros [id d] (Hl & _)%selection_elem. exact (Hst id d Hl). }
    rewrite <- (take_drop 5 (fromFirestoreToProduct <$> snapshot)) in Hsorted.
    by apply (StronglySorted_app_1_elem_of _ _ _ shown hidden) in Hsorted.
Qed.

End dashboard.

(** ** The chat on the page of a product *)

Section product_chat.

Implicit Types (w : World) (p : ProductPage.Page) (d m : Obj) (u productId : string).

Lemma sendMessage_without_receiver adId senderId text w :
  ∃ e, sendMessage adId senderId "" text w = (Thrown e, w).
Proof.
  unfold sendMessage. change (negb (truthy (VStr ""))) with true.
  rewrite orb_true_r. by eexists.
Qed.

(** X19: the form of the chat sends at most one message, and only from a
    signed-in viewer to the seller of the product shown, never to the
    viewer's own listing and never a blank text: either the store is as it
    was and the typed text is kept, or exactly one new document is stored
    among the messages, unread, with the trimmed text, and the form is
    cleared. *)
Theorem handleSendMessage_sends_to_seller trim currentUserId p w :
  let r := ProductPage.handleSendMessage trim currentUserId p w in
  (r.2 = w ∧ ProductPage.newMessageText r.1 = ProductPage.newMessageText p)
  ∨ (∃ product sender mid,
       ProductPage.product p = Some product ∧ currentUserId = Some sender
       ∧ sender ≠ "" ∧ ProductPage.userId product ≠ sender
       ∧ trim (ProductPage.newMessageText p) ≠ ""
       ∧ message w mid = None
       ∧ message r.2 mid
         = Some (messageFields (ProductPage.id product) sender (ProductPage.userId product)
                   (trim (ProductPage.newMessageText p)) (VTimestamp (serverTime w)) false)
       ∧ (∀ mid', mid' ≠ mid -> message r.2 mid' = message w mid')
       ∧ (∀ c, c ≠ MESSAGES_COLLECTION -> docs r.2 c = docs w c)
       ∧ ProductPage.newMessageText r.1 = "").
Proof.
  intros r. subst r. unfold ProductPage.handleSendMessage.
  destruct (ProductPage.product p) as [product|]; [|by left].
  destruct currentUserId as [sender|]; [|by left].
  destruct (truthy (VStr (trim (ProductPage.newMessageText p)))) eqn:Ht; [|by left].
  destruct (truthy (VStr sender)) eqn:Hs; [|by left].
  destruct (String.eqb (ProductPage.userId product) sender) eqn:He; [by left|].
  cbn [negb orb].
  assert (trim (ProductPage.newMessageText p) ≠ "") as Ht'.
  { intros E. apply truthy_string in E. congruence. }
  assert (sender ≠ "") as Hs'.
  { intros E. apply truthy_string in E. congruence. }
  apply String.eqb_neq in He.
  destruct (decide (ProductPage.userId product = "")) as [Hr|Hr].
  - rewrite Hr.
    destruct (sendMessage_without_receiver (ProductPage.id product) sender
                (trim (ProductPage.newMessageText p)) w) as [e ->].
    by left.
  - pose proof (sendMessage_ok (ProductPage.id product) sender (ProductPage.userId product)
                  (trim (ProductPage.newMessageText p)) w Hs' Hr) as Hrun.
    cbv zeta in Hrun. rewrite Hrun. right.
    exists product, sender, (autoId (docs w MESSAGES_COLLECTION)).
    do 5 (split; [done|]). cbn [fst snd ProductPage.newMessageText].
    split; [apply autoId_fresh|]. unfold message.
    split; [by rewrite docs_set_docs, lookup_insert_eq|].
    split; [by intros mid' Hne; rewrite docs_set_docs, lookup_insert_ne|].
    split; [|done]. intros c Hc. by apply docs_set_docs_ne.
Qed.

Lemma between_stored u seller id d :
  ProductPage.between u seller (ProductPage.fromFirestoreToMessage (id, d))
  <-> ProductPage.between u seller d.
Proof.
  unfold ProductPage.between, get.
  change (ProductPage.fromFirestoreToMessage (id, d)) with (messageFromFirestore (id, d)).
  by rewrite !messageFromFirestore_lookup by discriminate.
Qed.

(** The messages the page shows, document by document. *)
Lemma onMessages_elem productId u seller w m :
  messagesWellFormed w ->
  m ∈ filter (ProductPage.between u seller)
        (ProductPage.fromFirestoreToMessage
           <$> delivered (ProductPage.messagesQuery productId) w)
  <-> ∃ id d, message w id = Some d ∧ d !! "adId" = Some (VStr productId)
              ∧ ProductPage.between u seller d
              ∧ m = ProductPage.fromFirestoreToMessage (id, d).
Proof.
  intros Hwf. rewrite list_elem_of_filter, list_elem_of_fmap. split.
  - intros (Hb & [id d] & -> & (Hm & Ha & Ht)%conversation_snapshot_elem).
    exists id, d. by rewrite <- (between_stored u seller id d).
  - intros (id & d & Hm & Ha & Hb & ->). split; [by apply between_stored|].
    exists (id, d). split; [done|]. apply conversation_snapshot_elem.
    split; [done|]. split; [done|].
    destruct (isStoredMessage_fields d (Hwf id d Hm)) as (? & ? & ? & t & ? & _ & _ & _ & -> & _).
    by eexists.
Qed.

(** X20: what the listener of the chat does with the snapshot of a world
    whose messages are as [sendMessage] stores them.  The page shows the
    messages of the product exchanged between viewer and seller, and only
    these, oldest first.  Afterwards no message of the product from the
    seller to the viewer is unread; the only documents that differ are
    messages of the product that were unread and addressed to the viewer,
    now flagged as read. *)
Theorem onMessages_reads_what_it_shows productId u product p w :
  messagesWellFormed w ->
  let seller := ProductPage.userId product in
  let r := ProductPage.onMessages productId u product
             (delivered (ProductPage.messagesQuery productId) w) p w in
  (∀ m, m ∈ ProductPage.messages r.1
        <-> ∃ id d, message w id = Some d ∧ d !! "adId" = Some (VStr productId)
                    ∧ ProductPage.between u seller d
                    ∧ m = ProductPage.fromFirestoreToMessage (id, d))
  ∧ StronglySorted ascending (ProductPage.messages r.1)
  ∧ (∀ id d, message r.2 id = Some d -> unreadFor productId u d ->
             d !! "senderId" ≠ Some (VStr seller))
  ∧ (∀ id, message r.2 id = message w id
           ∨ ∃ d, message w id = Some d ∧ unreadFor productId u d
                  ∧ message r.2 id = Some (<["read" := VBool true]> d))
  ∧ messagesWellFormed r.2.
Proof.
  intros Hwf seller r. subst r. unfold ProductPage.onMessages.
  cbn [fst snd ProductPage.messages].
  split; [intros m; by apply onMessages_elem|].
  split.
  { apply conversation_ascending.
    - apply Forall_forall. intros [id d] (Hm & _)%conversation_snapshot_elem.
      exact (Hwf id d Hm).
    - apply conversation_snapshot_sorted. }
  assert (u = "" -> ∀ id d, message w id = Some d -> ¬ unreadFor productId u d) as Hempty.
  { intros -> id d Hm (_ & Hr & _). by apply (isStoredMessage_receiver d (Hwf id d Hm)). }
  destruct (decide (Exists _ _)) as [Hex|Hex].
  - destruct (decide (u = "")) as [Hu|Hu].
    + rewrite (markMessagesAsRead_no_match productId u w (Hempty Hu)). cbn [snd].
      split; [|split; [by left|done]].
      intros id d Hm Hunread. by destruct (Hempty Hu id d Hm).
    + split; [|split; [|by apply markMessagesAsRead_wellFormed]].
      * intros id d Hm Hunread. rewrite markMessagesAsRead_message in Hm by done.
        destruct (message w id) as [d0|]; [|done]. injection Hm as <-.
        by destruct (markRead_not_unread productId u d0).
      * intros id. rewrite markMessagesAsRead_message by done.
        destruct (message w id) as [d0|]; [|by left].
        cbn [fmap option_fmap option_map]. unfold markRead.
        case_decide as Hunread; [|by left]. right. by exists d0.
  - split; [|split; [by left|done]].
    intros id d Hm Hunread Hsender. apply Hex. apply Exists_exists.
    exists (ProductPage.fromFirestoreToMessage (id, d)).
    destruct Hunread as (Ha & Hr & Hread). split.
    + apply onMessages_elem; [done|]. exists id, d. do 2 (split; [done|]).
      split; [|done]. right. unfold get. by rewrite Hsender, Hr.
    + unfold ProductPage.unreadBy, get.
      change (ProductPage.fromFirestoreToMessage (id, d)) with (messageFromFirestore (id, d)).
      rewrite !messageFromFirestore_lookup by discriminate. by rewrite Hr, Hread.
Qed.

End product_chat.

(** ** The order of the chat previews *)

Section sorting.

Context {A : Type} (cmp : A -> A -> Z).

Lemma sort_insert_Permutation (x : A) (l : list A) : sort_insert cmp x l ≡ₚ x :: l.
Proof.
  induction l as [|y l IH]; [done|]. cbn [sort_insert].
  destruct (cmp y x <=? 0); [|done]. rewrite IH. apply Permutation_swap.
Qed.

Lemma sort_from_Permutation (l acc : list A) :
  foldl (fun sorted x => sort_insert cmp x sorted) acc l ≡ₚ acc ++ l.
Proof.
  revert acc. induction l as [|x l IH]; intros acc; cbn [foldl].
  - by rewrite app_nil_r.
  - rewrite IH, sort_insert_Permutation. apply Permutation_middle.
Qed.

Lemma sort_Permutation (l : list A) : sort cmp l ≡ₚ l.
Proof. apply (sort_from_Permutation l []). Qed.

(** Sorting puts in order the elements that the comparison compares
    consistently. *)
Context (P : A -> Prop).
Hypothesis cmp_total : ∀ a b, P a -> P b -> cmp a b ≤ 0 ∨ cmp b a ≤ 0.
Hypothesis cmp_trans :
  ∀ a b c, P a -> P b -> P c -> cmp a b ≤ 0 -> cmp b c ≤ 0 -> cmp a c ≤ 0.

Lemma sort_insert_sorted (x : A) (l : list A) :
  P x -> Forall P l ->
  StronglySorted (fun a b => cmp a b ≤ 0) l ->
  StronglySorted (fun a b => cmp a b ≤ 0) (sort_insert cmp x l).
Proof.
  intros Hx HP Hsorted. induction Hsorted as [|y l Hs IH Hall]; cbn [sort_insert].
  - by repeat constructor.
  - apply Forall_cons in HP as [Hy HP].
    destruct (Z.leb_spec (cmp y x) 0) as [Hle|Hgt].
    + constructor; [by apply IH|]. rewrite sort_insert_Permutation. by constructor.
    + assert (cmp x y ≤ 0) as Hxy by (destruct (cmp_total x y Hx Hy); [done|lia]).
      constructor; [by constructor|]. constructor; [done|].
      rewrite Forall_forall in Hall, HP. apply Forall_forall. intros z Hz.
      apply (cmp_trans x y z); auto.
Qed.

Lemma sort_from_sorted (l acc : list A) :
  Forall P acc -> Forall P l ->
  StronglySorted (fun a b => cmp a b ≤ 0) acc ->
  StronglySorted (fun a b => cmp a b ≤ 0)
    (foldl (fun sorted x => sort_insert cmp x sorted) acc l).
Proof.
  revert acc. induction l as [|x l IH]; intros acc Hacc Hl Hs; cbn [foldl]; [done|].
  apply Forall_cons in Hl as [Hx Hl]. apply IH; [|done|by apply sort_insert_sorted].
  rewrite sort_insert_Permutation. by constructor.
Qed.

Lemma sort_sorted (l : list A) :
  Forall P l -> StronglySorted (fun a b => cmp a b ≤ 0) (sort cmp l).
Proof. intros Hl. apply sort_from_sorted; [constructor|done|constructor]. Qed.

End sorting.

Section previews.

Import MessagesPage.

Implicit Types (a b c preview : ChatPreview) (prev : list ChatPreview).

(** The comparison of the previews is a consistent one: any two previews
    are ordered one way or the other, and the order is transitive. *)
Lemma comparePreviews_total a b : comparePreviews a b ≤ 0 ∨ comparePreviews b a ≤ 0.
Proof.
  unfold comparePreviews, hasTime, time.
  destruct (unreadCount a) as [|na], (unreadCount b) as [|nb],
           (lastMessageTimestamp a) as [ta|], (lastMessageTimestamp b) as [tb|];
    cbn [Nat.ltb Nat.leb Nat.eqb andb negb default];
    try destruct (Z.eqb_spec ta 0); try destruct (Z.eqb_spec tb 0);
    cbn [andb negb]; lia.
Qed.

Lemma comparePreviews_trans a b c :
  comparePreviews a b ≤ 0 -> comparePreviews b c ≤ 0 -> comparePreviews a c ≤ 0.
Proof.
  unfold comparePreviews, hasTime, time.
  destruct (unreadCount a) as [|na], (unreadCount b) as [|nb], (unreadCount c) as [|nc],
           (lastMessageTimestamp a) as [ta|], (lastMessageTimestamp b) as [tb|],
           (lastMessageTimestamp c) as [tc|];
    cbn [Nat.ltb Nat.leb Nat.eqb andb negb default];
    try destruct (Z.eqb_spec ta 0); try destruct (Z.eqb_spec tb 0);
    try destruct (Z.eqb_spec tc 0);
    cbn [andb negb]; lia.
Qed.

(** A preview with unread messages is never behind one without. *)
Lemma comparePreviews_unread a b :
  comparePreviews a b ≤ 0 -> (0 < unreadCount b)%nat -> (0 < unreadCount a)%nat.
Proof.
  unfold comparePreviews.
  destruct (unreadCount a) as [|na], (unreadCount b) as [|nb];
    cbn [Nat.ltb Nat.leb Nat.eqb andb]; lia.
Qed.

Lemma others_without preview prev :
  filter (fun p => adId p = adId preview)
    (filter (fun p => adId p ≠ adId preview) prev) = [].
Proof.
  induction prev as [|x prev IH]; [done|]. rewrite filter_cons.
  case_decide; [|done]. by rewrite filter_cons_False.
Qed.

Lemma others_NoDup preview prev :
  NoDup (adId <$> prev) ->
  NoDup (adId <$> filter (fun p => adId p ≠ adId preview) prev).
Proof.
  induction prev as [|x prev IH]; [constructor|]. rewrite fmap_cons.
  intros [Hx Hnd]%NoDup_cons. rewrite filter_cons.
  case_decide; [|by apply IH]. rewrite fmap_cons. apply NoDup_cons.
  split; [|by apply IH]. intros Hin. apply Hx.
  apply list_elem_of_fmap in Hin as (y & -> & [_ Hy]%list_elem_of_filter).
  by apply list_elem_of_fmap_2.
Qed.

(** X21: the update of the previews after a snapshot of one listing keeps
    the previews of the other listings, replaces the preview of this listing
    by the new one, so that it occurs exactly once, and leaves the list in
    the order of the comparison: previews with unread messages before the
    others.  Previews that were one per listing stay one per listing. *)
Theorem updatePreviews_one_preview_per_listing preview prev :
  let result := updatePreviews preview prev in
  result ≡ₚ filter (fun p => adId p ≠ adId preview) prev ++ [preview]
  ∧ filter (fun p => adId p = adId preview) result = [preview]
  ∧ StronglySorted (fun a b => comparePreviews a b ≤ 0) result
  ∧ (∀ before after a b, result = before ++ after -> a ∈ before -> b ∈ after ->
       (0 < unreadCount b)%nat -> (0 < unreadCount a)%nat)
  ∧ (NoDup (adId <$> prev) -> NoDup (adId <$> result)).
Proof.
  intros result.
  assert (result ≡ₚ filter (fun p => adId p ≠ adId preview) prev ++ [preview]) as Hperm
    by apply sort_Permutation.
  assert (StronglySorted (fun a b => comparePreviews a b ≤ 0) result) as Hsorted
    by (apply (sort_sorted _ (fun _ => True));
        [intros a b _ _; apply comparePreviews_total
        |intros a b c _ _ _; apply comparePreviews_trans
        |by apply Forall_true]).
  split; [done|]. split; [|split; [done|split]].
  - apply Permutation_singleton_r. rewrite Hperm, filter_app.
    rewrite filter_cons_True, filter_nil by done.
    by rewrite others_without.
  - intros before after a b E Ha Hb. rewrite E in Hsorted.
    apply comparePreviews_unread.
    by apply (StronglySorted_app_1_elem_of _ _ _ a b) in Hsorted.
  - intros Hnd. rewrite Hperm, fmap_app. cbn [fmap list_fmap].
    apply NoDup_app. split; [|split; [|apply NoDup_singleton]].
    + by apply others_NoDup.
    + intros i (y & Hi & [Hy _]%list_elem_of_filter)%list_elem_of_fmap
        Hp%list_elem_of_singleton. congruence.
Qed.

End previews.

(** ** The further properties at work in the scenario *)

(** The skates of [u1] are read back as stored: pending, with the time of
    the store. *)
Lemma createListing_then_getListingById_witness :
  ∃ id stored,
    getListingById id Scenario.two = (Returned (Some stored), Scenario.two)
    ∧ get stored "createdAt" = VNum 1010
    ∧ get stored "status" = VStr "pending".
Proof.
  assert (createListing Scenario.skates (elapse 10 Scenario.listed)
          = (Returned (default ∅ (returned
                         (createListing Scenario.skates (elapse 10 Scenario.listed)).1)),
             Scenario.two)) as Hrun by reflexivity.
  destruct (createListing_then_getListingById Scenario.skates "u1" _ _ _
              eq_refl ltac:(discriminate) Hrun)
    as (id & stored & _ & _ & Hget & Hc & _ & Hs & _).
  exists id, stored. split; [exact Hget|]. split; [exact Hc|exact Hs].
Defined.

(** The bike is deleted. *)
Lemma deleteListing_removes_witness :
  ∃ w', deleteListing "0" Scenario.listed = (Returned true, w')
        ∧ getListingById "0" w' = (Returned None, w').
Proof.
  destruct (deleteListing_removes "0" Scenario.listed) as (w' & Hrun & Hget & _).
  { split; [discriminate|reflexivity]. }
  exists w'. split; [exact Hrun|exact Hget].
Defined.

(** The skates wait for moderation. *)
Lemma createListing_awaits_moderation_witness :
  ∃ id stored pending,
    getPendingListings Scenario.two = (Returned pending, Scenario.two)
    ∧ stored ∈ pending ∧ get stored "id" = VStr id.
Proof.
  assert (createListing Scenario.skates (elapse 10 Scenario.listed)
          = (Returned (default ∅ (returned
                         (createListing Scenario.skates (elapse 10 Scenario.listed)).1)),
             Scenario.two)) as Hrun by reflexivity.
  destruct (createListing_awaits_moderation Scenario.skates "u1" _ _ _
              eq_refl ltac:(discriminate) Hrun)
    as (id & stored & pending & _ & _ & _ & Hid & Hp & Hin & _).
  exists id, stored, pending. split; [exact Hp|]. split; [exact Hin|exact Hid].
Defined.

(** The rejected bike is no longer pending. *)
Lemma rejectListing_hides_listing_witness :
  ∃ pending,
    getPendingListings Scenario.rejected = (Returned pending, Scenario.rejected)
    ∧ ∀ p, p ∈ pending -> get p "id" ≠ VStr "0".
Proof.
  assert (listing Scenario.listed "0" = Some (default ∅ (listing Scenario.listed "0")))
    as Hold by reflexivity.
  destruct (rejectListing_hides_listing "0" "blurry photo" _ Scenario.listed Hold)
    as (w' & pending & active & E & Hp & _ & Hno & _).
  destruct E. exists pending. split; [exact Hp|].
  intros p Hin. apply Hno. left. exact Hin.
Defined.

(** Two messages wait for [u1]. *)
Lemma getUnreadMessagesCountForUser_counts_witness :
  getUnreadMessagesCountForUser "u1" Scenario.busy
  = (Returned (size (unreadMessages Scenario.busy "u1")), Scenario.busy)
  ∧ getUnreadMessagesCountForUser "" Scenario.busy
    = (Returned (size (unreadMessages Scenario.busy "")), Scenario.busy).
Proof.
  split.
  - apply (getUnreadMessagesCountForUser_counts "u1" Scenario.busy). left. discriminate.
  - apply (getUnreadMessagesCountForUser_counts "" Scenario.busy). right.
    exact busy_wellFormed.
Defined.

(** The question of [u3] is one more unread message for [u1]. *)
Lemma sendMessage_adds_one_unread_witness :
  ∃ n,
    (getUnreadMessagesCountForUser "u1" (elapse 5 Scenario.answered)).1 = Returned n
    ∧ (getUnreadMessagesCountForUser "u1" Scenario.busy).1 = Returned (S n).
Proof.
  destruct (sendMessage_adds_one_unread "0" "u3" "u1" "Would you take 100?"
              (elapse 5 Scenario.answered))
    as (n & w' & E & Hbefore & Hafter & _); [discriminate|discriminate|].
  destruct E. exists n. split.
  - exact (f_equal fst Hbefore).
  - exact (f_equal fst Hafter).
Defined.

(** The question of [u2] reaches [u1]. *)
Lemma sendMessage_then_getMessagesForAd_witness :
  ∃ m toReceiver,
    getMessagesForAd "0" "u1" Scenario.asked = (Returned toReceiver, Scenario.asked)
    ∧ m ∈ toReceiver
    ∧ get m "text" = VStr "Is it still available?"
    ∧ get m "read" = VBool false.
Proof.
  destruct (sendMessage_then_getMessagesForAd "0" "u2" "u1" "Is it still available?"
              Scenario.listed)
    as (id & msg & m & w' & toSender & toReceiver & Hrun & _ & _ & _ & _ & Hr & Hin
        & Htext & Hread & _); [discriminate|discriminate|].
  assert (Scenario.asked = w') as E by exact (f_equal snd Hrun).
  destruct E. exists m, toReceiver.
  split; [exact Hr|]. split; [exact Hin|]. split; [exact Htext|exact Hread].
Defined.

(** The chats about the bike outlive it. *)
Lemma deleteListing_keeps_messages_witness :
  (getListingById "0" (deleteListing "0" Scenario.busy).2).1 = Returned None
  ∧ (getChatsForUser "u2" (deleteListing "0" Scenario.busy).2).1
    = (getChatsForUser "u2" Scenario.busy).1.
Proof.
  destruct (deleteListing_keeps_messages "0" Scenario.busy) as (Hget & Hchats & _).
  { split; [discriminate|reflexivity]. }
  split; [exact Hget|exact (Hchats "u2")].
Defined.

(** [u2] cannot edit the bike of [u1]; [u1] can. *)
Lemma edit_page_guards_ownership_witness :
  EditListingPage.initialProduct
    (EditListingPage_useEffect.useEffect (Some "0") (Some "u2")
       (EditListingPage_useEffect.mounted false) Scenario.listed).1.1 = None
  ∧ EditListingPage.initialProduct
      (EditListingPage_useEffect.useEffect (Some "0") (Some "u1")
         (EditListingPage_useEffect.mounted false) Scenario.listed).1.1
    = Some (fromFirestore ("0", default ∅ (listing Scenario.listed "0"))).
Proof.
  assert (listing Scenario.listed "0" = Some (default ∅ (listing Scenario.listed "0")))
    as Hold by reflexivity.
  split.
  - destruct (edit_page_guards_ownership "0" (Some "u2") false _ ∅ Scenario.listed
                ltac:(discriminate) Hold) as (_ & Hno & _).
    destruct Hno as (Hnone & _); [reflexivity| |exact Hnone].
    intros E. vm_compute in E. discriminate E.
  - destruct (edit_page_guards_ownership "0" (Some "u1") false _ ∅ Scenario.listed
                ltac:(discriminate) Hold) as (_ & _ & Hyes).
    assert (false = true ∨ ∃ u, Some "u1" = Some u ∧ u ≠ ""
            ∧ get (default ∅ (listing Scenario.listed "0")) "userId" = VStr u) as Hc.
    { right. exists "u1". split; [reflexivity|]. split; [discriminate|reflexivity]. }
    exact (f_equal (fun x => EditListingPage.initialProduct x.1) (Hyes Hc)).
Defined.

(** [u1] changes the title of the rejected bike: the reason stays. *)
Lemma handleSubmit_keeps_unmentioned_fields_witness :
  field (listing (EditListingPage.handleSubmit {["title" := VStr "Bike, new tyres"]}
                    Scenario.ownerPage Scenario.rejected).2 "0") "rejectionReason"
  = Some (VStr "blurry photo")
  ∧ field (listing (EditListingPage.handleSubmit {["title" := VStr "Bike, new tyres"]}
                      Scenario.ownerPage Scenario.rejected).2 "0") "title"
    = Some (VStr "Bike, new tyres").
Proof.
  assert (listing Scenario.rejected "0" = Some (default ∅ (listing Scenario.rejected "0")))
    as Hold by reflexivity.
  destruct (handleSubmit_keeps_unmentioned_fields {["title" := VStr "Bike, new tyres"]}
              Scenario.ownerPage Scenario.initial "0" _ Scenario.rejected
              eq_refl eq_refl Hold) as (Hkept & Hset & _).
  { apply map_Forall_singleton. discriminate. }
  { left. reflexivity. }
  split.
  - rewrite (Hkept "rejectionReason"); [reflexivity|discriminate|left; reflexivity].
  - rewrite (Hset "title" (VStr "Bike, new tyres")); [reflexivity|discriminate|discriminate|reflexivity].
Defined.

(** [u2] opens the chat about the bike. *)
Lemma onMessages_reads_what_it_shows_witness :
  let product := {| ProductPage.id := "0"; ProductPage.userId := "u1" |} in
  let p := {| ProductPage.product := Some product; ProductPage.messages := [];
              ProductPage.newMessageText := ""; ProductPage.isSendingMessage := false;
              ProductPage.isLoadingMessages := true; ProductPage.showChat := true |} in
  let r := ProductPage.onMessages "0" "u2" product
             (delivered (ProductPage.messagesQuery "0") Scenario.busy) p Scenario.busy in
  StronglySorted ascending (ProductPage.messages r.1)
  ∧ (∀ id d, message r.2 id = Some d -> unreadFor "0" "u2" d ->
             d !! "senderId" ≠ Some (VStr "u1"))
  ∧ messagesWellFormed r.2.
Proof.
  intros product p r.
  destruct (onMessages_reads_what_it_shows "0" "u2" product p Scenario.busy busy_wellFormed)
    as (_ & Hsorted & Hread & _ & Hwf).
  split; [exact Hsorted|]. split; [exact Hread|exact Hwf].
Defined.

(** ** The listings as a whole *)

Section all_listings.

Implicit Types (w : World) (id u : string) (d p : Obj).

Lemma all_snapshot_elem (ds : gmap string Obj) id d :
  (id, d) ∈ runQuery (query LISTINGS_COLLECTION [orderBy "createdAt" Desc]) ds
  <-> ds !! id = Some d ∧ is_Some (d !! "createdAt").
Proof.
  unfold runQuery. cbn [q_constraints foldl applyConstraint].
  rewrite merge_sort_Permutation.
  rewrite list_elem_of_filter, elem_of_map_to_list. simpl. tauto.
Qed.

(** X22: [getAllListings] writes nothing and returns the stored listings
    that have a creation time, as converted by [fromFirestore], and nothing
    else: a listing stored without one is left out.  Whatever
    [getActiveListings], [getPendingListings] or [getListingsByUserId]
    return is among them. *)
Theorem getAllListings_covers w :
  ∃ all,
    getAllListings w = (Returned all, w)
    ∧ (∀ p, p ∈ all <->
            ∃ id d, listing w id = Some d ∧ is_Some (d !! "createdAt")
                    ∧ p = fromFirestore (id, d))
    ∧ (∀ id d, listing w id = Some d -> d !! "createdAt" = None ->
               ∀ p, p ∈ all -> get p "id" ≠ VStr id)
    ∧ (∀ u p, p ∈ default [] (returned (getActiveListings w).1)
              ∨ p ∈ default [] (returned (getPendingListings w).1)
              ∨ p ∈ default [] (returned (getListingsByUserId u w).1) ->
              p ∈ all).
Proof.
  eexists. split; [reflexivity|].
  assert (∀ p, p ∈ fromFirestore <$>
                     runQuery (query LISTINGS_COLLECTION [orderBy "createdAt" Desc])
                              (docs w LISTINGS_COLLECTION)
               <-> ∃ id d, listing w id = Some d ∧ is_Some (d !! "createdAt")
                           ∧ p = fromFirestore (id, d)) as Helem.
  { intros p. rewrite list_elem_of_fmap. split.
    - intros ([id d] & -> & [Hl Hc]%all_snapshot_elem). by exists id, d.
    - intros (id & d & Hl & Hc & ->). exists (id, d). split; [done|].
      by apply all_snapshot_elem. }
  split; [exact Helem|]. split.
  - intros id d Hl Hnone p (id' & d' & Hl' & Hc & ->)%Helem. unfold get.
    rewrite fromFirestore_id. simpl. intros [= ->].
    rewrite Hl in Hl'. injection Hl' as <-. rewrite Hnone in Hc. by destruct Hc.
  - intros u p Hin. apply Helem.
    destruct Hin as [H|[H|H]];
      [apply (selected_elem "status" (VStr "active") w p) in H
      |apply (selected_elem "status" (VStr "pending") w p) in H
      |apply (selected_elem "userId" (VStr u) w p) in H];
      destruct H as (id & d & Hl & _ & Hc & ->); by exists id, d.
Qed.

End all_listings.

(** ** The preview of a chat *)

Section chat_previews.

Import MessagesPage.

Implicit Types (w : World) (adId u id : string) (d m : Obj).

Lemma filter_ext_elem {A} (P Q : A -> Prop) `{!∀ x, Decision (P x), !∀ x, Decision (Q x)}
    (l : list A) :
  (∀ x, x ∈ l -> P x <-> Q x) -> filter P l = filter Q l.
Proof.
  induction l as [|x l IH]; intros Hext; [done|]. rewrite !filter_cons.
  rewrite IH by (intros y Hy; apply Hext; by right).
  destruct (decide (P x)) as [HP|HP], (decide (Q x)) as [HQ|HQ]; try done.
  - destruct HQ. apply Hext; [by left|done].
  - destruct HP. apply Hext; [by left|done].
Qed.

Lemma filter_fmap_length {A B} (f : A -> B) (P : B -> Prop) `{!∀ y, Decision (P y)}
    (l : list A) :
  length (filter P (f <$> l)) = length (filter (fun x => P (f x)) l).
Proof.
  induction l as [|x l IH]; [done|]. rewrite fmap_cons, !filter_cons.
  destruct (decide (P (f x))); cbn [length]; by rewrite IH.
Qed.

Lemma StronglySorted_on {A} (P : A -> Prop) (R R' : A -> A -> Prop) (l : list A) :
  (∀ a b, P a -> P b -> R a b -> R' a b) ->
  Forall P l -> StronglySorted R l -> StronglySorted R' l.
Proof.
  intros HR HP Hs. induction Hs as [|x l Hs IH Hall]; [constructor|].
  apply Forall_cons in HP as [Hx HP]. constructor; [by apply IH|].
  rewrite Forall_forall in Hall, HP. apply Forall_forall. intros y Hy.
  apply HR; auto.
Qed.

(** The descending snapshot of the page has the documents of the ascending
    one of [getMessagesForAd]. *)
Lemma adMessages_snapshot adId (ds : gmap string Obj) :
  runQuery (adMessagesQuery adId) ds
  ≡ₚ filter (fun s : string * Obj => is_Some (s.2 !! "timestamp"))
       (filter (fun s : string * Obj => s.2 !! "adId" = Some (VStr adId)) (map_to_list ds)).
Proof.
  unfold runQuery, adMessagesQuery. cbn [q_constraints foldl applyConstraint].
  apply merge_sort_Permutation.
Qed.

Lemma messagesForAd_Permutation u adId w :
  messagesForAd u (delivered (adMessagesQuery adId) w)
  ≡ₚ filter (isParticipant u)
       (fromFirestoreToMessage <$>
          filter (fun s : string * Obj => is_Some (s.2 !! "timestamp"))
            (filter (fun s : string * Obj => s.2 !! "adId" = Some (VStr adId))
               (map_to_list (docs w MESSAGES_COLLECTION)))).
Proof.
  unfold messagesForAd, delivered. rewrite sort_Permutation.
  change (q_collection (adMessagesQuery adId)) with MESSAGES_COLLECTION.
  by rewrite adMessages_snapshot.
Qed.

Lemma stored_get d k s : d !! k = Some (VStr s) <-> get d k = VStr s.
Proof.
  unfold get. split; [by intros ->|]. by destruct (d !! k); simpl; [intros ->|].
Qed.

Lemma messagesForAd_elem u adId w m :
  messagesWellFormed w ->
  m ∈ messagesForAd u (delivered (adMessagesQuery adId) w)
  <-> ∃ id d, message w id = Some d ∧ inConversation adId u d
              ∧ m = fromFirestoreToMessage (id, d).
Proof.
  intros Hwf. rewrite messagesForAd_Permutation.
  rewrite list_elem_of_filter, list_elem_of_fmap. split.
  - intros (Hp & [id d] & -> & Hin).
    rewrite !list_elem_of_filter, elem_of_map_to_list in Hin. simpl in Hin.
    destruct Hin as (_ & Ha & Hm). exists id, d. split; [done|]. split; [|done].
    split; [done|]. apply (isParticipant_involves u id d (Hwf id d Hm)), Hp.
  - intros (id & d & Hm & [Ha Hi] & ->). split.
    + by apply (isParticipant_involves u id d (Hwf id d Hm)).
    + exists (id, d). split; [done|].
      rewrite !list_elem_of_filter, elem_of_map_to_list. simpl.
      split; [|done].
      destruct (isStoredMessage_fields d (Hwf id d Hm))
        as (? & ? & ? & t & ? & _ & _ & _ & -> & _).
      by eexists.
Qed.

Lemma messagesForAd_timed u adId w :
  messagesWellFormed w ->
  Forall timed (messagesForAd u (delivered (adMessagesQuery adId) w)).
Proof.
  intros Hwf. apply Forall_forall. intros m (id & d & Hm & _ & ->)%messagesForAd_elem; [|done].
  destruct (isStoredMessage_fields d (Hwf id d Hm))
    as (? & ? & ? & t & ? & _ & _ & _ & Ht & _).
  exists t. change (fromFirestoreToMessage (id, d)) with (messageFromFirestore (id, d)).
  rewrite messageFromFirestore_timestamp. unfold get. by rewrite Ht.
Qed.

Lemma byTimestamp_total a b :
  timed a -> timed b -> byTimestamp a b ≤ 0 ∨ byTimestamp b a ≤ 0.
Proof. intros [ta Ha] [tb Hb]. unfold byTimestamp. rewrite Ha, Hb. lia. Qed.

Lemma byTimestamp_trans a b c :
  timed a -> timed b -> timed c ->
  byTimestamp a b ≤ 0 -> byTimestamp b c ≤ 0 -> byTimestamp a c ≤ 0.
Proof.
  intros [ta Ha] [tb Hb] [tc Hc]. unfold byTimestamp. rewrite Ha, Hb, Hc. lia.
Qed.

Lemma byTimestamp_ascending a b :
  timed a -> timed b -> byTimestamp a b ≤ 0 -> ascending a b.
Proof.
  intros [ta Ha] [tb Hb]. unfold byTimestamp. rewrite Ha, Hb. intros H.
  exists ta, tb. repeat split; [done|done|lia].
Qed.

(** The messages the page counts as unread are the ones the store has as
    unread for the user. *)
Lemma unreadBy_stored u adId id d :
  isStoredMessage d = true ->
  ((ProductPage.unreadBy u (fromFirestoreToMessage (id, d))
    ∧ isParticipant u (fromFirestoreToMessage (id, d)))
   ∧ is_Some (d !! "timestamp"))
  ∧ d !! "adId" = Some (VStr adId)
  <-> unreadFor adId u d.
Proof.
  intros (a & s & r & t & b & Ha & Hs & Hr & Ht & Hb & _)%isStoredMessage_fields.
  unfold ProductPage.unreadBy, isParticipant, unreadFor, get.
  change (fromFirestoreToMessage (id, d)) with (messageFromFirestore (id, d)).
  rewrite !messageFromFirestore_lookup by discriminate.
  rewrite Ha, Hs, Hr, Ht, Hb. simpl. split.
  - intros ((([Hu Hread] & _) & _) & Had). by destruct b; simplify_eq.
  - intros (Had & Hu & Hread). simplify_eq. repeat split; auto.
Qed.

(** X23: what the listener of the messages page makes of the snapshot of a
    listing, over a store whose messages are as [sendMessage] stores them.
    The messages are those of the listing that the user sent or received,
    the same ones [getMessagesForAd] returns, in ascending order of time;
    the count of unread ones is the number of stored messages of the listing
    that are addressed to the user and unread, which are the ones
    [markMessagesAsRead] would flag; the last message is missing exactly
    when there is no such conversation, and no message of the conversation
    is newer than it. *)
Theorem messagesForAd_preview adId u w :
  messagesWellFormed w ->
  let messages := messagesForAd u (delivered (adMessagesQuery adId) w) in
  (∀ m, m ∈ messages
        <-> ∃ id d, message w id = Some d ∧ inConversation adId u d
                    ∧ m = fromFirestoreToMessage (id, d))
  ∧ (u ≠ "" -> ∃ l, getMessagesForAd adId u w = (Returned l, w) ∧ messages ≡ₚ l)
  ∧ StronglySorted ascending messages
  ∧ countUnread u messages
    = size (filter (fun kv : string * Obj => unreadFor adId u kv.2)
                   (docs w MESSAGES_COLLECTION))
  ∧ (lastMessage messages = None
     <-> ∀ id d, message w id = Some d -> ¬ inConversation adId u d)
  ∧ (∀ m, lastMessage messages = Some m ->
          m ∈ messages ∧ ∀ m', m' ∈ messages -> ascending m' m).
Proof.
  intros Hwf messages.
  assert (∀ m, m ∈ messages
               <-> ∃ id d, message w id = Some d ∧ inConversation adId u d
                           ∧ m = fromFirestoreToMessage (id, d)) as Helem
    by (intros m; by apply messagesForAd_elem).
  assert (Forall timed messages) as Htimed by (by apply messagesForAd_timed).
  assert (StronglySorted ascending messages) as Hsorted.
  { apply (StronglySorted_on timed (fun a b => byTimestamp a b ≤ 0));
      [apply byTimestamp_ascending|done|].
    apply (sort_sorted _ timed); [apply byTimestamp_total|apply byTimestamp_trans|].
    apply Forall_forall. intros m Hm. rewrite Forall_forall in Htimed.
    apply Htimed. unfold messages, messagesForAd. by rewrite sort_Permutation. }
  split; [exact Helem|]. split; [|split; [exact Hsorted|split; [|split]]].
  - intros Hu. eexists. split; [by apply getMessagesForAd_run|].
    unfold messages. rewrite messagesForAd_Permutation.
    change fromFirestoreToMessage with messageFromFirestore.
    by rewrite conversation_snapshot, merge_sort_Permutation.
  - unfold countUnread, messages. rewrite messagesForAd_Permutation.
    rewrite list_filter_filter, filter_fmap_length, !list_filter_filter.
    rewrite <- length_map_to_list, map_to_list_filter_perm. f_equal.
    apply filter_ext_elem. intros [id d] Hin%elem_of_map_to_list.
    apply (unreadBy_stored u adId id d (Hwf id d Hin)).
  - unfold lastMessage. rewrite last_None. split.
    + intros E id d Hm Hc.
      assert (fromFirestoreToMessage (id, d) ∈ messages) as Hin
        by (apply Helem; by exists id, d).
      rewrite E in Hin. by apply not_elem_of_nil in Hin.
    + intros Hno. destruct messages as [|m ms] eqn:E; [done|].
      destruct (proj1 (Helem m) ltac:(left)) as (id & d & Hm & Hc & _).
      by destruct (Hno id d Hm).
  - unfold lastMessage. intros m [ms E]%last_Some. rewrite E in *.
    split; [apply elem_of_app; right; by left|].
    intros m' [Hin| ->%list_elem_of_singleton]%elem_of_app.
    + by apply (StronglySorted_app_1_elem_of _ _ _ m' m) in Hsorted; [|done|left].
    + apply Forall_app in Htimed as [_ [[t Ht] _]%Forall_cons].
      exists t, t. repeat split; [done|done|lia].
Qed.

(** The chat of [u1] about the bike: two messages wait. *)
Lemma messagesForAd_preview_witness :
  StronglySorted ascending
    (messagesForAd "u1" (delivered (adMessagesQuery "0") Scenario.busy))
  ∧ countUnread "u1" (messagesForAd "u1" (delivered (adMessagesQuery "0") Scenario.busy))
    = size (filter (fun kv : string * Obj => unreadFor "0" "u1" kv.2)
                   (docs Scenario.busy MESSAGES_COLLECTION)).
Proof.
  destruct (messagesForAd_preview "0" "u1" Scenario.busy busy_wellFormed)
    as (_ & _ & Hsorted & Hcount & _).
  split; [exact Hsorted|exact Hcount].
Defined.

End chat_previews.
